(** * serve.py: a static file server that adds CORS headers

    A shallow embedding of [serve.py].  The script defines one class,
    [CORSHTTPRequestHandler], a subclass of Python's
    [http.server.SimpleHTTPRequestHandler] that overrides [end_headers] and
    adds [do_OPTIONS], and a main block that changes directory, binds a
    [socketserver.TCPServer] and serves forever.

    The two methods and the main block are translated from [serve.py].  The
    methods they inherit or call ([send_response], [send_header], the base
    [end_headers], [send_error], [send_head], [translate_path], [copyfile],
    [handle_one_request], [TCPServer]) are translated from CPython's
    [Lib/http/server.py], [Lib/posixpath.py], [Lib/shutil.py] and
    [Lib/socketserver.py] (3.11), each under the name it has there.  Text
    is modelled as [string]: a sequence of 8-bit characters, which is what
    a request line decoded as iso-8859-1 is; encoding such text as latin-1
    gives the same bytes back.

    A method returns or raises.  The exceptions modelled are those the
    library lets through on a connection that can be written to: of
    [open], other than [OSError]; of [urlsplit]; of the encoding of a
    directory listing; of [bind] on a port in use.  Writing to a client
    that has gone away, and symbolic links in the path of the script, are
    set aside.

    The file has five parts: the program, the vocabulary of its
    specifications, the lemmas about its methods, the claims of the
    specification, each with the theorem that settles it, and further
    properties of the server. *)

From Stdlib Require Import String Ascii List ZArith Lia Bool Arith.
From Stdlib Require Import DecimalString.
Import ListNotations.

Local Open Scope list_scope.
Local Open Scope string_scope.

(* ================================================================== *)
(** * Python string operations used by the handler *)
(* ================================================================== *)

Module Py.

Definition CR : ascii := ascii_of_nat 13.
Definition LF : ascii := ascii_of_nat 10.
Definition CRLF : string := String CR (String LF EmptyString).

(** [str(n)] and ["%d" % n]. *)
Definition str (n : Z) : string := NilZero.string_of_int (Z.to_int n).

(** [len(s)]. *)
Definition len (s : string) : Z := Z.of_nat (String.length s).

(** [c.isspace()] on the code points below 256. *)
Definition isspace (c : ascii) : bool :=
  let n := nat_of_ascii c in
  (((9 <=? n) && (n <=? 13)) || ((28 <=? n) && (n <=? 32))
   || (n =? 133) || (n =? 160))%nat.

Definition is_char (a : ascii) (c : ascii) : bool := Ascii.eqb a c.

Definition nonempty (s : string) : bool :=
  match s with EmptyString => false | _ => true end.

Definition startswith (s p : string) : bool := String.prefix p s.

Fixpoint endswith (s p : string) : bool :=
  String.eqb s p
  || match s with
     | EmptyString => false
     | String _ s' => endswith s' p
     end.

(** The common loop of [s.split()] and [s.split(sep)]: [cur] is the piece
    being read.  With [keep_empty] every separator ends a piece
    ([s.split(sep)]); without it empty pieces are dropped ([s.split()]). *)
Fixpoint split_go (sep : ascii -> bool) (keep_empty : bool)
         (s cur : string) : list string :=
  match s with
  | EmptyString => if keep_empty || nonempty cur then [cur] else []
  | String c s' =>
      if sep c
      then ((if keep_empty || nonempty cur then [cur] else [])
              ++ split_go sep keep_empty s' EmptyString)%list
      else split_go sep keep_empty s' (cur ++ String c EmptyString)
  end.

(** [s.split()]: the whitespace-separated words of [s]. *)
Definition split_ws (s : string) : list string :=
  split_go isspace false s EmptyString.

(** [s.split(sep)] for a one-character separator. *)
Definition split (sep : ascii) (s : string) : list string :=
  split_go (is_char sep) true s EmptyString.

(** [s.split(sep, 1)]: the text before the first [sep] and, when there is
    one, the text after it. *)
Fixpoint split1 (sep : ascii) (s : string) : string * option string :=
  match s with
  | EmptyString => (EmptyString, None)
  | String c s' =>
      if Ascii.eqb c sep then (EmptyString, Some s')
      else let (a, b) := split1 sep s' in (String c a, b)
  end.

(** [s.rstrip(chars)], the characters to strip given as a predicate. *)
Fixpoint rstrip (p : ascii -> bool) (s : string) : string :=
  match s with
  | EmptyString => EmptyString
  | String c s' =>
      let r := rstrip p s' in
      if negb (nonempty r) && p c then EmptyString else String c r
  end.

Fixpoint lstrip (p : ascii -> bool) (s : string) : string :=
  match s with
  | EmptyString => EmptyString
  | String c s' => if p c then lstrip p s' else s
  end.

(** [c.lower()] on the code points below 256: A-Z, and the accented
    capitals 0xC0-0xDE but for the multiplication sign 0xD7. *)
Definition lower_char (c : ascii) : ascii :=
  let n := nat_of_ascii c in
  if (((65 <=? n) && (n <=? 90))
      || ((192 <=? n) && (n <=? 222) && negb (n =? 215)))%nat
  then ascii_of_nat (n + 32) else c.

Fixpoint lower (s : string) : string :=
  match s with
  | EmptyString => EmptyString
  | String c s' => String (lower_char c) (lower s')
  end.

(** [sep.join(l)]. *)
Definition join (sep : string) (l : list string) : string :=
  String.concat sep l.

End Py.

(* ================================================================== *)
(** * [posixpath] *)
(* ================================================================== *)

Module posixpath.

Definition sep : ascii := "/"%char.
Definition is_sep : ascii -> bool := Py.is_char sep.

(** [posixpath.join(a, b)]. *)
Definition join (a b : string) : string :=
  if Py.startswith b "/" then b
  else if negb (Py.nonempty a) || Py.endswith a "/" then a ++ b
  else a ++ "/" ++ b.

(** The text of [p] up to and including its last ['/'] ([p[:i]] with
    [i = p.rfind('/') + 1]). *)
Fixpoint head_upto_last_sep (p : string) : string :=
  match p with
  | EmptyString => EmptyString
  | String c p' =>
      let h := head_upto_last_sep p' in
      if Py.nonempty h || is_sep c then String c h else EmptyString
  end.

Fixpoint all_sep (s : string) : bool :=
  match s with
  | EmptyString => true
  | String c s' => is_sep c && all_sep s'
  end.

(** [posixpath.dirname(p)]. *)
Definition dirname (p : string) : string :=
  let head := head_upto_last_sep p in
  if Py.nonempty head && negb (all_sep head)
  then Py.rstrip is_sep head else head.

Definition isabs (s : string) : bool := Py.startswith s "/".

(** The loop of [normpath] over the components; [new_comps] is kept in
    reverse, its head being the last component appended. *)
Fixpoint normpath_comps (initial_slashes : nat) (comps : list string)
         (new_comps : list string) : list string :=
  match comps with
  | [] => rev new_comps
  | comp :: rest =>
      if String.eqb comp "" || String.eqb comp "." then
        normpath_comps initial_slashes rest new_comps
      else if negb (String.eqb comp "..")
              || ((initial_slashes =? 0)%nat
                  && match new_comps with [] => true | _ => false end)
              || match new_comps with
                 | last :: _ => String.eqb last ".."
                 | [] => false
                 end
      then normpath_comps initial_slashes rest (comp :: new_comps)
      else match new_comps with
           | _ :: popped => normpath_comps initial_slashes rest popped
           | [] => normpath_comps initial_slashes rest new_comps
           end
  end.

(** [posixpath.normpath(path)]. *)
Definition normpath (path : string) : string :=
  if negb (Py.nonempty path) then "." else
  let initial_slashes : nat :=
    if Py.startswith path "/" then
      if Py.startswith path "//" && negb (Py.startswith path "///")
      then 2 else 1
    else 0 in
  let comps := normpath_comps initial_slashes (Py.split sep path) [] in
  let path := Py.join "/" comps in
  let path :=
    match initial_slashes with
    | 0%nat => path
    | 1%nat => "/" ++ path
    | _ => "//" ++ path
    end in
  if Py.nonempty path then path else ".".

(** [posixpath.abspath(path)], the working directory given. *)
Definition abspath (cwd path : string) : string :=
  normpath (if isabs path then path else join cwd path).

End posixpath.

(* ================================================================== *)
(** * The request handler object *)
(* ================================================================== *)

(** What [wfile.write] is given: the joined header buffer (kept here as the
    list of its lines) or the bytes of a body. *)
Inductive chunk : Type :=
  | Headers (lines : list string)
  | Payload (data : string).

Definition chunk_bytes (c : chunk) : string :=
  match c with
  | Headers lines => Py.join "" lines
  | Payload data => data
  end.

(** A line that [log_message] writes to [sys.stderr]: the arguments of
    [log_request] or of [log_error]. *)
Inductive log_record : Type :=
  | LogRequest (requestline : string) (code : Z)
  | LogError (code : Z) (message : string).

(** The instance attributes of a handler.  [_headers_buffer] is [None] until
    the attribute exists ([hasattr(self, '_headers_buffer')]); [command] is
    [None] where Python has [self.command = None].  The other attributes are
    assigned before they are read; [new_handler] gives them a placeholder.
    [now] is what [time.time()] returns while the request is handled,
    [wfile] the writes to the connection in order, and [stderr] the lines
    the handler has logged. *)
Record handler : Type := mkHandler {
  directory : string;
  now : Z;
  raw_requestline : string;
  requestline : string;
  request_version : string;
  command : option string;
  path : string;
  headers : list (string * string);
  close_connection : bool;
  _headers_buffer : option (list string);
  wfile : list chunk;
  stderr : list log_record
}.

Definition set_raw_requestline v h :=
  mkHandler (directory h) (now h) v (requestline h) (request_version h)
    (command h) (path h) (headers h) (close_connection h)
    (_headers_buffer h) (wfile h) (stderr h).
Definition set_requestline v h :=
  mkHandler (directory h) (now h) (raw_requestline h) v (request_version h)
    (command h) (path h) (headers h) (close_connection h)
    (_headers_buffer h) (wfile h) (stderr h).
Definition set_request_version v h :=
  mkHandler (directory h) (now h) (raw_requestline h) (requestline h) v
    (command h) (path h) (headers h) (close_connection h)
    (_headers_buffer h) (wfile h) (stderr h).
Definition set_command v h :=
  mkHandler (directory h) (now h) (raw_requestline h) (requestline h)
    (request_version h) v (path h) (headers h) (close_connection h)
    (_headers_buffer h) (wfile h) (stderr h).
Definition set_path v h :=
  mkHandler (directory h) (now h) (raw_requestline h) (requestline h)
    (request_version h) (command h) v (headers h) (close_connection h)
    (_headers_buffer h) (wfile h) (stderr h).
Definition set_headers v h :=
  mkHandler (directory h) (now h) (raw_requestline h) (requestline h)
    (request_version h) (command h) (path h) v (close_connection h)
    (_headers_buffer h) (wfile h) (stderr h).
Definition set_close_connection v h :=
  mkHandler (directory h) (now h) (raw_requestline h) (requestline h)
    (request_version h) (command h) (path h) (headers h) v
    (_headers_buffer h) (wfile h) (stderr h).
Definition set_headers_buffer v h :=
  mkHandler (directory h) (now h) (raw_requestline h) (requestline h)
    (request_version h) (command h) (path h) (headers h)
    (close_connection h) v (wfile h) (stderr h).
Definition set_wfile v h :=
  mkHandler (directory h) (now h) (raw_requestline h) (requestline h)
    (request_version h) (command h) (path h) (headers h)
    (close_connection h) (_headers_buffer h) v (stderr h).
Definition set_stderr v h :=
  mkHandler (directory h) (now h) (raw_requestline h) (requestline h)
    (request_version h) (command h) (path h) (headers h)
    (close_connection h) (_headers_buffer h) (wfile h) v.

(** The bytes the client has received. *)
Definition sent (h : handler) : string :=
  Py.join "" (map chunk_bytes (wfile h)).

(** ** Methods as state transformers that may raise *)

(** The exceptions of the program, each with the text of [str(err)].
    [UnicodeEncodeError] is a [ValueError] in Python; nothing here catches
    either. *)
Inductive exn : Type :=
  | AttributeError (attr : string)
  | OSError (msg : string)
  | ValueError (msg : string)
  | UnicodeEncodeError (msg : string).

(** A computation on a state [S] that returns a value or raises; the state
    it leaves is kept in both cases. *)
Definition StateExn (S A : Type) : Type := S -> (exn + A) * S.

Definition ret {S A} (a : A) : StateExn S A := fun s => (inr a, s).

Definition bind {S A B} (m : StateExn S A) (k : A -> StateExn S B)
  : StateExn S B :=
  fun s =>
    match m s with
    | (inl e, s') => (inl e, s')
    | (inr a, s') => k a s'
    end.

Definition raise {S A} (e : exn) : StateExn S A := fun s => (inl e, s).
Definition gets {S A} (f : S -> A) : StateExn S A := fun s => (inr (f s), s).
Definition modify {S} (f : S -> S) : StateExn S unit :=
  fun s => (inr tt, f s).

Declare Scope py_scope.
Delimit Scope py_scope with py.
Notation "x <- m ;; k" := (bind m (fun x => k))
  (at level 61, m at next level, right associativity) : py_scope.
Notation "m ;; k" := (bind m (fun _ => k))
  (at level 61, right associativity) : py_scope.
Local Open Scope py_scope.

(** The state a computation leaves. *)
Definition exec {S A} (m : StateExn S A) (s : S) : S := snd (m s).

(** A method of the handler. *)
Definition M (A : Type) : Type := StateExn handler A.

(** ** What the platform provides

    Library functions whose result the handler only passes on.  The theorems
    hold for every platform. *)
Record platform : Type := {
  (** [self.responses[code]]: the phrase and the description of a status. *)
  responses : Z -> option (string * string);
  (** [self.version_string()]. *)
  version_string : string;
  (** [self.date_time_string(timestamp)]. *)
  date_time_string : Z -> string;
  (** ["%r" % s]. *)
  repr : string -> string;
  (** [self.error_message_format % {code, message, explain}], the last two
      through [html.escape], encoded as UTF-8. *)
  error_page : Z -> string -> string -> string;
  (** [int(s)]; [None] where Python raises [ValueError]. *)
  str_to_int : string -> option Z;
  (** [urllib.parse.unquote(path, errors='surrogatepass')], or
      [urllib.parse.unquote(path)] when that raises. *)
  unquote : string -> string;
  (** [self.guess_type(path)]. *)
  guess_type : string -> string;
  (** [urllib.parse.urlsplit(self.path).path], or the exception that
      [urlsplit] raises ([ValueError] for a bracket without its pair in
      the host part). *)
  urlsplit_path : string -> exn + string;
  (** The URL [send_head] redirects to: [self.path] with a slash added to
      its path. *)
  redirect_url : string -> string;
  (** The page [list_directory] builds from the file system path,
      [self.path] and the sorted entries, encoded with
      [.encode(enc, 'surrogateescape')], or the exception that the encoding
      raises ([UnicodeEncodeError] for a lone surrogate). *)
  listing_page : string -> string -> list string -> exn + string;
  (** [sys.getfilesystemencoding()]. *)
  getfilesystemencoding : string;
  (** Whether the [If-Modified-Since] header of the request, read as
      [send_head] reads it, is not before the [st_mtime] of the file. *)
  not_modified_since : list (string * string) -> Z -> bool
}.

(** An open file: the bytes it holds, and [st_size] and [st_mtime] of
    [os.fstat(f.fileno())]. *)
Record file_object : Type := {
  f_data : string;
  st_size : Z;
  st_mtime : Z
}.

(** The file system as the handler sees it.  [isdir] and [isfile] are
    [os.path.isdir] and [os.path.isfile], which return [False] where
    [os.stat] raises.  [open_rb] is [open(path, 'rb')]: the file, or the
    exception raised, [OSError] for a file that is missing or may not be
    read, [ValueError] for a path with a null byte, [UnicodeEncodeError]
    for one with a lone surrogate.  [listdir] is [os.listdir], [None] where
    it raises [OSError]. *)
Record filesystem : Type := {
  isdir : string -> bool;
  isfile : string -> bool;
  open_rb : string -> exn + file_object;
  listdir : string -> option (list string)
}.

(* ================================================================== *)
(** * [http.server.BaseHTTPRequestHandler] *)
(* ================================================================== *)

Module BaseHTTPRequestHandler.

Definition protocol_version : string := "HTTP/1.0".
Definition default_request_version : string := "HTTP/0.9".
Definition error_content_type : string := "text/html;charset=utf-8".

(** [("%s %d %s\r\n" % (protocol_version, code, message))]. *)
Definition status_line (code : Z) (message : string) : string :=
  protocol_version ++ " " ++ Py.str code ++ " " ++ message ++ Py.CRLF.

(** [("%s: %s\r\n" % (keyword, value))]. *)
Definition header_line (keyword value : string) : string :=
  keyword ++ ": " ++ value ++ Py.CRLF.

(** [if not hasattr(self, '_headers_buffer'): self._headers_buffer = []]. *)
Definition ensure_headers_buffer : M unit :=
  modify (fun h =>
    match _headers_buffer h with
    | None => set_headers_buffer (Some []) h
    | Some _ => h
    end).

(** [self._headers_buffer.append(line)]. *)
Definition headers_buffer_append (line : string) : M unit :=
  fun h =>
    match _headers_buffer h with
    | None => (inl (AttributeError "_headers_buffer"), h)
    | Some buf => (inr tt, set_headers_buffer (Some (buf ++ [line])%list) h)
    end.

(** [self.wfile.write(data)]. *)
Definition wfile_write (c : chunk) : M unit :=
  modify (fun h => set_wfile (wfile h ++ [c])%list h).

(** [log_request] and [log_error] write one line to [sys.stderr], through
    [log_message]. *)
Definition log_request (code : Z) : M unit :=
  modify (fun h =>
    set_stderr (stderr h ++ [LogRequest (requestline h) code])%list h).

Definition log_error (code : Z) (message : string) : M unit :=
  modify (fun h => set_stderr (stderr h ++ [LogError code message])%list h).

Section Methods.
Variable P : platform.

(** [send_response_only] appends the status line to [_headers_buffer], under
    [if self.request_version != 'HTTP/0.9':]. *)
Definition send_response_only (code : Z) (message : option string)
  : M unit :=
  version <- gets request_version ;;
  if negb (version =? "HTTP/0.9") then
    let message :=
      match message with
      | Some m => m
      | None =>
          match responses P code with
          | Some (phrase, _) => phrase
          | None => ""
          end
      end in
    ensure_headers_buffer ;;
    headers_buffer_append (status_line code message)
  else ret tt.

(** [send_header] appends the header line to [_headers_buffer], under
    [if self.request_version != 'HTTP/0.9':]; then a [Connection] header
    sets [close_connection]. *)
Definition send_header (keyword value : string) : M unit :=
  version <- gets request_version ;;
  (if negb (version =? "HTTP/0.9") then
     ensure_headers_buffer ;;
     headers_buffer_append (header_line keyword value)
   else ret tt) ;;
  if Py.lower keyword =? "connection" then
    if Py.lower value =? "close" then
      modify (set_close_connection true)
    else if Py.lower value =? "keep-alive" then
      modify (set_close_connection false)
    else ret tt
  else ret tt.

(** [flush_headers] writes the joined buffer and empties it, when the
    attribute exists. *)
Definition flush_headers : M unit :=
  buffer <- gets _headers_buffer ;;
  match buffer with
  | Some lines =>
      wfile_write (Headers lines) ;;
      modify (set_headers_buffer (Some []))
  | None => ret tt
  end.

(** The inherited [end_headers] appends the blank line and flushes the
    buffer, under [if self.request_version != 'HTTP/0.9':]. *)
Definition end_headers : M unit :=
  version <- gets request_version ;;
  if negb (version =? "HTTP/0.9") then
    headers_buffer_append Py.CRLF ;;
    flush_headers
  else ret tt.

(** [send_response] logs the request, then buffers the status line and the
    [Server] and [Date] headers. *)
Definition send_response (code : Z) (message : option string) : M unit :=
  log_request code ;;
  send_response_only code message ;;
  send_header "Server" (version_string P) ;;
  t <- gets now ;;
  send_header "Date" (date_time_string P t).

End Methods.

(** ** Methods that call back into [self]

    [send_error] and [handle_one_request] call [self.end_headers()] and
    [getattr(self, 'do_' + command)]: the method the class of [self]
    defines.  Both are variables here and are fixed where a class is
    assembled. *)

(** What [http.client.parse_headers] makes of the lines after the request
    line: the header fields, or one of its two exceptions with the text of
    [str(err)]. *)
Inductive parsed_headers : Type :=
  | HeaderFields (fields : list (string * string))
  | LineTooLong (err : string)
  | TooManyHeaders (err : string).

(** One request as [rfile] delivers it: what [readline(65537)] returns and
    the header lines that follow.  An empty [raw_line] is the end of the
    stream. *)
Record message : Type := {
  raw_line : string;
  header_lines : parsed_headers
}.

Definition end_of_stream : message :=
  {| raw_line := ""; header_lines := HeaderFields [] |}.

(** [headers.get(name, default)]: the first field of that name, names
    compared without case. *)
Fixpoint headers_get (name default : string)
         (fields : list (string * string)) : string :=
  match fields with
  | [] => default
  | (k, v) :: rest =>
      if Py.lower k =? Py.lower name then v
      else headers_get name default rest
  end.

(** [(a, b) >= (c, d)] on pairs of integers. *)
Definition pair_ge (x y : Z * Z) : bool :=
  (fst y <? fst x)%Z || ((fst x =? fst y)%Z && (snd y <=? snd x)%Z).

(** The characters of [rstrip('\r\n')]. *)
Definition is_newline (c : ascii) : bool :=
  Ascii.eqb c Py.CR || Ascii.eqb c Py.LF.

(** [self.command == name], where [command] may be [None]. *)
Definition command_is (name : string) (c : option string) : bool :=
  match c with
  | Some c => c =? name
  | None => false
  end.

Section Virtual.
Variable P : platform.
Variable self_end_headers : M unit.
Variable self_getattr : string -> option (M unit).

(** [send_error]: an error response, with the error page as its body unless
    the status has none or the request is a [HEAD]. *)
Definition send_error (code : Z) (message explain : option string)
  : M unit :=
  let (shortmsg, longmsg) :=
    match responses P code with
    | Some p => p
    | None => ("???", "???")
    end in
  let message := match message with Some m => m | None => shortmsg end in
  let explain := match explain with Some e => e | None => longmsg end in
  log_error code message ;;
  send_response P code (Some message) ;;
  send_header "Connection" "close" ;;
  body <-
    (if (200 <=? code)%Z
        && negb ((code =? 204)%Z || (code =? 205)%Z || (code =? 304)%Z)
     then
       let body := error_page P code message explain in
       send_header "Content-Type" error_content_type ;;
       send_header "Content-Length" (Py.str (Py.len body)) ;;
       ret (Some body)
     else ret None) ;;
  self_end_headers ;;
  cmd <- gets command ;;
  match body with
  | Some body =>
      if negb (command_is "HEAD" cmd) && Py.nonempty body
      then wfile_write (Payload body)
      else ret tt
  | None => ret tt
  end.

(** [handle_expect_100]: the interim response [100 Continue]. *)
Definition handle_expect_100 : M bool :=
  send_response_only P 100 None ;;
  self_end_headers ;;
  ret true.

(** The [try] block of [parse_request] that reads the version: the pair
    of numbers and the text after ["HTTP/"], or [None] for [ValueError]
    and [IndexError]. *)
Definition parse_version (version : string)
  : option (Z * Z * string) :=
  if negb (Py.startswith version "HTTP/") then None else
  match snd (Py.split1 "/"%char version) with
  | None => None
  | Some base_version_number =>
      match Py.split "."%char base_version_number with
      | [major; minor] =>
          match str_to_int P major, str_to_int P minor with
          | Some a, Some b => Some (a, b, base_version_number)
          | _, _ => None
          end
      | _ => None
      end
  end.

(** The part of [parse_request] after the request line: the header
    fields, [Connection] and [Expect]. *)
Definition parse_request_headers (m : message) : M bool :=
  match header_lines m with
  | LineTooLong err =>
      send_error 431 (Some "Line too long") (Some err) ;; ret false
  | TooManyHeaders err =>
      send_error 431 (Some "Too many headers") (Some err) ;; ret false
  | HeaderFields fields =>
      modify (set_headers fields) ;;
      let conntype := headers_get "Connection" "" fields in
      (if Py.lower conntype =? "close" then
         modify (set_close_connection true)
       else if (Py.lower conntype =? "keep-alive")
               && String.leb "HTTP/1.1" protocol_version then
         modify (set_close_connection false)
       else ret tt) ;;
      let expect := headers_get "Expect" "" fields in
      version <- gets request_version ;;
      if (Py.lower expect =? "100-continue")
         && String.leb "HTTP/1.1" protocol_version
         && String.leb "HTTP/1.1" version
      then handle_expect_100
      else ret true
  end.

(** The part of [parse_request] from the check of the number of words
    on. *)
Definition parse_request_words (m : message) (requestline : string)
           (words : list string) : M bool :=
  match words with
  | command :: path :: rest =>
      if negb (Nat.leb (List.length words) 3) then
        send_error 400
          (Some ("Bad request syntax (" ++ repr P requestline ++ ")"))
          None ;;
        ret false
      else
        ok <-
          (match rest with
           | [] =>
               modify (set_close_connection true) ;;
               if negb (command =? "GET") then
                 send_error 400
                   (Some ("Bad HTTP/0.9 request type ("
                          ++ repr P command ++ ")")) None ;;
                 ret false
               else ret true
           | _ => ret true
           end) ;;
        if negb ok then ret false else
        modify (set_command (Some command)) ;;
        modify (set_path path) ;;
        (if Py.startswith path "//" then
           modify (set_path ("/" ++ Py.lstrip (Py.is_char "/"%char) path))
         else ret tt) ;;
        parse_request_headers m
  | _ =>
      send_error 400
        (Some ("Bad request syntax (" ++ repr P requestline ++ ")"))
        None ;;
      ret false
  end.

(** [parse_request]: the request line is split into words; a version in
    the third word is checked and kept, and a request line of two words
    keeps the default version, [HTTP/0.9].  Returns whether the request is
    to be dispatched; when it is not for an error, the error has been
    sent. *)
Definition parse_request (m : message) : M bool :=
  modify (set_command None) ;;
  modify (set_request_version default_request_version) ;;
  modify (set_close_connection true) ;;
  raw <- gets raw_requestline ;;
  let requestline := Py.rstrip is_newline raw in
  modify (set_requestline requestline) ;;
  let words := Py.split_ws requestline in
  match words with
  | [] => ret false
  | _ =>
      if Nat.leb 3 (List.length words) then
        let version := last words "" in
        match parse_version version with
        | None =>
            send_error 400
              (Some ("Bad request version (" ++ repr P version ++ ")"))
              None ;;
            ret false
        | Some (major, minor, base_version_number) =>
            (if pair_ge (major, minor) (1, 1)%Z
                && String.leb "HTTP/1.1" protocol_version
             then modify (set_close_connection false) else ret tt) ;;
            if pair_ge (major, minor) (2, 0)%Z then
              send_error 505
                (Some ("Invalid HTTP version ("
                       ++ base_version_number ++ ")")) None ;;
              ret false
            else
              modify (set_request_version version) ;;
              parse_request_words m requestline words
        end
      else parse_request_words m requestline words
  end.

(** [handle_one_request]: reads the request line, parses the request and
    calls the method [do_] followed by the command, or sends 501 when the
    handler has none. *)
Definition handle_one_request (m : message) : M unit :=
  modify (set_raw_requestline (raw_line m)) ;;
  if (65536 <? Py.len (raw_line m))%Z then
    modify (set_requestline "") ;;
    modify (set_request_version "") ;;
    modify (set_command (Some "")) ;;
    send_error 414 None None
  else if negb (Py.nonempty (raw_line m)) then
    modify (set_close_connection true)
  else
    ok <- parse_request m ;;
    if negb ok then ret tt else
    cmd <- gets command ;;
    let cmd := match cmd with Some c => c | None => "" end in
    match self_getattr ("do_" ++ cmd) with
    | None =>
        send_error 501
          (Some ("Unsupported method (" ++ repr P cmd ++ ")")) None
    | Some method => method
    end.

(** [handle]: one request, then more while the connection is kept
    open.  [msgs] is what [rfile] still holds; when it is used up
    [readline] returns the empty string. *)
Fixpoint handle_requests (msgs : list message) : M unit :=
  match msgs with
  | [] => handle_one_request end_of_stream
  | m :: rest =>
      handle_one_request m ;;
      close <- gets close_connection ;;
      if close then ret tt else handle_requests rest
  end.

Definition handle (msgs : list message) : M unit :=
  modify (set_close_connection true) ;;
  handle_requests msgs.

End Virtual.

End BaseHTTPRequestHandler.

(* ================================================================== *)
(** * [shutil.copyfileobj] *)
(* ================================================================== *)

Module shutil.

(** [COPY_BUFSIZE = 64 * 1024], its value on POSIX. *)
Definition COPY_BUFSIZE : nat := Z.to_nat (64 * 1024).

(** [fsrc.read(length)] on a file that still holds [data]: the bytes read,
    at most [length] of them, and the bytes left. *)
Fixpoint read (length : nat) (data : string) : string * string :=
  match length, data with
  | S n, String c rest =>
      let (buf, left) := read n rest in (String c buf, left)
  | _, _ => (EmptyString, data)
  end.

(** The loop of [copyfileobj]: [buf = fsrc_read(length)], [break] when it
    is empty, [fdst_write(buf)].  [fuel] bounds the number of turns; more
    turns than the file has bytes are never needed. *)
Fixpoint copy_loop (fuel : nat) (data : string) : M unit :=
  match fuel with
  | O => ret tt
  | S fuel' =>
      let (buf, left) := read COPY_BUFSIZE data in
      if negb (Py.nonempty buf) then ret tt
      else
        BaseHTTPRequestHandler.wfile_write (Payload buf) ;;
        copy_loop fuel' left
  end.

(** [copyfileobj(fsrc, fdst)], with [fdst] the connection and [data] what
    [fsrc] holds. *)
Definition copyfileobj (data : string) : M unit :=
  copy_loop (S (String.length data)) data.

End shutil.

(* ================================================================== *)
(** * [http.server.SimpleHTTPRequestHandler] *)
(* ================================================================== *)

Module SimpleHTTPRequestHandler.
Import BaseHTTPRequestHandler.

(** Reading [self.path]. *)
Definition self_path : M string := gets path.

Section Virtual.
Variable P : platform.
Variable fs : filesystem.
Variable self_end_headers : M unit.

(** The body of the loop of [translate_path] over the words. *)
Definition translate_word (path word : string) : string :=
  if Py.nonempty (posixpath.dirname word)
     || (word =? ".") || (word =? "..")
  then path
  else posixpath.join path word.

(** [translate_path]: query and fragment are cut off, the path is decoded
    and normalised, and its words are joined to [self.directory], leaving
    out every word that is [.], [..] or has a directory part. *)
Definition translate_path (path : string) : M string :=
  let path := fst (Py.split1 "?"%char path) in
  let path := fst (Py.split1 "#"%char path) in
  let trailing_slash := Py.endswith (Py.rstrip Py.isspace path) "/" in
  let path := unquote P path in
  let path := posixpath.normpath path in
  let words := filter Py.nonempty (Py.split "/"%char path) in
  directory <- gets directory ;;
  let path := fold_left translate_word words directory in
  ret (if trailing_slash then path ++ "/" else path).

(** [list_directory]: the listing as a page of its own, or 404 when the
    directory cannot be read ([except OSError]).  The page is built and
    encoded before the response is started; an exception of the encoding is
    not caught. *)
Definition list_directory (path : string) : M (option file_object) :=
  match listdir fs path with
  | None =>
      send_error P self_end_headers 404
        (Some "No permission to list directory") None ;;
      ret None
  | Some list =>
      self_path <- self_path ;;
      let enc := getfilesystemencoding P in
      match listing_page P path self_path list with
      | inl err => raise err
      | inr encoded =>
          send_response P 200 None ;;
          send_header "Content-type" ("text/html; charset=" ++ enc) ;;
          send_header "Content-Length" (Py.str (Py.len encoded)) ;;
          self_end_headers ;;
          ret (Some {| f_data := encoded; st_size := Py.len encoded;
                       st_mtime := 0 |})
      end
  end.

(** [send_head] from [ctype = self.guess_type(path)] on.  [open] is in a
    [try] with [except OSError] alone: any other exception goes on to the
    caller. *)
Definition send_head_file (path : string) : M (option file_object) :=
  let ctype := guess_type P path in
  if Py.endswith path "/" then
    send_error P self_end_headers 404 (Some "File not found") None ;;
    ret None
  else
    match open_rb fs path with
    | inl (OSError _) =>
        send_error P self_end_headers 404 (Some "File not found") None ;;
        ret None
    | inl err => raise err
    | inr f =>
        fields <- gets headers ;;
        if not_modified_since P fields (st_mtime f) then
          send_response P 304 None ;;
          self_end_headers ;;
          ret None
        else
          send_response P 200 None ;;
          send_header "Content-type" ctype ;;
          send_header "Content-Length" (Py.str (st_size f)) ;;
          send_header "Last-Modified" (date_time_string P (st_mtime f)) ;;
          self_end_headers ;;
          ret (Some f)
    end.

(** [send_head]: a directory is redirected to its path with a slash, or
    answered with its index file or its listing; anything else is opened as
    a file.  [urllib.parse.urlsplit(self.path)] is called for a directory,
    and an exception it raises is not caught. *)
Definition send_head : M (option file_object) :=
  self_path <- self_path ;;
  path <- translate_path self_path ;;
  if isdir fs path then
    match urlsplit_path P self_path with
    | inl err => raise err
    | inr parts_path =>
        if negb (Py.endswith parts_path "/") then
          send_response P 301 None ;;
          send_header "Location" (redirect_url P self_path) ;;
          send_header "Content-Length" "0" ;;
          self_end_headers ;;
          ret None
        else
          match find (isfile fs)
                     [posixpath.join path "index.html";
                      posixpath.join path "index.htm"] with
          | Some index => send_head_file index
          | None => list_directory path
          end
    end
  else send_head_file path.

(** [copyfile]: [shutil.copyfileobj(source, outputfile)]. *)
Definition copyfile (f : file_object) : M unit :=
  shutil.copyfileobj (f_data f).

(** [do_GET] and [do_HEAD]: the head, and for [GET] the file after it. *)
Definition do_GET : M unit :=
  f <- send_head ;;
  match f with
  | Some f => copyfile f
  | None => ret tt
  end.

Definition do_HEAD : M unit :=
  f <- send_head ;;
  ret tt.

(** The [do_*] attributes of an instance. *)
Definition getattr (name : string) : option (M unit) :=
  if name =? "do_GET" then Some do_GET
  else if name =? "do_HEAD" then Some do_HEAD
  else None.

End Virtual.

End SimpleHTTPRequestHandler.

(* ================================================================== *)
(** * [serve.py]: class [CORSHTTPRequestHandler] *)
(* ================================================================== *)

Module CORSHTTPRequestHandler.
Import BaseHTTPRequestHandler.

(** [def end_headers(self)]: three [send_header] calls, then
    [super().end_headers()]. *)
Definition end_headers : M unit :=
  send_header "Access-Control-Allow-Origin" "*" ;;
  send_header "Access-Control-Allow-Methods" "GET, POST, OPTIONS" ;;
  send_header "Access-Control-Allow-Headers" "Content-Type" ;;
  BaseHTTPRequestHandler.end_headers.

Section Methods.
Variable P : platform.
Variable fs : filesystem.

(** [def do_OPTIONS(self)].  [self] is an instance of this class, which
    has no subclass, so [self.end_headers] is the method above. *)
Definition do_OPTIONS : M unit :=
  send_response P 200 None ;;
  end_headers.

(** The [do_*] attributes of an instance: [do_OPTIONS], and what the
    base class defines, called on this [self]. *)
Definition getattr (name : string) : option (M unit) :=
  if name =? "do_OPTIONS" then Some do_OPTIONS
  else SimpleHTTPRequestHandler.getattr P fs end_headers name.

(** The inherited methods, with [self] an instance of this class. *)
Definition send_error := BaseHTTPRequestHandler.send_error P end_headers.
Definition send_head := SimpleHTTPRequestHandler.send_head P fs end_headers.
Definition do_GET := SimpleHTTPRequestHandler.do_GET P fs end_headers.
Definition do_HEAD := SimpleHTTPRequestHandler.do_HEAD P fs end_headers.
Definition handle_one_request :=
  BaseHTTPRequestHandler.handle_one_request P end_headers getattr.
Definition handle :=
  BaseHTTPRequestHandler.handle P end_headers getattr.

End Methods.

End CORSHTTPRequestHandler.

(* ================================================================== *)
(** * The process: [socketserver.TCPServer] and the main block *)
(* ================================================================== *)

(** One accepted connection: the time it is handled at and the requests its
    stream delivers. *)
Record connection : Type := {
  conn_time : Z;
  conn_messages : list BaseHTTPRequestHandler.message
}.

(** What the process does, in order. *)
Inductive event : Type :=
  | Chdir (dir : string)
  | SocketBind (host : string) (port : Z)
  | SocketListen (backlog : Z)
  | SocketClose
  | Print (line : string)
  | Handled (h : handler)
  | Traceback (e : exn).

(** The state of the process that the script reads and writes: the working
    directory, and the events so far. *)
Record process : Type := {
  cwd : string;
  trace : list event
}.

(** A step of the process, and the step that adds an event to the trace. *)
Definition Proc (A : Type) : Type := StateExn process A.

Definition emit (e : event) : Proc unit :=
  modify (fun p => {| cwd := cwd p; trace := (trace p ++ [e])%list |}).

(** How the script is started: [__file__], the command line, the
    environment, and whether port 8000 can be bound. *)
Record launch : Type := {
  script_file : string;
  argv : list string;
  environ : list (string * string);
  port_free : bool
}.

Module os.

(** [os.chdir(dir)] (symbolic links aside, [os.getcwd()] then returns
    [dir]). *)
Definition chdir (dir : string) : Proc unit :=
  modify (fun p => {| cwd := dir; trace := trace p |}) ;;
  emit (Chdir dir).

Definition getcwd : Proc string := gets cwd.

End os.

Definition print (line : string) : Proc unit := emit (Print line).

(** [try: body except Exception: handler]. *)
Definition try_except {S A} (body : StateExn S A)
           (handler : exn -> StateExn S A) : StateExn S A :=
  fun s =>
    match body s with
    | (inl e, s') => handler e s'
    | (inr a, s') => (inr a, s')
    end.

(** The state of a handler when [__init__] starts.  The object has then
    none of the attributes [raw_requestline], [requestline],
    [request_version], [command], [path], [headers] and
    [close_connection]: [handle], [handle_one_request] and [parse_request]
    assign each of them before any method reads it, so the values given to
    them here are not read on a run of [handle].  [_headers_buffer] is
    missing until [send_response_only] or [send_header] makes it. *)
Definition new_handler (directory : string) (now : Z) : handler :=
  {| directory := directory; now := now;
     raw_requestline := ""; requestline := ""; request_version := "";
     command := None; path := ""; headers := []; close_connection := true;
     _headers_buffer := None; wfile := []; stderr := [] |}.

Module TCPServer.

Definition request_queue_size : Z := 5.

Section Server.
Variable P : platform.
Variable fs : filesystem.
Variable L : launch.

(** [TCPServer.__init__]: [server_bind], then [server_activate]; when
    the address is in use [bind] raises, the socket is closed and the
    exception goes on. *)
Definition init (server_address : string * Z) : Proc unit :=
  emit (SocketBind (fst server_address) (snd server_address)) ;;
  if port_free L then emit (SocketListen request_queue_size)
  else emit SocketClose ;; raise (OSError "Address already in use").

(** [finish_request]: [RequestHandlerClass(request, client_address,
    self)].  [SimpleHTTPRequestHandler.__init__] reads [os.getcwd()]
    into [self.directory]; [BaseRequestHandler.__init__] runs
    [handle]. *)
Definition finish_request (c : connection) : Proc unit :=
  directory <- os.getcwd ;;
  let self := new_handler directory (conn_time c) in
  let (result, self) :=
    CORSHTTPRequestHandler.handle P fs (conn_messages c) self in
  emit (Handled self) ;;
  match result with
  | inl e => raise e
  | inr _ => ret tt
  end.

(** [process_request] and [_handle_request_noblock]: an exception of the
    handler is reported by [handle_error] and the loop goes on. *)
Definition process_request (c : connection) : Proc unit :=
  finish_request c.

Definition handle_request_noblock (c : connection) : Proc unit :=
  try_except (process_request c) (fun e => emit (Traceback e)).

(** [serve_forever] over the connections accepted so far; the loop
    itself does not end. *)
Fixpoint serve_forever (conns : list connection) : Proc unit :=
  match conns with
  | [] => ret tt
  | c :: rest => handle_request_noblock c ;; serve_forever rest
  end.

End Server.

End TCPServer.

(** ** [if __name__ == "__main__":] *)

Section Main.
Variable P : platform.
Variable fs : filesystem.
Variable L : launch.

(** [PORT = 8000]. *)
Definition PORT : Z := 8000.

(** The main block, over the connections accepted while it runs.
    [os.path.abspath(__file__)] joins [__file__] to the working directory.
    [serve_forever] does not return, so the exit of the [with] statement is
    not reached. *)
Definition main (conns : list connection) : Proc unit :=
  cwd <- os.getcwd ;;
  os.chdir (posixpath.dirname (posixpath.abspath cwd (script_file L))) ;;
  TCPServer.init L ("", PORT) ;;
  print ("Server running at http://localhost:" ++ Py.str PORT ++ "/") ;;
  print ("Test the modular page at: http://localhost:" ++ Py.str PORT
         ++ "/node-guides/procurement-provisioning/index-modular.html") ;;
  TCPServer.serve_forever P fs conns.

(** The process when the interpreter starts the script in [dir]. *)
Definition start (dir : string) : process := {| cwd := dir; trace := [] |}.

End Main.

(* ================================================================== *)
(** * A concrete platform and site, for running the model *)
(* ================================================================== *)

Module Demo.

(** Entries of [http.HTTPStatus] that the handler uses. *)
Definition reason_phrases (code : Z) : option (string * string) :=
  if (code =? 100)%Z then
    Some ("Continue", "Request received, please continue")
  else if (code =? 200)%Z then
    Some ("OK", "Request fulfilled, document follows")
  else if (code =? 301)%Z then
    Some ("Moved Permanently", "Object moved permanently -- see URI list")
  else if (code =? 304)%Z then
    Some ("Not Modified", "Document has not changed since given time")
  else if (code =? 400)%Z then
    Some ("Bad Request", "Bad request syntax or unsupported method")
  else if (code =? 404)%Z then
    Some ("Not Found", "Nothing matches the given URI")
  else if (code =? 414)%Z then
    Some ("Request-URI Too Long", "URI is too long")
  else if (code =? 431)%Z then
    Some ("Request Header Fields Too Large",
          "The server is unwilling to process the request because its header fields are too large")
  else if (code =? 501)%Z then
    Some ("Not Implemented", "Server does not support this operation")
  else if (code =? 505)%Z then
    Some ("HTTP Version Not Supported", "Cannot fulfill request")
  else None.

Definition digit (c : ascii) : option Z :=
  let n := nat_of_ascii c in
  if ((48 <=? n) && (n <=? 57))%nat then Some (Z.of_nat (n - 48)) else None.

(** Decimal numerals without sign, as they occur in ["HTTP/1.1"]. *)
Fixpoint digits (s : string) (acc : Z) : option Z :=
  match s with
  | EmptyString => Some acc
  | String c s' =>
      match digit c with
      | Some d => digits s' (10 * acc + d)%Z
      | None => None
      end
  end.

Definition decimal (s : string) : option Z :=
  if Py.nonempty s then digits s 0 else None.

(** A platform for running the model on request paths that start with one
    slash and hold no [%]: fixed texts for the server version and the date
    and an error page without the explanation.  [unquote] is the identity,
    which is what [urllib.parse.unquote] is on a text without [%];
    [urlsplit_path] is what [urlsplit] gives for a path that starts with
    one slash, the text before the first [#] and, in that, before the first
    [?]; [listing_page] stands for the page of [list_directory]. *)
Definition cpython : platform :=
  {| responses := reason_phrases;
     version_string := "SimpleHTTP/0.6 Python/3.11.2";
     date_time_string := fun _ => "Thu, 01 Jan 1970 00:00:00 GMT";
     repr := fun s => "'" ++ s ++ "'";
     error_page := fun code message explain =>
       "<h1>Error response</h1><p>Error code: " ++ Py.str code
       ++ "</p><p>Message: " ++ message ++ ".</p>";
     str_to_int := decimal;
     unquote := fun s => s;
     guess_type := fun p =>
       if Py.endswith p ".html" then "text/html"
       else "application/octet-stream";
     urlsplit_path := fun p =>
       inr (fst (Py.split1 "?"%char (fst (Py.split1 "#"%char p))));
     redirect_url := fun p => p ++ "/";
     listing_page := fun _ _ names =>
       inr ("<ul>" ++ Py.join "," names ++ "</ul>");
     getfilesystemencoding := "utf-8";
     not_modified_since := fun _ _ => false |}.

Definition file (data : string) : file_object :=
  {| f_data := data; st_size := Py.len data; st_mtime := 0 |}.

(** [open] on a path that holds a null byte. *)
Definition has_null (p : string) : bool :=
  existsb (fun c => Ascii.eqb c (ascii_of_nat 0)) (list_ascii_of_string p).

(** A site under [/srv/site] with [index.html], [etc/passwd] and an empty
    directory [img]. *)
Definition site : filesystem :=
  {| isdir := fun p =>
       (p =? "/srv/site") || (p =? "/srv/site/")
       || (p =? "/srv/site/etc") || (p =? "/srv/site/etc/")
       || (p =? "/srv/site/img") || (p =? "/srv/site/img/");
     isfile := fun p =>
       (p =? "/srv/site/index.html") || (p =? "/srv/site/etc/passwd");
     open_rb := fun p =>
       if has_null p then inl (ValueError "embedded null byte")
       else if p =? "/srv/site/index.html" then inr (file "<p>home</p>")
       else if p =? "/srv/site/etc/passwd" then inr (file "site-users")
       else inl (OSError "No such file or directory");
     listdir := fun p =>
       if (p =? "/srv/site") || (p =? "/srv/site/")
       then Some ["etc"; "img"; "index.html"]
       else if (p =? "/srv/site/etc") || (p =? "/srv/site/etc/")
       then Some ["passwd"]
       else if (p =? "/srv/site/img") || (p =? "/srv/site/img/")
       then Some []
       else None |}.

(** A request with that request line and one header. *)
Definition request (line : string) : BaseHTTPRequestHandler.message :=
  {| BaseHTTPRequestHandler.raw_line := line ++ Py.CRLF;
     BaseHTTPRequestHandler.header_lines :=
       BaseHTTPRequestHandler.HeaderFields [("Host", "localhost:8000")] |}.

(** The handler after one request on a new connection. *)
Definition serve_one (line : string) : handler :=
  exec (CORSHTTPRequestHandler.handle_one_request cpython site
          (request line))
       (new_handler "/srv/site" 0).

(** The script started with an argument and with [PORT] in the
    environment, on a machine where port 8000 is free. *)
Definition command_line : launch :=
  {| script_file := "/srv/site/serve.py"; argv := ["serve.py"];
     environ := [("PORT", "9000")]; port_free := true |}.

End Demo.

(* ================================================================== *)
(** * Vocabulary of the specifications *)
(* ================================================================== *)

Import BaseHTTPRequestHandler.

(** The lines in the header buffer; none while the attribute is missing. *)
Definition buffered (h : handler) : list string :=
  match _headers_buffer h with Some b => b | None => [] end.

(** Whether the handler answers in the style of HTTP/0.9: no status line and
    no headers. *)
Definition http09 (h : handler) : bool := request_version h =? "HTTP/0.9".

(** [self._headers_buffer.append(line)], on a buffer that exists or not. *)
Definition push_line (line : string) (h : handler) : handler :=
  set_headers_buffer (Some (buffered h ++ [line])%list) h.

(** [flush_headers] on a buffer holding [lines]. *)
Definition flushed (lines : list string) (h : handler) : handler :=
  set_headers_buffer (Some []) (set_wfile (wfile h ++ [Headers lines])%list h).

(** The effect of a header on [close_connection]. *)
Definition connection_directive (keyword value : string) (h : handler)
  : handler :=
  if Py.lower keyword =? "connection" then
    if Py.lower value =? "close" then set_close_connection true h
    else if Py.lower value =? "keep-alive" then set_close_connection false h
    else h
  else h.

(** What a request leaves on the handler once it is parsed; the methods that
    write the response do not touch it. *)
Definition req (h : handler)
  : string * Z * string * string * option string * string
    * list (string * string) :=
  (directory h, now h, requestline h, request_version h, command h, path h,
   headers h).

(** The reason phrase [send_response_only] uses. *)
Definition reason (P : platform) (code : Z) (message : option string)
  : string :=
  match message with
  | Some m => m
  | None => match responses P code with
            | Some (phrase, _) => phrase
            | None => ""
            end
  end.

(** The three headers [CORSHTTPRequestHandler.end_headers] sends, in its
    order, and their lines. *)
Definition cors_headers : list (string * string) :=
  [("Access-Control-Allow-Origin", "*");
   ("Access-Control-Allow-Methods", "GET, POST, OPTIONS");
   ("Access-Control-Allow-Headers", "Content-Type")].

Definition cors_lines : list string :=
  map (fun kv => header_line (fst kv) (snd kv)) cors_headers.

(** A run of [send_header] calls, one per field, and the lines they
    buffer. *)
Fixpoint send_headers (fields : list (string * string)) : M unit :=
  match fields with
  | [] => ret tt
  | (keyword, value) :: rest => send_header keyword value ;; send_headers rest
  end.

Definition header_lines_of (fields : list (string * string)) : list string :=
  map (fun kv => header_line (fst kv) (snd kv)) fields.

(** The handler is at request [h0], with [buf] in the header buffer and [w]
    written. *)
Definition at_state (h0 : handler) (buf : list string) (w : list chunk)
           (h : handler) : Prop :=
  req h = req h0 /\ buffered h = buf /\ wfile h = w.

(** [m] returns from every state in [Pre], in a state in [Post]. *)
Definition triple {A} (Pre : handler -> Prop) (m : M A)
           (Post : A -> handler -> Prop) : Prop :=
  forall h, Pre h -> exists a h', m h = (inr a, h') /\ Post a h'.

(** From every state in [Pre], [m] returns in a state in [Post] or raises
    in a state in [Exc]. *)
Definition triple_x {A} (Pre : handler -> Prop) (m : M A)
           (Post : A -> handler -> Prop) (Exc : exn -> handler -> Prop)
  : Prop :=
  forall h, Pre h ->
    match m h with
    | (inr a, h') => Post a h'
    | (inl e, h') => Exc e h'
    end.

(** The status line and the two headers of [send_response]. *)
Definition response_head (P : platform) (h0 : handler) (code : Z)
           (message : option string) : list string :=
  [status_line code (reason P code message);
   header_line "Server" (version_string P);
   header_line "Date" (date_time_string P (now h0))].

(** [send_error]: whether the status has a body, and the message, the
    explanation and the page it sends. *)
Definition has_body (code : Z) : bool :=
  (200 <=? code)%Z
  && negb ((code =? 204)%Z || (code =? 205)%Z || (code =? 304)%Z).

Definition error_message (P : platform) (code : Z) (message : option string)
  : string :=
  match message with
  | Some m => m
  | None => match responses P code with
            | Some p => fst p
            | None => "???"
            end
  end.

Definition error_explain (P : platform) (code : Z) (explain : option string)
  : string :=
  match explain with
  | Some e => e
  | None => match responses P code with
            | Some p => snd p
            | None => "???"
            end
  end.

Definition error_body (P : platform) (code : Z)
           (message explain : option string) : string :=
  error_page P code (error_message P code message)
    (error_explain P code explain).

(** The status line and headers of an error response, before the CORS
    headers. *)
Definition error_head (P : platform) (h0 : handler) (code : Z)
           (message explain : option string) : list string :=
  (response_head P h0 code (Some (error_message P code message))
   ++ [header_line "Connection" "close"]
   ++ (if has_body code then
         [header_line "Content-Type" error_content_type;
          header_line "Content-Length"
            (Py.str (Py.len (error_body P code message explain)))]
       else []))%list.

(** The body of an error response; none for a [HEAD] request. *)
Definition error_payload (P : platform) (h0 : handler) (code : Z)
           (message explain : option string) : list chunk :=
  if has_body code && negb (command_is "HEAD" (command h0))
     && Py.nonempty (error_body P code message explain)
  then [Payload (error_body P code message explain)] else [].

(** [translate_path] as a function of [self.directory] and the path. *)
Definition translated (P : platform) (directory path : string) : string :=
  let path := fst (Py.split1 "?"%char path) in
  let path := fst (Py.split1 "#"%char path) in
  let trailing_slash := Py.endswith (Py.rstrip Py.isspace path) "/" in
  let words :=
    filter Py.nonempty
      (Py.split "/"%char (posixpath.normpath (unquote P path))) in
  let path :=
    fold_left SimpleHTTPRequestHandler.translate_word words directory in
  if trailing_slash then path ++ "/" else path.

(** The file system path of request [h0]. *)
Definition resolved (P : platform) (h0 : handler) : string :=
  translated P (directory h0) (path h0).

(** The paths [send_head] opens for request [h0]: the resolved path, or an
    index file in it. *)
Definition opened (P : platform) (h0 : handler) : list string :=
  [resolved P h0;
   posixpath.join (resolved P h0) "index.html";
   posixpath.join (resolved P h0) "index.htm"].

(** The bodies the handler may send for request [h0]: an error page, what
    [open] gives for the resolved path or for an index file in it, or the
    listing of the resolved path. *)
Definition allowed (P : platform) (fs : filesystem) (h0 : handler)
           (data : string) : Prop :=
  (exists code message explain, data = error_body P code message explain)
  \/ (exists p f,
        In p (opened P h0) /\ open_rb fs p = inr f /\ data = f_data f)
  \/ (exists names,
        listdir fs (resolved P h0) = Some names
        /\ listing_page P (resolved P h0) (path h0) names = inr data).

(** [piece] is a run of bytes of [data]. *)
Definition part_of (piece data : string) : Prop :=
  exists before after, data = before ++ piece ++ after.

(** A write of a body, whole or in part, that the request may be given. *)
Definition payload_from (P : platform) (fs : filesystem) (h0 : handler)
           (c : chunk) : Prop :=
  match c with
  | Payload piece =>
      exists data, allowed P fs h0 data /\ part_of piece data
  | Headers _ => False
  end.

(** The exceptions a request can end with: what [open] raises, other than
    [OSError], on a path that [send_head] opens; what [urlsplit] raises on
    the path of the request; what the encoding of a listing raises. *)
Definition raised (P : platform) (fs : filesystem) (h0 : handler)
           (e : exn) : Prop :=
  (exists p, In p (opened P h0) /\ open_rb fs p = inl e
             /\ forall msg, e <> OSError msg)
  \/ urlsplit_path P (path h0) = inl e
  \/ (exists names,
        listdir fs (resolved P h0) = Some names
        /\ listing_page P (resolved P h0) (path h0) names = inl e).

Definition is_payload (c : chunk) : Prop :=
  match c with
  | Payload _ => True
  | Headers _ => False
  end.

(** A header block that ends with the three CORS headers and the blank
    line. *)
Definition cors_block (lines : list string) : Prop :=
  exists before, lines = (before ++ cors_lines ++ [Py.CRLF])%list.

(** What has been written is a whole response to request [h0]: one header
    block with the CORS headers, then the body; in the style of HTTP/0.9,
    the body alone. *)
Definition response_to (P : platform) (fs : filesystem) (h0 : handler)
           (w : list chunk) : Prop :=
  if http09 h0 then Forall (payload_from P fs h0) w
  else exists lines rest,
         w = Headers lines :: rest /\ cors_block lines
         /\ Forall (payload_from P fs h0) rest.

(** Handler [h] still holds request [h0] and has written a whole response
    to it. *)
Definition answered (P : platform) (fs : filesystem) (h0 h : handler)
  : Prop :=
  req h = req h0 /\ response_to P fs h0 (wfile h).

(** The request has ended with an exception: nothing has been written, and
    the exception is one of [raised]. *)
Definition aborted (P : platform) (fs : filesystem) (h0 : handler)
           (e : exn) (h : handler) : Prop :=
  req h = req h0 /\ wfile h = [] /\ raised P fs h0 e.

(** What [send_head] leaves: an answer, and a file to copy that the
    request may be given. *)
Definition served (P : platform) (fs : filesystem) (h0 : handler)
  (r : option file_object) (h : handler) : Prop :=
  answered P fs h0 h /\ forall f, r = Some f -> allowed P fs h0 (f_data f).

(** A handler that has written nothing and has nothing buffered. *)
Definition fresh (d : string) (t : Z) (h : handler) : Prop :=
  directory h = d /\ now h = t /\ buffered h = [] /\ wfile h = [].

(** After [parse_request]: a parsed request and nothing written yet, or an
    answer already given (an error response, or none for a blank line). *)
Definition parsed (P : platform) (fs : filesystem) (d : string) (t : Z)
           (ok : bool) (h : handler) : Prop :=
  directory h = d /\ now h = t
  /\ if ok then buffered h = [] /\ wfile h = [] /\ command h <> None
     else answered P fs h h.

(** A component that names a file or directory: not empty, not [.] or
    [..], and without a separator. *)
Fixpoint no_sep (s : string) : bool :=
  match s with
  | EmptyString => true
  | String c s' => negb (posixpath.is_sep c) && no_sep s'
  end.

Definition plain_name (w : string) : bool :=
  Py.nonempty w && negb (w =? ".") && negb (w =? "..") && no_sep w.

(** The path reached from [root] by going down through [names]. *)
Definition descend (root : string) (names : list string) : string :=
  fold_left posixpath.join names root.

(** The names [translate_path] goes down through, for a request path. *)
Definition names_of (P : platform) (path : string) : list string :=
  let path := fst (Py.split1 "?"%char path) in
  let path := fst (Py.split1 "#"%char path) in
  filter plain_name
    (Py.split "/"%char (posixpath.normpath (unquote P path))).

(** What every method keeps: the directory served, the clock, and that the
    connection closes after this request. *)
Definition steady (d : string) (t : Z) (h : handler) : Prop :=
  directory h = d /\ now h = t /\ close_connection h = true.

(** A connection served from [root]: a new handler, run on the first
    request of the connection.  [outcome_of] is how the run ends,
    [response_of] the handler it leaves. *)
Definition outcome_of (P : platform) (fs : filesystem) (root : string)
           (c : connection) : (exn + unit) * handler :=
  CORSHTTPRequestHandler.handle_one_request P fs
    (hd end_of_stream (conn_messages c))
    (new_handler root (conn_time c)).

Definition response_of (P : platform) (fs : filesystem) (root : string)
           (c : connection) : handler :=
  exec (CORSHTTPRequestHandler.handle_one_request P fs
          (hd end_of_stream (conn_messages c)))
       (new_handler root (conn_time c)).

(** The events a connection adds to the trace: the handler it leaves and,
    when the handler has raised, the traceback that [handle_error]
    prints. *)
Definition connection_events (P : platform) (fs : filesystem)
           (root : string) (c : connection) : list event :=
  Handled (response_of P fs root c)
  :: match fst (outcome_of P fs root c) with
     | inl e => [Traceback e]
     | inr _ => []
     end.

(** The lines that [print] writes in a run of events, and what the process
    has written to its standard output. *)
Definition printed (events : list event) : list string :=
  flat_map (fun e => match e with Print line => [line] | _ => [] end) events.

Definition stdout (p : process) : list string := printed (trace p).

(** The directory of the script. *)
Definition script_directory (L : launch) (dir : string) : string :=
  posixpath.dirname (posixpath.abspath dir (script_file L)).

(** The two lines of the main block. *)
Definition startup_lines : list string :=
  ["Server running at http://localhost:8000/";
   "Test the modular page at: http://localhost:8000/node-guides/procurement-provisioning/index-modular.html"].

(** The events of a start on which the port is bound. *)
Definition startup_events (L : launch) (dir : string) : list event :=
  [Chdir (script_directory L dir); SocketBind "" 8000; SocketListen 5]
  ++ map Print startup_lines.

(** ** What the claims speak of *)

(** The response carries the three CORS headers: some header block written
    holds all three lines. *)
Definition includes_cors_headers (h : handler) : Prop :=
  exists lines,
    In (Headers lines) (wfile h)
    /\ forall line, In line cors_lines -> In line lines.

(** The response starts with a status line of that code. *)
Definition has_status (code : Z) (h : handler) : Prop :=
  exists message lines rest,
    wfile h = Headers (status_line code message :: lines) :: rest.

(** The handler after [parse_request] on a new connection, when it accepts
    the request. *)
Definition parses_to (P : platform) (m : message) (d : string) (t : Z)
           (h1 : handler) : Prop :=
  parse_request P CORSHTTPRequestHandler.end_headers m
    (set_raw_requestline (raw_line m) (new_handler d t))
  = (inr true, h1).

(** The events a list of connections adds to the trace. *)
Definition served_events (P : platform) (fs : filesystem) (root : string)
           (conns : list connection) : list event :=
  flat_map (connection_events P fs root) conns.

(** The absolute path that goes down from [/] through [names]. *)
Definition absolute (names : list string) : string :=
  "/" ++ Py.join "/" names.

(** The handler holds a [HEAD] request and has written no body. *)
Definition bodiless (h : handler) : Prop :=
  command h = Some "HEAD" /\ forall data, ~ In (Payload data) (wfile h).

(** The handler answers in the style of HTTP/0.9 and has written no
    header block. *)
Definition headerless (h : handler) : Prop :=
  http09 h = true /\ forall lines, ~ In (Headers lines) (wfile h).

(** Whether [c] occurs in [s]. *)
Fixpoint occurs (c : ascii) (s : string) : bool :=
  match s with
  | EmptyString => false
  | String x s' => Ascii.eqb x c || occurs c s'
  end.

(** Inputs on which the theorems are run. *)

(** A handler that has parsed an HTTP/1.1 request and written nothing. *)
Definition demo_pending : handler :=
  set_request_version "HTTP/1.1" (new_handler "/srv/site" 0).

(** The header of that name as the inherited code may have set it. *)
Definition demo_fields : list (string * string) :=
  [("Content-Length", "0");
   ("Access-Control-Allow-Origin", "https://example.org")].

(** The response the inherited code has started on [demo_pending]. *)
Definition demo_started : handler :=
  exec (send_response_only Demo.cpython 200 None ;; send_headers demo_fields)
       demo_pending.

(** A handler that has parsed a request without a version, and the
    response the inherited code has started on it. *)
Definition demo_simple : handler :=
  set_request_version "HTTP/0.9" (new_handler "/srv/site" 0).

Definition demo_simple_started : handler :=
  exec (send_response_only Demo.cpython 200 None ;; send_headers demo_fields)
       demo_simple.

(** The handler once [parse_request] has read a request line. *)
Definition demo_parsed (line : string) : handler :=
  exec (parse_request Demo.cpython CORSHTTPRequestHandler.end_headers
          (Demo.request line))
       (set_raw_requestline (raw_line (Demo.request line))
          (new_handler "/srv/site" 0)).

(** A request line of 65537 bytes. *)
Definition demo_oversized : message :=
  {| raw_line := "a" ++ Nat.iter 16 (fun s => s ++ s) "a";
     header_lines := HeaderFields [] |}.

Definition demo_connections : list connection :=
  [{| conn_time := 0; conn_messages := [Demo.request "GET / HTTP/1.1"] |};
   {| conn_time := 1;
      conn_messages := [Demo.request "OPTIONS /x HTTP/1.1"] |}].

(* ================================================================== *)
(** * The model on concrete inputs *)
(* ================================================================== *)

Example split_ws_request_line :
  Py.split_ws "GET  /a/b.html HTTP/1.1" = ["GET"; "/a/b.html"; "HTTP/1.1"].
Proof. reflexivity. Qed.

Example split_keeps_empty_pieces :
  Py.split "/"%char "/a//b/" = [""; "a"; ""; "b"; ""].
Proof. reflexivity. Qed.

Example normpath_drops_leading_dotdot :
  posixpath.normpath "/../../etc/passwd" = "/etc/passwd".
Proof. reflexivity. Qed.

Example normpath_relative_dotdot :
  posixpath.normpath "a/../../b/./c/" = "../b/c".
Proof. reflexivity. Qed.

Example dirname_of_script :
  posixpath.dirname "/srv/site/serve.py" = "/srv/site".
Proof. reflexivity. Qed.

Example str_of_port : Py.str 8000 = "8000".
Proof. reflexivity. Qed.

(** The bytes of two answers: to a preflight request, and to a request line
    without a version. *)
Example options_response_on_the_wire :
  sent (Demo.serve_one "OPTIONS /anything HTTP/1.1")
  = Py.join Py.CRLF
      ["HTTP/1.0 200 OK";
       "Server: SimpleHTTP/0.6 Python/3.11.2";
       "Date: Thu, 01 Jan 1970 00:00:00 GMT";
       "Access-Control-Allow-Origin: *";
       "Access-Control-Allow-Methods: GET, POST, OPTIONS";
       "Access-Control-Allow-Headers: Content-Type";
       ""; ""].
Proof. vm_compute. reflexivity. Qed.

Example simple_request_on_the_wire :
  sent (Demo.serve_one "GET /index.html") = "<p>home</p>".
Proof. vm_compute. reflexivity. Qed.


(** [copyfileobj] reads a block at a time, and a request whose path holds a
    null byte ends with the exception of [open]. *)
Example read_takes_a_block :
  shutil.read 3 "abcde" = ("abc", "de").
Proof. reflexivity. Qed.

Example null_byte_request_raises :
  fst (CORSHTTPRequestHandler.handle_one_request Demo.cpython Demo.site
         (Demo.request ("GET /a" ++ String "000" "b HTTP/1.1"))
         (new_handler "/srv/site" 0))
  = inl (ValueError "embedded null byte").
Proof. vm_compute. reflexivity. Qed.
(* ================================================================== *)
(** * Running the methods *)
(* ================================================================== *)

(** [fields] computes the attributes of a handler written with the setters;
    [unfold_monad] opens the monad and the primitive writes. *)
Ltac fields :=
  cbn [directory now raw_requestline requestline request_version command
       path headers close_connection _headers_buffer wfile stderr
       set_raw_requestline set_requestline set_request_version set_command
       set_path set_headers set_close_connection set_headers_buffer
       set_wfile set_stderr] in *.

Ltac unfold_monad :=
  unfold ensure_headers_buffer, headers_buffer_append, wfile_write,
    log_request, log_error in *;
  unfold bind, ret, gets, modify, raise in *;
  cbv beta iota in *.

(** A sequence whose first method returns. *)
Lemma bind_run {S A B} (m : StateExn S A) (k : A -> StateExn S B) s a s' :
  m s = (inr a, s') -> bind m k s = k a s'.
Proof. intros H. unfold bind. rewrite H. reflexivity. Qed.

Lemma connection_directive_other keyword value h :
  (Py.lower keyword =? "connection") = false ->
  connection_directive keyword value h = h.
Proof. intros E. unfold connection_directive. rewrite E. reflexivity. Qed.

(** What the methods that write a response leave as it is. *)
Lemma req_fields h h0 :
  req h = req h0 ->
  directory h = directory h0 /\ now h = now h0
  /\ requestline h = requestline h0
  /\ request_version h = request_version h0 /\ command h = command h0
  /\ path h = path h0 /\ headers h = headers h0.
Proof. unfold req. intros E. injection E. intuition. Qed.

Lemma req_http09 h h0 : req h = req h0 -> http09 h = http09 h0.
Proof.
  intros E. apply req_fields in E. unfold http09.
  destruct E as (_ & _ & _ & -> & _). reflexivity.
Qed.

Lemma connection_directive_fields keyword value h :
  req (connection_directive keyword value h) = req h
  /\ _headers_buffer (connection_directive keyword value h)
     = _headers_buffer h
  /\ wfile (connection_directive keyword value h) = wfile h.
Proof.
  unfold connection_directive.
  destruct (Py.lower keyword =? "connection");
    [destruct (Py.lower value =? "close");
       [|destruct (Py.lower value =? "keep-alive")]|];
    repeat split; reflexivity.
Qed.

(** The writes of the inherited methods, with a status line and headers
    ([http09 h = false]) and in the style of HTTP/0.9, where they buffer
    and write nothing. *)
Lemma send_header_http1 keyword value h :
  http09 h = false ->
  send_header keyword value h =
  (inr tt, connection_directive keyword value
             (push_line (header_line keyword value) h)).
Proof.
  unfold send_header, connection_directive, http09, push_line, buffered.
  intros E. unfold_monad. rewrite E. cbn [negb].
  destruct (_headers_buffer h) eqn:B; fields; rewrite ?B;
    (destruct (Py.lower keyword =? "connection"); [|reflexivity]);
    (destruct (Py.lower value =? "close"); [reflexivity|]);
    destruct (Py.lower value =? "keep-alive"); reflexivity.
Qed.

Lemma send_header_http09 keyword value h :
  http09 h = true ->
  send_header keyword value h = (inr tt, connection_directive keyword value h).
Proof.
  unfold send_header, connection_directive, http09.
  intros E. unfold_monad. rewrite E. cbn [negb].
  destruct (Py.lower keyword =? "connection"); [|reflexivity].
  destruct (Py.lower value =? "close"); [reflexivity|].
  destruct (Py.lower value =? "keep-alive"); reflexivity.
Qed.

Lemma send_response_only_http1 P code message h :
  http09 h = false ->
  send_response_only P code message h =
  (inr tt, push_line (status_line code (reason P code message)) h).
Proof.
  unfold send_response_only, http09, push_line, buffered, reason.
  intros E. unfold_monad. rewrite E. cbn [negb].
  destruct (_headers_buffer h) eqn:B; fields; rewrite ?B; reflexivity.
Qed.

Lemma send_response_only_http09 P code message h :
  http09 h = true -> send_response_only P code message h = (inr tt, h).
Proof.
  unfold send_response_only, http09. intros E. unfold_monad. rewrite E.
  reflexivity.
Qed.

Lemma base_end_headers_http1 h lines :
  http09 h = false ->
  _headers_buffer h = Some lines ->
  BaseHTTPRequestHandler.end_headers h
  = (inr tt, flushed (lines ++ [Py.CRLF])%list h).
Proof.
  unfold BaseHTTPRequestHandler.end_headers, flush_headers, http09, flushed.
  intros E B. unfold_monad. rewrite E. cbn [negb]. rewrite B. reflexivity.
Qed.

(** [end_headers] before any header was buffered: the attribute is
    missing. *)
Lemma base_end_headers_no_buffer h :
  http09 h = false ->
  _headers_buffer h = None ->
  BaseHTTPRequestHandler.end_headers h
  = (inl (AttributeError "_headers_buffer"), h).
Proof.
  unfold BaseHTTPRequestHandler.end_headers, http09.
  intros E B. unfold_monad. rewrite E. cbn [negb]. rewrite B. reflexivity.
Qed.

Lemma base_end_headers_http09 h :
  http09 h = true -> BaseHTTPRequestHandler.end_headers h = (inr tt, h).
Proof.
  unfold BaseHTTPRequestHandler.end_headers, http09. intros E. unfold_monad.
  rewrite E. reflexivity.
Qed.

(** ** The three headers of [end_headers] *)

(** One step of a sequence: run the first method by [tac]. *)
Ltac step tac := erewrite bind_run by tac; cbv beta.

(** [CORSHTTPRequestHandler.end_headers]: the buffer, the three CORS lines
    and the blank line are written as one block; in the style of HTTP/0.9
    nothing is. *)
Lemma end_headers_http1 h :
  http09 h = false ->
  CORSHTTPRequestHandler.end_headers h
  = (inr tt, flushed (buffered h ++ cors_lines ++ [Py.CRLF])%list h).
Proof.
  intros E. unfold CORSHTTPRequestHandler.end_headers.
  do 3 (step ltac:(apply send_header_http1; exact E);
        rewrite connection_directive_other by reflexivity).
  erewrite base_end_headers_http1; [|exact E|reflexivity].
  unfold flushed, push_line, buffered. fields.
  rewrite <- !app_assoc. reflexivity.
Qed.

Lemma end_headers_http09 h :
  http09 h = true -> CORSHTTPRequestHandler.end_headers h = (inr tt, h).
Proof.
  intros E. unfold CORSHTTPRequestHandler.end_headers.
  do 3 (step ltac:(apply send_header_http09; exact E);
        rewrite connection_directive_other by reflexivity).
  apply base_end_headers_http09, E.
Qed.

(** ** A response as the inherited code starts it

    [send_response_only], then any number of [send_header] calls: what
    [send_response], [send_error] and [send_head] do before they call
    [self.end_headers()]. *)

Lemma send_headers_http1 fields : forall h,
  http09 h = false ->
  exists h',
    send_headers fields h = (inr tt, h')
    /\ http09 h' = false
    /\ buffered h' = (buffered h ++ header_lines_of fields)%list
    /\ wfile h' = wfile h.
Proof.
  induction fields as [|[keyword value] rest IH]; intros h E.
  - exists h. cbn. rewrite app_nil_r. auto.
  - cbn [send_headers]. step ltac:(apply send_header_http1; exact E).
    set (h1 := connection_directive keyword value
                 (push_line (header_line keyword value) h)).
    destruct (connection_directive_fields keyword value
                (push_line (header_line keyword value) h))
      as (Hr & Hb & Hw).
    destruct (IH h1) as (h' & Hrun & E' & Hbuf & Hwf).
    { unfold h1. rewrite (req_http09 _ _ Hr). exact E. }
    exists h'. repeat split; try assumption.
    + rewrite Hbuf. unfold buffered at 1, h1. rewrite Hb.
      unfold push_line. fields. cbn [header_lines_of map fst snd].
      rewrite <- app_assoc. reflexivity.
    + rewrite Hwf. unfold h1. rewrite Hw. reflexivity.
Qed.

Lemma send_headers_http09 fields : forall h,
  http09 h = true ->
  exists h',
    send_headers fields h = (inr tt, h')
    /\ http09 h' = true
    /\ buffered h' = buffered h
    /\ wfile h' = wfile h.
Proof.
  induction fields as [|[keyword value] rest IH]; intros h E.
  - exists h. cbn. auto.
  - cbn [send_headers]. step ltac:(apply send_header_http09; exact E).
    destruct (connection_directive_fields keyword value h)
      as (Hr & Hb & Hw).
    destruct (IH (connection_directive keyword value h))
      as (h' & Hrun & E' & Hbuf & Hwf).
    { rewrite (req_http09 _ _ Hr). exact E. }
    exists h'. repeat split; try assumption.
    + rewrite Hbuf. unfold buffered. rewrite Hb. reflexivity.
    + rewrite Hwf. exact Hw.
Qed.

(** A response that has a status line is not in the style of HTTP/0.9, and
    its buffer holds the status line and the headers in the order they were
    set. *)
Lemma started_response P h0 code message fields h :
  buffered h0 = [] ->
  (send_response_only P code message ;; send_headers fields) h0 = (inr tt, h) ->
  buffered h <> [] ->
  http09 h = false
  /\ buffered h
     = status_line code (reason P code message) :: header_lines_of fields
  /\ wfile h = wfile h0.
Proof.
  intros Hempty Hrun Hset.
  destruct (http09 h0) eqn:E.
  - exfalso. apply Hset.
    erewrite bind_run in Hrun by (apply send_response_only_http09; exact E).
    destruct (send_headers_http09 fields h0 E) as (h' & Hrun' & _ & Hbuf & _).
    rewrite Hrun' in Hrun. injection Hrun as <-. congruence.
  - erewrite bind_run in Hrun by (apply send_response_only_http1; exact E).
    cbv beta in Hrun.
    destruct (send_headers_http1 fields
                (push_line (status_line code (reason P code message)) h0) E)
      as (h' & Hrun' & E' & Hbuf & Hwf).
    rewrite Hrun' in Hrun. injection Hrun as <-.
    repeat split; try assumption.
    rewrite Hbuf. unfold push_line, buffered at 1. fields.
    rewrite Hempty. reflexivity.
Qed.

(* ================================================================== *)
(** * Specifications of the methods *)
(* ================================================================== *)

(** The rules of [triple]. *)
Lemma triple_ret {A} (a : A) (Pre : handler -> Prop)
      (Post : A -> handler -> Prop) :
  (forall h, Pre h -> Post a h) -> triple Pre (ret a) Post.
Proof. intros H h Hpre. exists a, h. split; [reflexivity|auto]. Qed.

Lemma triple_bind {A B} (m : M A) (k : A -> M B) Pre Mid Post :
  triple Pre m Mid ->
  (forall a, triple (Mid a) (k a) Post) ->
  triple Pre (bind m k) Post.
Proof.
  intros Hm Hk h Hpre.
  destruct (Hm h Hpre) as (a & h1 & Hrun & Hmid).
  destruct (Hk a h1 Hmid) as (b & h2 & Hrun2 & Hpost).
  exists b, h2. split; [|exact Hpost].
  rewrite (bind_run _ _ _ _ _ Hrun). exact Hrun2.
Qed.

Lemma triple_weaken {A} (m : M A) (Pre Pre' : handler -> Prop)
      (Post Post' : A -> handler -> Prop) :
  triple Pre' m Post' ->
  (forall h, Pre h -> Pre' h) ->
  (forall a h, Post' a h -> Post a h) ->
  triple Pre m Post.
Proof.
  intros Hm Hpre Hpost h Hh.
  destruct (Hm h (Hpre h Hh)) as (a & h' & Hrun & Hp).
  exists a, h'. auto.
Qed.

Lemma triple_gets {A} (f : handler -> A) Pre :
  triple Pre (gets f) (fun a h => Pre h /\ a = f h).
Proof. intros h Hpre. exists (f h), h. split; [reflexivity|auto]. Qed.

Lemma triple_modify (f : handler -> handler) (Pre Post : handler -> Prop) :
  (forall h, Pre h -> Post (f h)) ->
  triple Pre (modify f) (fun _ => Post).
Proof. intros H h Hpre. exists tt, (f h). split; [reflexivity|auto]. Qed.

Lemma triple_return {A} (a : A) (Pre : handler -> Prop) :
  triple Pre (ret a) (fun x h => Pre h /\ x = a).
Proof. intros h Hpre. exists a, h. split; [reflexivity|auto]. Qed.

(** Run a sequence: the first method by its specification. *)
Ltac seq L := eapply triple_bind; [apply L | cbv beta; intros ?].

(** The rules of [triple_x]: a method that returns everywhere, a sequence,
    [raise]. *)
Lemma triple_x_total {A} (m : M A) (Pre : handler -> Prop)
      (Post : A -> handler -> Prop) (Exc : exn -> handler -> Prop) :
  triple Pre m Post -> triple_x Pre m Post Exc.
Proof.
  intros Hm h Hpre. destruct (Hm h Hpre) as (a & h' & -> & Hpost).
  exact Hpost.
Qed.

Lemma triple_x_bind {A B} (m : M A) (k : A -> M B) Pre Mid Post Exc :
  triple_x Pre m Mid Exc ->
  (forall a, triple_x (Mid a) (k a) Post Exc) ->
  triple_x Pre (bind m k) Post Exc.
Proof.
  intros Hm Hk h Hpre. specialize (Hm h Hpre). unfold bind.
  destruct (m h) as [[e|a] h']; [exact Hm|].
  exact (Hk a h' Hm).
Qed.

Lemma triple_x_raise {A} (e : exn) (Pre : handler -> Prop)
      (Post : A -> handler -> Prop) (Exc : exn -> handler -> Prop) :
  (forall h, Pre h -> Exc e h) -> triple_x Pre (raise e) Post Exc.
Proof. intros H h Hpre. exact (H h Hpre). Qed.

Lemma triple_x_weaken {A} (m : M A) (Pre Pre' : handler -> Prop)
      (Post Post' : A -> handler -> Prop) (Exc Exc' : exn -> handler -> Prop) :
  triple_x Pre' m Post' Exc' ->
  (forall h, Pre h -> Pre' h) ->
  (forall a h, Post' a h -> Post a h) ->
  (forall e h, Exc' e h -> Exc e h) ->
  triple_x Pre m Post Exc.
Proof.
  intros Hm Hpre Hpost Hexc h H. specialize (Hm h (Hpre h H)).
  destruct (m h) as [[e|a] h']; auto.
Qed.

(** Run a sequence whose first method returns everywhere. *)
Ltac xseq L :=
  eapply triple_x_bind; [apply triple_x_total; apply L | cbv beta; intros ?].

(** ** [shutil.copyfileobj]

    What [read] returns and what it leaves make up the data; the loop
    writes the data in pieces, none of them empty, and ends before its fuel
    does. *)
Lemma read_app n : forall data,
  data = fst (shutil.read n data) ++ snd (shutil.read n data).
Proof.
  induction n as [|n IH]; intros data; [reflexivity|].
  destruct data as [|c rest]; [reflexivity|].
  cbn [shutil.read]. specialize (IH rest).
  destruct (shutil.read n rest) as [buf left]. cbn [fst snd] in *.
  cbn [String.append]. rewrite <- IH. reflexivity.
Qed.

Lemma read_length n : forall data,
  String.length (fst (shutil.read n data)) <= n.
Proof.
  induction n as [|n IH]; intros data; [destruct data; cbn; lia|].
  destruct data as [|c rest]; [cbn; lia|].
  cbn [shutil.read]. specialize (IH rest).
  destruct (shutil.read n rest) as [buf left]. cbn [fst] in *. cbn. lia.
Qed.

Lemma read_nothing n data :
  0 < n -> fst (shutil.read n data) = "" -> data = "".
Proof.
  intros Hn. destruct n as [|n]; [lia|].
  destruct data as [|c rest]; [reflexivity|].
  cbn [shutil.read]. destruct (shutil.read n rest). discriminate.
Qed.

Lemma COPY_BUFSIZE_positive : 0 < shutil.COPY_BUFSIZE.
Proof. apply Nat.ltb_lt. vm_compute. reflexivity. Qed.

Lemma length_app (a b : string) :
  String.length (a ++ b) = String.length a + String.length b.
Proof. induction a as [|c a IH]; cbn; [reflexivity|]. rewrite IH. lia. Qed.

Lemma concat_cons (x : string) (l : list string) :
  String.concat "" (x :: l) = x ++ String.concat "" l.
Proof.
  destruct l as [|y l]; cbn [String.concat].
  - induction x as [|c x IH]; cbn; [reflexivity|]. rewrite <- IH.
    reflexivity.
  - reflexivity.
Qed.

Lemma copy_loop_run fuel : forall data h,
  String.length data < fuel ->
  exists pieces,
    shutil.copy_loop fuel data h
    = (inr tt, set_wfile (wfile h ++ map Payload pieces)%list h)
    /\ String.concat "" pieces = data
    /\ Forall (fun piece =>
                 Py.nonempty piece = true
                 /\ String.length piece <= shutil.COPY_BUFSIZE) pieces.
Proof.
  induction fuel as [|fuel IH]; intros data h Hfuel; [lia|].
  cbn [shutil.copy_loop].
  pose proof (read_app shutil.COPY_BUFSIZE data) as Happ.
  pose proof (read_length shutil.COPY_BUFSIZE data) as Hlen.
  pose proof (read_nothing shutil.COPY_BUFSIZE data COPY_BUFSIZE_positive)
    as Hnone.
  destruct (shutil.read shutil.COPY_BUFSIZE data) as [buf left].
  cbn [fst snd] in Happ, Hlen, Hnone.
  destruct buf as [|c buf]; cbn [Py.nonempty negb].
  - exists []. cbn [map String.concat]. rewrite app_nil_r.
    split; [destruct h; reflexivity|].
    split; [rewrite (Hnone eq_refl); reflexivity|constructor].
  - destruct (IH left (set_wfile (wfile h ++ [Payload (String c buf)])%list h))
      as (pieces & Hrun & Hcat & Hall).
    { rewrite Happ, length_app in Hfuel. cbn [String.length] in Hfuel. lia. }
    exists (String c buf :: pieces).
    unfold bind, wfile_write, modify. rewrite Hrun. fields.
    split; [cbn [map]; rewrite <- app_assoc; reflexivity|].
    split; [rewrite concat_cons, Hcat, Happ; reflexivity|].
    constructor; [split; [reflexivity|exact Hlen]|exact Hall].
Qed.

Lemma copyfileobj_run data h :
  exists pieces,
    shutil.copyfileobj data h
    = (inr tt, set_wfile (wfile h ++ map Payload pieces)%list h)
    /\ String.concat "" pieces = data
    /\ Forall (fun piece =>
                 Py.nonempty piece = true
                 /\ String.length piece <= shutil.COPY_BUFSIZE) pieces.
Proof. apply copy_loop_run. lia. Qed.

(** A piece of a text cut in pieces is a part of it. *)
Lemma piece_part_of pieces : forall piece,
  In piece pieces -> part_of piece (String.concat "" pieces).
Proof.
  induction pieces as [|x pieces IH]; intros piece []; rewrite concat_cons.
  - subst x. exists "", (String.concat "" pieces). reflexivity.
  - destruct (IH piece H) as (before & after & Heq).
    exists (x ++ before), after. rewrite Heq.
    clear. induction x as [|c x IHx]; cbn; [reflexivity|].
    rewrite IHx. reflexivity.
Qed.

(** Logging and writing leave the request and the buffer as they are. *)
Lemma log_request_spec h0 buf w code :
  triple (at_state h0 buf w) (log_request code) (fun _ => at_state h0 buf w).
Proof. apply triple_modify. intros h H. exact H. Qed.

Lemma log_error_spec h0 buf w code message :
  triple (at_state h0 buf w) (log_error code message)
    (fun _ => at_state h0 buf w).
Proof. apply triple_modify. intros h H. exact H. Qed.

Lemma wfile_write_spec h0 buf w c :
  triple (at_state h0 buf w) (wfile_write c)
    (fun _ => at_state h0 buf (w ++ [c])%list).
Proof.
  apply triple_modify. intros h (Hreq & Hbuf & Hw).
  unfold at_state, buffered in *. fields. rewrite Hw. auto.
Qed.

(** Reading an attribute that the request fixes. *)
Lemma gets_spec {A} (f : handler -> A) h0 buf w :
  (forall h, req h = req h0 -> f h = f h0) ->
  triple (at_state h0 buf w) (gets f)
    (fun a h => at_state h0 buf w h /\ a = f h0).
Proof.
  intros Hf h Hst. exists (f h), h. split; [reflexivity|].
  split; [exact Hst|]. apply Hf, Hst.
Qed.

Lemma req_now h h0 : req h = req h0 -> now h = now h0.
Proof. intros E. apply req_fields in E. tauto. Qed.
Lemma req_command h h0 : req h = req h0 -> command h = command h0.
Proof. intros E. apply req_fields in E. tauto. Qed.
Lemma req_path h h0 : req h = req h0 -> path h = path h0.
Proof. intros E. apply req_fields in E. tauto. Qed.
Lemma req_headers h h0 : req h = req h0 -> headers h = headers h0.
Proof. intros E. apply req_fields in E. tauto. Qed.
Lemma req_directory h h0 : req h = req h0 -> directory h = directory h0.
Proof. intros E. apply req_fields in E. tauto. Qed.

(** ** Responses with a status line and headers *)

Section Http1.
Variable P : platform.
Variable h0 : handler.
Hypothesis Hmode : http09 h0 = false.

Lemma send_header_spec1 buf w keyword value :
  triple (at_state h0 buf w) (send_header keyword value)
    (fun _ => at_state h0 (buf ++ [header_line keyword value])%list w).
Proof.
  intros h (Hreq & Hbuf & Hw).
  pose proof (req_http09 _ _ Hreq) as Hm.
  exists tt, (connection_directive keyword value
                (push_line (header_line keyword value) h)).
  split; [apply send_header_http1; congruence|].
  destruct (connection_directive_fields keyword value
              (push_line (header_line keyword value) h))
    as (Hr & Hb & Hwf).
  unfold at_state, buffered in *. rewrite Hr, Hb, Hwf.
  unfold push_line, buffered. fields. rewrite Hbuf. auto.
Qed.

Lemma send_response_only_spec1 buf w code message :
  triple (at_state h0 buf w) (send_response_only P code message)
    (fun _ => at_state h0
                (buf ++ [status_line code (reason P code message)])%list w).
Proof.
  intros h (Hreq & Hbuf & Hw).
  pose proof (req_http09 _ _ Hreq) as Hm.
  exists tt, (push_line (status_line code (reason P code message)) h).
  split; [apply send_response_only_http1; congruence|].
  unfold at_state, push_line, buffered in *. fields. rewrite Hbuf. auto.
Qed.

Lemma send_response_spec1 buf w code message :
  triple (at_state h0 buf w) (send_response P code message)
    (fun _ => at_state h0 (buf ++ response_head P h0 code message)%list w).
Proof.
  unfold send_response.
  seq log_request_spec. seq send_response_only_spec1.
  seq send_header_spec1.
  eapply triple_bind;
    [apply gets_spec; exact (fun h => req_now h h0)|]. cbv beta.
  intros t h (Hst & ->).
  destruct (send_header_spec1 _ _ "Date" (date_time_string P (now h0)) h
              Hst) as (r & h' & Hrun & Hpost).
  exists r, h'. split; [exact Hrun|].
  unfold response_head. rewrite <- !app_assoc in Hpost. exact Hpost.
Qed.

Lemma end_headers_spec1 buf w :
  triple (at_state h0 buf w) CORSHTTPRequestHandler.end_headers
    (fun _ => at_state h0 []
                (w ++ [Headers (buf ++ cors_lines ++ [Py.CRLF])])%list).
Proof.
  intros h (Hreq & Hbuf & Hw).
  pose proof (req_http09 _ _ Hreq) as Hm.
  exists tt, (flushed (buffered h ++ cors_lines ++ [Py.CRLF]) h).
  split; [apply end_headers_http1; congruence|].
  unfold at_state, flushed. unfold buffered at 2. fields.
  rewrite Hbuf, Hw. auto.
Qed.

Lemma send_error_spec1 buf w code message explain :
  triple (at_state h0 buf w)
    (send_error P CORSHTTPRequestHandler.end_headers code message explain)
    (fun _ =>
       at_state h0 []
         (w ++ [Headers (buf ++ error_head P h0 code message explain
                         ++ cors_lines ++ [Py.CRLF])]
            ++ error_payload P h0 code message explain)%list).
Proof.
  unfold send_error, error_head, error_payload, error_body, error_message,
    error_explain.
  destruct (responses P code) as [[shortmsg longmsg]|]; cbn [fst snd];
    fold (has_body code).
  all: set (msg := match message with Some m => m | None => _ end).
  all: set (expl := match explain with Some e => e | None => _ end).
  all: seq log_error_spec; seq send_response_spec1; seq send_header_spec1.
  all: destruct (has_body code) eqn:Hb; cbn [andb].
  all: (eapply triple_bind;
        [first [ seq send_header_spec1; seq send_header_spec1;
                 apply triple_return
               | apply triple_return ]|]; cbv beta).
  all: intros body h (Hst & ->).
  all: revert h Hst; seq end_headers_spec1.
  all: eapply triple_bind;
         [apply gets_spec; exact (fun h => req_command h h0)|]; cbv beta.
  all: intros cmd h (Hst & ->).
  all: try (destruct (negb (command_is "HEAD" (command h0))
                      && Py.nonempty (error_page P code msg expl)) eqn:Hp;
            [destruct (wfile_write_spec h0 _ _
                         (Payload (error_page P code msg expl)) h Hst)
               as (r & h' & Hrun & Hpost);
             exists r, h'; split; [exact Hrun|]
            |exists tt, h; split; [reflexivity|]]).
  all: try (exists tt, h; split; [reflexivity|]).
  all: try rename Hst into Hpost.
  all: cbn [app] in *; rewrite <- ?app_assoc in *; cbn [app] in *;
       rewrite ?app_nil_r in *; exact Hpost.
Qed.

End Http1.

(** ** Responses in the style of HTTP/0.9 *)

Section Http09.
Variable P : platform.
Variable h0 : handler.
Hypothesis Hmode : http09 h0 = true.

Lemma send_header_spec09 buf w keyword value :
  triple (at_state h0 buf w) (send_header keyword value)
    (fun _ => at_state h0 buf w).
Proof.
  intros h (Hreq & Hbuf & Hw).
  pose proof (req_http09 _ _ Hreq) as Hm.
  exists tt, (connection_directive keyword value h).
  split; [apply send_header_http09; congruence|].
  destruct (connection_directive_fields keyword value h) as (Hr & Hb & Hwf).
  unfold at_state, buffered in *. rewrite Hr, Hb, Hwf. auto.
Qed.

Lemma send_response_only_spec09 buf w code message :
  triple (at_state h0 buf w) (send_response_only P code message)
    (fun _ => at_state h0 buf w).
Proof.
  intros h Hst. pose proof (req_http09 _ _ (proj1 Hst)) as Hm.
  exists tt, h. split; [apply send_response_only_http09; congruence|].
  exact Hst.
Qed.

Lemma send_response_spec09 buf w code message :
  triple (at_state h0 buf w) (send_response P code message)
    (fun _ => at_state h0 buf w).
Proof.
  unfold send_response.
  seq log_request_spec. seq send_response_only_spec09.
  seq send_header_spec09.
  eapply triple_bind;
    [apply gets_spec; exact (fun h => req_now h h0)|]. cbv beta.
  intros t h (Hst & ->). apply send_header_spec09, Hst.
Qed.

Lemma end_headers_spec09 buf w :
  triple (at_state h0 buf w) CORSHTTPRequestHandler.end_headers
    (fun _ => at_state h0 buf w).
Proof.
  intros h Hst. pose proof (req_http09 _ _ (proj1 Hst)) as Hm.
  exists tt, h. split; [apply end_headers_http09; congruence|exact Hst].
Qed.

Lemma send_error_spec09 buf w code message explain :
  triple (at_state h0 buf w)
    (send_error P CORSHTTPRequestHandler.end_headers code message explain)
    (fun _ =>
       at_state h0 buf (w ++ error_payload P h0 code message explain)%list).
Proof.
  unfold send_error, error_payload, error_body, error_message,
    error_explain.
  destruct (responses P code) as [[shortmsg longmsg]|]; cbn [fst snd];
    fold (has_body code).
  all: set (msg := match message with Some m => m | None => _ end).
  all: set (expl := match explain with Some e => e | None => _ end).
  all: seq log_error_spec; seq send_response_spec09; seq send_header_spec09.
  all: destruct (has_body code) eqn:Hb; cbn [andb].
  all: (eapply triple_bind;
        [first [ seq send_header_spec09; seq send_header_spec09;
                 apply triple_return
               | apply triple_return ]|]; cbv beta).
  all: intros body h (Hst & ->).
  all: revert h Hst; seq end_headers_spec09.
  all: eapply triple_bind;
         [apply gets_spec; exact (fun h => req_command h h0)|]; cbv beta.
  all: intros cmd h (Hst & ->).
  all: try (destruct (negb (command_is "HEAD" (command h0))
                      && Py.nonempty (error_page P code msg expl)) eqn:Hp;
            [destruct (wfile_write_spec h0 _ _
                         (Payload (error_page P code msg expl)) h Hst)
               as (r & h' & Hrun & Hpost);
             exists r, h'; split; [exact Hrun|]
            |exists tt, h; split; [reflexivity|]]).
  all: try (exists tt, h; split; [reflexivity|]).
  all: try rename Hst into Hpost.
  all: rewrite ?app_nil_r in *; exact Hpost.
Qed.

End Http09.

(** ** A request that has been answered *)

(** Bodies are bodies, and a block that ends with the CORS lines is a CORS
    block. *)
Lemma payload_from_is_payload P fs h0 w :
  Forall (payload_from P fs h0) w -> Forall is_payload w.
Proof.
  apply Forall_impl. intros [lines|data]; cbn; auto.
Qed.

Lemma part_of_refl data : part_of data data.
Proof.
  exists "", "". cbn. induction data as [|c data IH]; cbn; [reflexivity|].
  rewrite <- IH. reflexivity.
Qed.

Lemma cors_block_intro (before : list string) :
  cors_block (before ++ cors_lines ++ [Py.CRLF])%list.
Proof. exists before. reflexivity. Qed.

Lemma cors_block_intro2 (buf head : list string) :
  cors_block (buf ++ head ++ cors_lines ++ [Py.CRLF])%list.
Proof. exists (buf ++ head)%list. rewrite <- app_assoc. reflexivity. Qed.

Section Answers.
Variable P : platform.
Variable fs : filesystem.
Variable h0 : handler.

(** The error page is a body every request may be given. *)
Lemma error_payload_allowed h code message explain :
  Forall (payload_from P fs h0) (error_payload P h code message explain).
Proof.
  unfold error_payload.
  destruct (_ && _); [|constructor].
  constructor; [|constructor].
  eexists. split; [|apply part_of_refl].
  left. exists code, message, explain. reflexivity.
Qed.

(** A header block with the CORS lines, then bodies the request may be
    given, is an answer; in the style of HTTP/0.9, the bodies alone are. *)
Lemma answer_http1 buf h lines rest :
  http09 h0 = false ->
  at_state h0 buf ([] ++ [Headers lines] ++ rest)%list h ->
  cors_block lines -> Forall (payload_from P fs h0) rest ->
  answered P fs h0 h.
Proof.
  intros E (Hreq & _ & Hw) Hc Hp. split; [exact Hreq|].
  unfold response_to. rewrite E, Hw. exists lines, rest. auto.
Qed.

Lemma answer_http09 buf h w :
  http09 h0 = true ->
  at_state h0 buf w h -> Forall (payload_from P fs h0) w ->
  answered P fs h0 h.
Proof.
  intros E (Hreq & _ & Hw) Hp. split; [exact Hreq|].
  unfold response_to. rewrite E, Hw. exact Hp.
Qed.

(** Bodies written after an answer leave an answer. *)
Lemma answered_more h pieces :
  answered P fs h0 h ->
  Forall (payload_from P fs h0) pieces ->
  answered P fs h0 (set_wfile (wfile h ++ pieces)%list h).
Proof.
  intros (Hreq & Hresp) Hpieces.
  split; [exact Hreq|]. fields. unfold response_to in *.
  destruct (http09 h0).
  - apply Forall_app. split; assumption.
  - destruct Hresp as (lines & rest & -> & Hc & Hp).
    exists lines, (rest ++ pieces)%list.
    split; [reflexivity|]. split; [exact Hc|].
    apply Forall_app. split; assumption.
Qed.

(** [copyfile] writes the file in pieces. *)
Lemma answered_copyfile f :
  allowed P fs h0 (f_data f) ->
  triple (answered P fs h0) (SimpleHTTPRequestHandler.copyfile f)
    (fun _ => answered P fs h0).
Proof.
  intros Hf h Hans. unfold SimpleHTTPRequestHandler.copyfile.
  destruct (copyfileobj_run (f_data f) h) as (pieces & Hrun & Hcat & _).
  eexists tt, _. split; [exact Hrun|].
  apply answered_more; [exact Hans|].
  apply Forall_forall. intros c Hin. apply in_map_iff in Hin.
  destruct Hin as (piece & <- & Hpiece). exists (f_data f).
  split; [exact Hf|]. rewrite <- Hcat. apply piece_part_of, Hpiece.
Qed.

(** Closing a specification: the state reached is an answer. *)
Ltac answer E :=
  intros;
  match goal with
  | H : at_state _ _ _ _ |- answered _ _ _ _ =>
      first
        [ eapply (answer_http1 _ _ _ _ E);
          [ rewrite ?app_nil_r in H; cbn [app] in H |- *; exact H
          | first [apply cors_block_intro2 | apply cors_block_intro]
          | first [apply error_payload_allowed | constructor] ]
        | eapply (answer_http09 _ _ _ E);
          [ exact H
          | cbn [app];
            first [apply error_payload_allowed | constructor] ] ]
  end.

(** The last method of a sequence, which completes the answer. *)
Ltac finish L E :=
  eapply triple_weaken;
  [ apply L | intros ? HH; exact HH | cbv beta; answer E ].

(** Every method that ends a response leaves an answer. *)
Lemma send_error_answers buf code message explain :
  triple (at_state h0 buf [])
    (send_error P CORSHTTPRequestHandler.end_headers code message explain)
    (fun _ => answered P fs h0).
Proof.
  destruct (http09 h0) eqn:E.
  - finish (send_error_spec09 P h0 E) E.
  - finish (send_error_spec1 P h0 E) E.
Qed.

Lemma do_OPTIONS_answers buf :
  triple (at_state h0 buf []) (CORSHTTPRequestHandler.do_OPTIONS P)
    (fun _ => answered P fs h0).
Proof.
  unfold CORSHTTPRequestHandler.do_OPTIONS.
  destruct (http09 h0) eqn:E.
  - seq (send_response_spec09 P h0 E). finish (end_headers_spec09 h0 E) E.
  - seq (send_response_spec1 P h0 E). finish (end_headers_spec1 h0 E) E.
Qed.

(** [send_error] as the last statement before [return None]. *)
Lemma send_error_then buf code message explain :
  triple (at_state h0 buf [])
    (send_error P CORSHTTPRequestHandler.end_headers code message explain ;;
     ret None)
    (served P fs h0).
Proof.
  seq send_error_answers. apply triple_ret.
  intros h Hans. split; [exact Hans|discriminate].
Qed.

(** The end of a method that has sent the headers and returns [r]. *)
Ltac give E :=
  apply triple_ret; intros ? Hst; split;
  [ revert Hst; answer E | ].

(** An exception raised before anything is written. *)
Lemma raise_aborts {A} buf e :
  raised P fs h0 e ->
  triple_x (at_state h0 buf []) (raise e)
    (fun (_ : A) (_ : handler) => False) (aborted P fs h0).
Proof.
  intros He. apply triple_x_raise. intros h (Hreq & _ & Hw).
  split; [exact Hreq|]. split; [exact Hw|exact He].
Qed.

Lemma list_directory_answers buf :
  triple_x (at_state h0 buf [])
    (SimpleHTTPRequestHandler.list_directory P fs
       CORSHTTPRequestHandler.end_headers (resolved P h0))
    (served P fs h0) (aborted P fs h0).
Proof.
  unfold SimpleHTTPRequestHandler.list_directory,
    SimpleHTTPRequestHandler.self_path.
  destruct (listdir fs (resolved P h0)) as [names|] eqn:Hlist;
    [|apply triple_x_total, send_error_then].
  eapply triple_x_bind;
    [apply triple_x_total, gets_spec; exact (fun h => req_path h h0)|].
  cbv beta. intros p h (Hst & ->). revert h Hst.
  destruct (listing_page P (resolved P h0) (path h0) names)
    as [err|page] eqn:Hpage.
  { eapply triple_x_weaken;
      [apply (raise_aborts buf err)|auto|intros ? ? []|auto].
    right. right. exists names. auto. }
  apply triple_x_total.
  assert (Hlisting : forall f,
            Some {| f_data := page; st_size := Py.len page; st_mtime := 0 |}
            = Some f ->
            allowed P fs h0 (f_data f)).
  { intros f Hf. injection Hf as <-. right. right. exists names. auto. }
  destruct (http09 h0) eqn:E.
  - seq (send_response_spec09 P h0 E). seq (send_header_spec09 h0 E).
    seq (send_header_spec09 h0 E). seq (end_headers_spec09 h0 E).
    give E. exact Hlisting.
  - seq (send_response_spec1 P h0 E). seq (send_header_spec1 h0 E).
    seq (send_header_spec1 h0 E). seq (end_headers_spec1 h0 E).
    give E. exact Hlisting.
Qed.

Lemma send_head_file_answers buf p :
  In p (opened P h0) ->
  triple_x (at_state h0 buf [])
    (SimpleHTTPRequestHandler.send_head_file P fs
       CORSHTTPRequestHandler.end_headers p)
    (served P fs h0) (aborted P fs h0).
Proof.
  intros Hp. unfold SimpleHTTPRequestHandler.send_head_file.
  destruct (Py.endswith p "/"); [apply triple_x_total, send_error_then|].
  destruct (open_rb fs p) as [err|f] eqn:Hopen.
  { assert (Hraise :
      (forall msg, err <> OSError msg) ->
      triple_x (at_state h0 buf []) (raise err) (served P fs h0)
        (aborted P fs h0)).
    { intros Hother. eapply triple_x_weaken;
        [apply (raise_aborts buf err)|auto|intros ? ? []|auto].
      left. exists p. auto. }
    destruct err; try (apply Hraise; intros ?; discriminate).
    apply triple_x_total, send_error_then. }
  apply triple_x_total.
  eapply triple_bind;
    [apply gets_spec; exact (fun h => req_headers h h0)|]. cbv beta.
  intros fields h (Hst & ->). revert h Hst.
  assert (Hfile : forall f', Some f = Some f' ->
                  allowed P fs h0 (f_data f')).
  { intros f' Hf. injection Hf as <-. right. left. exists p, f. auto. }
  destruct (not_modified_since P (headers h0) (st_mtime f));
    destruct (http09 h0) eqn:E.
  - seq (send_response_spec09 P h0 E). seq (end_headers_spec09 h0 E).
    give E. discriminate.
  - seq (send_response_spec1 P h0 E). seq (end_headers_spec1 h0 E).
    give E. discriminate.
  - seq (send_response_spec09 P h0 E). do 3 seq (send_header_spec09 h0 E).
    seq (end_headers_spec09 h0 E). give E. exact Hfile.
  - seq (send_response_spec1 P h0 E). do 3 seq (send_header_spec1 h0 E).
    seq (end_headers_spec1 h0 E). give E. exact Hfile.
Qed.

Lemma translate_path_run p h :
  SimpleHTTPRequestHandler.translate_path P p h
  = (inr (translated P (directory h) p), h).
Proof. reflexivity. Qed.

Lemma translate_path_spec buf w p :
  triple (at_state h0 buf w)
    (SimpleHTTPRequestHandler.translate_path P p)
    (fun q h => at_state h0 buf w h /\ q = translated P (directory h0) p).
Proof.
  intros h Hst. exists (translated P (directory h) p), h.
  split; [apply translate_path_run|]. split; [exact Hst|].
  rewrite (req_directory _ _ (proj1 Hst)). reflexivity.
Qed.

Lemma send_head_answers buf :
  triple_x (at_state h0 buf [])
    (SimpleHTTPRequestHandler.send_head P fs
       CORSHTTPRequestHandler.end_headers)
    (served P fs h0) (aborted P fs h0).
Proof.
  unfold SimpleHTTPRequestHandler.send_head,
    SimpleHTTPRequestHandler.self_path.
  eapply triple_x_bind;
    [apply triple_x_total, gets_spec; exact (fun h => req_path h h0)|].
  cbv beta. intros p h (Hst & ->). revert h Hst.
  eapply triple_x_bind; [apply triple_x_total, translate_path_spec|].
  cbv beta. intros p h (Hst & ->). revert h Hst.
  fold (resolved P h0).
  destruct (isdir fs _);
    [|apply send_head_file_answers; left; reflexivity].
  destruct (urlsplit_path P (path h0)) as [err|parts_path] eqn:Hsplit.
  { eapply triple_x_weaken;
      [apply (raise_aborts buf err)|auto|intros ? ? []|auto].
    right. left. exact Hsplit. }
  destruct (negb _).
  - apply triple_x_total. destruct (http09 h0) eqn:E.
    + seq (send_response_spec09 P h0 E). do 2 seq (send_header_spec09 h0 E).
      seq (end_headers_spec09 h0 E). give E. discriminate.
    + seq (send_response_spec1 P h0 E). do 2 seq (send_header_spec1 h0 E).
      seq (end_headers_spec1 h0 E). give E. discriminate.
  - destruct (find _ _) as [index|] eqn:Hfind;
      [|apply list_directory_answers].
    apply send_head_file_answers. right.
    apply find_some in Hfind. exact (proj1 Hfind).
Qed.

Lemma do_GET_answers buf :
  triple_x (at_state h0 buf [])
    (SimpleHTTPRequestHandler.do_GET P fs
       CORSHTTPRequestHandler.end_headers)
    (fun _ => answered P fs h0) (aborted P fs h0).
Proof.
  unfold SimpleHTTPRequestHandler.do_GET.
  eapply triple_x_bind; [apply send_head_answers|]. cbv beta.
  intros [f|]; apply triple_x_total.
  - intros h (Hans & Hf).
    apply (answered_copyfile f (Hf f eq_refl) h Hans).
  - apply triple_ret. intros h (Hans & _). exact Hans.
Qed.

Lemma do_HEAD_answers buf :
  triple_x (at_state h0 buf [])
    (SimpleHTTPRequestHandler.do_HEAD P fs
       CORSHTTPRequestHandler.end_headers)
    (fun _ => answered P fs h0) (aborted P fs h0).
Proof.
  unfold SimpleHTTPRequestHandler.do_HEAD.
  eapply triple_x_bind; [apply send_head_answers|]. cbv beta.
  intros r. apply triple_x_total, triple_ret.
  intros h (Hans & _). exact Hans.
Qed.

End Answers.

(** ** One request, from the request line to the answer *)

(** An answer to the request that a handler holds is an answer to the
    handler itself. *)
Lemma allowed_same_request P fs h0 h data :
  req h = req h0 -> allowed P fs h0 data -> allowed P fs h data.
Proof.
  intros Hreq. unfold allowed, opened, resolved.
  destruct (req_fields _ _ Hreq) as (-> & _ & _ & _ & _ & -> & _). auto.
Qed.

Lemma raised_same_request P fs h0 h e :
  req h = req h0 -> raised P fs h0 e -> raised P fs h e.
Proof.
  intros Hreq. unfold raised, opened, resolved.
  destruct (req_fields _ _ Hreq) as (-> & _ & _ & _ & _ & -> & _). auto.
Qed.

Lemma aborted_self P fs h0 h e : aborted P fs h0 e h -> aborted P fs h e h.
Proof.
  intros (Hreq & Hw & He). split; [reflexivity|]. split; [exact Hw|].
  apply (raised_same_request P fs h0 h e Hreq He).
Qed.

Lemma answered_self P fs h0 h : answered P fs h0 h -> answered P fs h h.
Proof.
  intros (Hreq & Hresp). split; [reflexivity|].
  assert (Hall : forall w, Forall (payload_from P fs h0) w ->
                           Forall (payload_from P fs h) w).
  { intros w. apply Forall_impl. intros [lines|data]; cbn; [auto|].
    intros (body & Hbody & Hpart). exists body.
    split; [apply (allowed_same_request P fs h0 h body Hreq Hbody)|].
    exact Hpart. }
  unfold response_to in *. rewrite (req_http09 _ _ Hreq).
  destruct (http09 h0); [auto|].
  destruct Hresp as (lines & rest & Hw & Hc & Hp).
  exists lines, rest. auto.
Qed.

(** The class speaks HTTP/1.0: no request keeps the connection open, and
    [Expect: 100-continue] is not honoured. *)
Lemma protocol_is_http10 : String.leb "HTTP/1.1" protocol_version = false.
Proof. reflexivity. Qed.

Section Request.
Variable P : platform.
Variable fs : filesystem.
Variable d : string.
Variable t : Z.

(** Assignments of [parse_request] write nothing. *)
Lemma set_fresh (f : handler -> handler) :
  (forall h, directory (f h) = directory h /\ now (f h) = now h
             /\ _headers_buffer (f h) = _headers_buffer h
             /\ wfile (f h) = wfile h) ->
  triple (fresh d t) (modify f) (fun _ => fresh d t).
Proof.
  intros Hf. apply triple_modify. intros h (Hd & Ht & Hb & Hw).
  destruct (Hf h) as (Hd' & Ht' & Hb' & Hw').
  unfold fresh, buffered in *. rewrite Hd', Ht', Hb', Hw'. auto.
Qed.

(** An error response to a request that could not be parsed. *)
Lemma send_error_fresh code message explain :
  triple (fresh d t)
    (send_error P CORSHTTPRequestHandler.end_headers code message explain)
    (fun _ h => directory h = d /\ now h = t /\ answered P fs h h).
Proof.
  intros h (Hd & Ht & Hb & Hw).
  destruct (send_error_answers P fs h [] code message explain h)
    as (r & h' & Hrun & Hans).
  { unfold at_state. auto. }
  exists r, h'. split; [exact Hrun|].
  destruct (req_fields _ _ (proj1 Hans)) as (Hd' & Ht' & _).
  split; [congruence|]. split; [congruence|].
  eapply answered_self, Hans.
Qed.

(** [self.send_error(...); return False]. *)
Lemma reject_false code message explain :
  triple (fresh d t)
    (send_error P CORSHTTPRequestHandler.end_headers code message explain ;;
     ret false)
    (fun ok h => ok = false /\ parsed P fs d t false h).
Proof.
  seq send_error_fresh.
  eapply triple_weaken; [apply triple_return|intros ? HH; exact HH|].
  cbv beta.
  intros ok h ((Hd & Ht & Hans) & ->). unfold parsed. auto.
Qed.

Lemma reject code message explain :
  triple (fresh d t)
    (send_error P CORSHTTPRequestHandler.end_headers code message explain ;;
     ret false)
    (parsed P fs d t).
Proof.
  eapply triple_weaken; [apply reject_false|auto|].
  intros ok h (-> & H). exact H.
Qed.

Ltac set_field := apply set_fresh; intros; repeat split; reflexivity.
Ltac seq_set := eapply triple_bind; [set_field | cbv beta; intros ?].

(** [parse_request], in its three parts, returns for every request line:
    with [True] and nothing written, or with [False] and the error
    answered. *)
Lemma parse_request_headers_spec m :
  triple (fun h => fresh d t h /\ command h <> None)
    (parse_request_headers P CORSHTTPRequestHandler.end_headers m)
    (parsed P fs d t).
Proof.
  unfold parse_request_headers.
  destruct (header_lines m) as [fields|err|err].
  2,3: eapply triple_weaken;
         [apply reject|intros h H; apply H|auto].
  rewrite protocol_is_http10, !andb_false_r. cbn [andb].
  eapply triple_bind.
  { apply triple_modify with (Post := fun h => fresh d t h /\ command h <> None).
    intros h H. exact H. }
  intros ?. eapply triple_bind.
  { instantiate (1 := fun _ h => fresh d t h /\ command h <> None).
    destruct (Py.lower _ =? "close").
    - apply triple_modify. intros h H. exact H.
    - apply triple_ret. auto. }
  intros ?. eapply triple_bind; [apply triple_gets|]. cbv beta.
  intros version. apply triple_ret.
  intros h (((Hd & Ht & Hb & Hw) & Hc) & _). unfold parsed. auto.
Qed.

Lemma parse_request_words_spec m requestline words :
  triple (fresh d t)
    (parse_request_words P CORSHTTPRequestHandler.end_headers m
       requestline words)
    (parsed P fs d t).
Proof.
  unfold parse_request_words.
  destruct words as [|cmd [|target rest]]; try apply reject.
  destruct (negb _); [apply reject|].
  eapply triple_bind.
  { instantiate (1 := fun ok h =>
                        if ok then fresh d t h else parsed P fs d t false h).
    destruct rest.
    - seq_set.
      destruct (negb _).
      + eapply triple_weaken; [apply reject_false|auto|].
        intros ok h (-> & H). exact H.
      + apply triple_ret. auto.
    - apply triple_ret. auto. }
  intros [|]; cbn [negb].
  - eapply triple_bind.
    { apply triple_modify
        with (Post := fun h => fresh d t h /\ command h <> None).
      intros h H. split; [exact H|discriminate]. }
    intros ?. eapply triple_bind.
    { apply triple_modify
        with (Post := fun h => fresh d t h /\ command h <> None).
      intros h H. exact H. }
    intros ?. eapply triple_bind.
    { instantiate (1 := fun _ h => fresh d t h /\ command h <> None).
      destruct (Py.startswith target "//").
      - apply triple_modify. intros h H. exact H.
      - apply triple_ret. auto. }
    intros ?. apply parse_request_headers_spec.
  - apply triple_ret. auto.
Qed.

Lemma parse_request_spec m :
  triple (fresh d t)
    (parse_request P CORSHTTPRequestHandler.end_headers m)
    (parsed P fs d t).
Proof.
  unfold parse_request.
  seq_set.
  eapply triple_bind.
  { apply triple_modify
      with (Post := fun h => fresh d t h /\ http09 h = true).
    intros h H. split; [exact H|reflexivity]. }
  intros ?. eapply triple_bind.
  { apply triple_modify
      with (Post := fun h => fresh d t h /\ http09 h = true).
    intros h H. exact H. }
  intros ?. eapply triple_bind; [apply triple_gets|]. cbv beta.
  intros raw. eapply triple_bind.
  { apply triple_modify
      with (Post := fun h => fresh d t h /\ http09 h = true).
    intros h (H & _). exact H. }
  intros ?.
  destruct (Py.split_ws _) as [|word words] eqn:Hwords.
  { apply triple_ret. intros h ((Hd & Ht & Hb & Hw) & E).
    unfold parsed. split; [exact Hd|]. split; [exact Ht|].
    split; [reflexivity|]. unfold response_to.
    rewrite E, Hw. constructor. }
  destruct (Nat.leb 3 _).
  - destruct (parse_version P _) as [[[major minor] base]|].
    + eapply triple_bind.
      { instantiate (1 := fun _ => fresh d t).
        destruct (_ && _).
        - apply triple_modify. intros h (H & _). exact H.
        - apply triple_ret. intros h (H & _). exact H. }
      intros ?. destruct (pair_ge _ _); [apply reject|].
      seq_set. apply parse_request_words_spec.
    + eapply triple_weaken;
        [apply reject|intros h H; apply H|auto].
  - eapply triple_weaken;
      [apply parse_request_words_spec|intros h H; apply H|auto].
Qed.

(** Every request line that is not empty is answered: [handle_one_request]
    returns, and what it has written is a whole response. *)
Lemma handle_one_request_spec m :
  raw_line m <> "" ->
  triple_x (fresh d t)
    (CORSHTTPRequestHandler.handle_one_request P fs m)
    (fun _ h => directory h = d /\ now h = t /\ answered P fs h h)
    (fun e h => directory h = d /\ now h = t /\ aborted P fs h e h).
Proof.
  intros Hraw.
  unfold CORSHTTPRequestHandler.handle_one_request, handle_one_request.
  eapply triple_x_bind; [apply triple_x_total; set_field|].
  cbv beta. intros ?.
  destruct (_ <? _)%Z.
  { apply triple_x_total. do 3 seq_set. apply send_error_fresh. }
  destruct (raw_line m) as [|c rest] eqn:Hline; [congruence|].
  cbn [Py.nonempty negb].
  xseq parse_request_spec.
  match goal with |- triple_x _ (if negb ?ok then _ else _) _ _ =>
    destruct ok end; cbn [negb].
  2: { apply triple_x_total, triple_ret. intros h (Hd & Ht & Hans). auto. }
  eapply triple_x_bind; [apply triple_x_total, triple_gets|]. cbv beta.
  intros cmd.
  assert (Hmethod : forall method : M unit,
            (forall h0 buf,
               triple_x (at_state h0 buf []) method
                 (fun _ => answered P fs h0) (aborted P fs h0)) ->
            triple_x (fun h => parsed P fs d t true h /\ cmd = command h)
              method
              (fun _ h => directory h = d /\ now h = t
                          /\ answered P fs h h)
              (fun e h => directory h = d /\ now h = t
                          /\ aborted P fs h e h)).
  { intros method Hm h ((Hd & Ht & Hb & Hw & _) & _).
    specialize (Hm h (buffered h) h).
    destruct (method h) as [[e|r] h'].
    - assert (Hab : aborted P fs h e h') by (apply Hm; unfold at_state; auto).
      destruct (req_fields _ _ (proj1 Hab)) as (Hd' & Ht' & _).
      split; [congruence|]. split; [congruence|].
      eapply aborted_self, Hab.
    - assert (Hans : answered P fs h h')
        by (apply Hm; unfold at_state; auto).
      destruct (req_fields _ _ (proj1 Hans)) as (Hd' & Ht' & _).
      split; [congruence|]. split; [congruence|].
      eapply answered_self, Hans. }
  unfold CORSHTTPRequestHandler.getattr, SimpleHTTPRequestHandler.getattr.
  destruct (_ =? "do_OPTIONS").
  { apply Hmethod. intros. apply triple_x_total, do_OPTIONS_answers. }
  destruct (_ =? "do_GET").
  { apply Hmethod. intros. apply do_GET_answers. }
  destruct (_ =? "do_HEAD").
  { apply Hmethod. intros. apply do_HEAD_answers. }
  apply Hmethod. intros. apply triple_x_total, send_error_answers.
Qed.

End Request.

(* ================================================================== *)
(** * Where [translate_path] leads *)
(* ================================================================== *)

(** The words of a split have no separator, and such a word has no
    directory part. *)
Lemma no_sep_app a b : no_sep (a ++ b) = no_sep a && no_sep b.
Proof.
  induction a as [|c a IH]; cbn [no_sep String.append]; [reflexivity|].
  rewrite IH, andb_assoc. reflexivity.
Qed.

Lemma split_go_no_sep s : forall cur,
  no_sep cur = true ->
  Forall (fun w => no_sep w = true)
    (Py.split_go posixpath.is_sep true s cur).
Proof.
  induction s as [|c s IH]; intros cur Hcur; cbn [Py.split_go orb app].
  - repeat constructor. exact Hcur.
  - destruct (posixpath.is_sep c) eqn:E.
    + constructor; [exact Hcur|]. apply IH. reflexivity.
    + apply IH. rewrite no_sep_app, Hcur. cbn [no_sep andb].
      rewrite E. reflexivity.
Qed.

Lemma split_no_sep s :
  Forall (fun w => no_sep w = true) (Py.split "/"%char s).
Proof. apply split_go_no_sep. reflexivity. Qed.

Lemma head_upto_last_sep_no_sep w :
  no_sep w = true -> posixpath.head_upto_last_sep w = "".
Proof.
  induction w as [|c w IH]; cbn [no_sep posixpath.head_upto_last_sep];
    [reflexivity|].
  intros H. apply andb_prop in H. destruct H as (Hc & Hw).
  rewrite (IH Hw). apply negb_true_iff in Hc. rewrite Hc. reflexivity.
Qed.

Lemma dirname_no_sep w : no_sep w = true -> posixpath.dirname w = "".
Proof.
  intros H. unfold posixpath.dirname.
  rewrite (head_upto_last_sep_no_sep w H). reflexivity.
Qed.

(** The loop of [translate_path] keeps the plain names and drops the
    rest. *)
Lemma translate_words words : forall root,
  Forall (fun w => no_sep w = true) words ->
  fold_left SimpleHTTPRequestHandler.translate_word
    (filter Py.nonempty words) root
  = descend root (filter plain_name words).
Proof.
  induction words as [|w words IH]; intros root Hall; [reflexivity|].
  inversion Hall as [|? ? Hw Hrest]; subst.
  unfold plain_name at 1. cbn [filter]. rewrite Hw, andb_true_r.
  destruct (Py.nonempty w) eqn:Hne; cbn [andb].
  - cbn [fold_left]. unfold SimpleHTTPRequestHandler.translate_word at 2.
    rewrite (dirname_no_sep w Hw). cbn [Py.nonempty orb].
    destruct (w =? "."); cbn [orb negb andb].
    + rewrite (IH root Hrest). reflexivity.
    + destruct (w =? ".."); cbn [negb].
      * rewrite (IH root Hrest). reflexivity.
      * rewrite (IH _ Hrest). reflexivity.
  - apply (IH root Hrest).
Qed.

(** Prefixes. *)
Lemma prefix_app a b : String.prefix a (a ++ b) = true.
Proof.
  induction a as [|c a IH]; cbn [String.prefix String.append].
  - destruct b; reflexivity.
  - destruct (ascii_dec c c); [exact IH|congruence].
Qed.

Lemma prefix_trans a b c :
  String.prefix a b = true -> String.prefix b c = true ->
  String.prefix a c = true.
Proof.
  revert b c. induction a as [|x a IH]; intros b c Hab Hbc.
  - destruct c; reflexivity.
  - destruct b as [|y b]; [discriminate|]. destruct c as [|z c]; [discriminate|].
    cbn [String.prefix] in *.
    destruct (ascii_dec x y) as [->|]; [|discriminate].
    destruct (ascii_dec y z) as [->|]; [|discriminate].
    eapply IH; eassumption.
Qed.

Lemma startswith_sep_no_sep w :
  no_sep w = true -> Py.startswith w "/" = false.
Proof.
  destruct w as [|c w]; [reflexivity|].
  cbn [no_sep Py.startswith String.prefix].
  intros H. apply andb_prop in H. destruct H as (Hc & _).
  apply negb_true_iff in Hc.
  unfold posixpath.is_sep, Py.is_char, posixpath.sep in Hc.
  destruct (ascii_dec "/" c) as [<-|]; [|reflexivity].
  rewrite Ascii.eqb_refl in Hc. discriminate.
Qed.

(** Joining a plain name goes one level down: the path so far, a
    separator unless it ends with one, and the name. *)
Lemma join_plain a w :
  plain_name w = true ->
  posixpath.join a w
  = a ++ (if negb (Py.nonempty a) || Py.endswith a "/" then "" else "/")
      ++ w.
Proof.
  intros H. unfold plain_name in H.
  apply andb_prop in H. destruct H as (_ & Hsep).
  unfold posixpath.join. rewrite (startswith_sep_no_sep w Hsep).
  destruct (negb (Py.nonempty a) || Py.endswith a "/"); reflexivity.
Qed.

Lemma descend_prefix names : forall root,
  Forall (fun w => plain_name w = true) names ->
  String.prefix root (descend root names) = true.
Proof.
  induction names as [|w names IH]; intros root Hall; cbn.
  - rewrite <- (prefix_app root "") at 1.
    assert (H : root ++ "" = root) by (induction root; cbn; congruence).
    rewrite H. reflexivity.
  - inversion Hall as [|? ? Hw Hrest]; subst.
    eapply prefix_trans; [|apply (IH _ Hrest)].
    rewrite (join_plain root w Hw). apply prefix_app.
Qed.

Lemma filter_all {A} (f : A -> bool) l :
  Forall (fun x => f x = true) (filter f l).
Proof.
  induction l as [|x l IH]; cbn; [constructor|].
  destruct (f x) eqn:E; [constructor; assumption|assumption].
Qed.

(** The path [translate_path] returns: the root, then plain names of the
    request path, each joined one level down, then the trailing slash if
    the request path has one. *)
Lemma translated_descends P root path :
  exists slash,
    translated P root path = descend root (names_of P path) ++ slash
    /\ (slash = "" \/ slash = "/")
    /\ Forall (fun w => plain_name w = true) (names_of P path)
    /\ String.prefix root (translated P root path) = true.
Proof.
  unfold translated, names_of.
  set (q := fst (Py.split1 "#"%char (fst (Py.split1 "?"%char path)))).
  rewrite (translate_words _ root (split_no_sep _)).
  set (names := filter plain_name _).
  assert (Hall : Forall (fun w => plain_name w = true) names)
    by apply filter_all.
  destruct (Py.endswith (Py.rstrip Py.isspace q) "/").
  - exists "/". repeat split; auto.
    eapply prefix_trans; [apply (descend_prefix names root Hall)|].
    apply prefix_app.
  - exists "". repeat split; auto.
    + induction (descend root names); cbn; congruence.
    + apply (descend_prefix names root Hall).
Qed.

(* ================================================================== *)
(** * The directory of the script *)
(* ================================================================== *)

(** Texts. *)
Lemma append_nil (s : string) : s ++ "" = s.
Proof. induction s as [|c s IH]; cbn; [reflexivity|]. rewrite IH. reflexivity. Qed.

Lemma append_assoc (a b c : string) : (a ++ b) ++ c = a ++ b ++ c.
Proof.
  induction a as [|x a IH]; cbn; [reflexivity|]. rewrite IH. reflexivity.
Qed.

(** A plain name has no separator and starts with a character that is
    none. *)
Lemma plain_no_sep w : plain_name w = true -> no_sep w = true.
Proof. unfold plain_name. intros H. apply andb_prop in H. apply H. Qed.

Lemma plain_first w :
  plain_name w = true ->
  exists c w', w = String c w' /\ posixpath.is_sep c = false.
Proof.
  intros H. pose proof (plain_no_sep w H) as Hsep.
  destruct w as [|c w']; [discriminate|]. exists c, w'.
  split; [reflexivity|]. cbn [no_sep] in Hsep. apply andb_prop in Hsep.
  apply negb_true_iff. apply Hsep.
Qed.

Lemma plain_all_no_sep names :
  Forall (fun w => plain_name w = true) names ->
  Forall (fun w => no_sep w = true) names.
Proof. apply Forall_impl. exact plain_no_sep. Qed.

(** [split] undoes [join]. *)
Lemma split_go_word w : forall rest cur,
  no_sep w = true ->
  Py.split_go posixpath.is_sep true (w ++ rest) cur
  = Py.split_go posixpath.is_sep true rest (cur ++ w).
Proof.
  induction w as [|c w IH]; intros rest cur Hw; cbn [String.append].
  - rewrite append_nil. reflexivity.
  - cbn [no_sep] in Hw. apply andb_prop in Hw. destruct Hw as (Hc & Hw).
    apply negb_true_iff in Hc. cbn [Py.split_go]. rewrite Hc.
    rewrite (IH rest _ Hw), append_assoc. reflexivity.
Qed.

Lemma join_cons x y l :
  Py.join "/" (x :: y :: l) = x ++ "/" ++ Py.join "/" (y :: l).
Proof. reflexivity. Qed.

Lemma split_go_join l : forall x cur,
  Forall (fun w => no_sep w = true) (x :: l) ->
  Py.split_go posixpath.is_sep true (Py.join "/" (x :: l)) cur
  = (cur ++ x) :: l.
Proof.
  induction l as [|y l IH]; intros x cur Hall;
    inversion Hall as [|? ? Hx Hl]; subst.
  - change (Py.join "/" [x]) with x. rewrite <- (append_nil x) at 1.
    rewrite (split_go_word x "" cur Hx). reflexivity.
  - rewrite join_cons, (split_go_word x _ cur Hx).
    cbn [String.append Py.split_go].
    change (posixpath.is_sep "/") with true. cbv iota. cbn [orb app].
    rewrite (IH y "" Hl). reflexivity.
Qed.

Lemma split_absolute names :
  Forall (fun w => no_sep w = true) names ->
  Py.split "/"%char (absolute names)
  = "" :: match names with [] => [""] | _ => names end.
Proof.
  intros Hall. unfold absolute, Py.split.
  cbn [String.append Py.split_go].
  change (Py.is_char "/" "/") with true. cbv iota. cbn [orb app].
  destruct names as [|x l]; [reflexivity|].
  change (Py.is_char "/"%char) with posixpath.is_sep.
  rewrite (split_go_join l x "" Hall). reflexivity.
Qed.

(** [normpath] leaves an absolute path of plain names as it is. *)
Lemma plain_name_tests w :
  plain_name w = true ->
  (w =? "") = false /\ (w =? ".") = false /\ (w =? "..") = false.
Proof.
  unfold plain_name. intros H.
  apply andb_prop in H. destruct H as (H & _).
  apply andb_prop in H. destruct H as (H & Hdd).
  apply andb_prop in H. destruct H as (Hne & Hd).
  apply negb_true_iff in Hd, Hdd.
  destruct w; [discriminate|]. auto.
Qed.

Lemma normpath_comps_plain n comps : forall acc,
  Forall (fun w => plain_name w = true \/ w = "") comps ->
  posixpath.normpath_comps n comps acc
  = (rev acc ++ filter plain_name comps)%list.
Proof.
  induction comps as [|w comps IH]; intros acc Hall;
    cbn [posixpath.normpath_comps filter].
  - rewrite app_nil_r. reflexivity.
  - inversion Hall as [|? ? Hw Hrest]; subst.
    destruct Hw as [Hw| ->].
    + destruct (plain_name_tests w Hw) as (H1 & H2 & H3).
      rewrite H1, H2, H3, Hw. cbn [orb negb].
      rewrite (IH _ Hrest). cbn [rev]. rewrite <- app_assoc. reflexivity.
    + cbn [String.eqb orb]. apply (IH _ Hrest).
Qed.

Lemma filter_plain names :
  Forall (fun w => plain_name w = true) names ->
  filter plain_name names = names.
Proof.
  induction 1 as [|w names Hw _ IH]; cbn [filter]; [reflexivity|].
  rewrite Hw, IH. reflexivity.
Qed.

Lemma startswith_slash s : Py.startswith (String "/" s) "/" = true.
Proof.
  unfold Py.startswith. cbn [String.prefix].
  destruct (ascii_dec "/" "/"); [destruct s; reflexivity|congruence].
Qed.

Lemma join_not_absolute names :
  Forall (fun w => plain_name w = true) names ->
  Py.startswith (Py.join "/" names) "/" = false.
Proof.
  intros Hall. destruct names as [|x l]; [reflexivity|].
  inversion Hall as [|? ? Hx _]; subst.
  destruct (plain_first x Hx) as (c & x' & -> & Hc).
  assert (Hstart : forall rest, Py.startswith (String c rest) "/" = false).
  { intros rest. unfold Py.startswith. cbn [String.prefix].
    destruct (ascii_dec "/" c) as [<-|]; [discriminate|reflexivity]. }
  destruct l; [apply Hstart|]. rewrite join_cons. apply Hstart.
Qed.

Lemma normpath_absolute names :
  Forall (fun w => plain_name w = true) names ->
  posixpath.normpath (absolute names) = absolute names.
Proof.
  intros Hall.
  assert (Hslash : Py.startswith (absolute names) "/" = true)
    by apply startswith_slash.
  assert (Hdouble : Py.startswith (absolute names) "//" = false).
  { pose proof (join_not_absolute names Hall) as Hj.
    unfold absolute, Py.startswith in *. cbn [String.append String.prefix].
    destruct (ascii_dec "/" "/"); [exact Hj|reflexivity]. }
  assert (Hcomps :
    posixpath.normpath_comps 1
      ("" :: match names with [] => [""] | _ => names end) []
    = names).
  { rewrite normpath_comps_plain.
    - cbn [rev app filter plain_name Py.nonempty andb].
      destruct names; [reflexivity|]. apply filter_plain, Hall.
    - constructor; [right; reflexivity|].
      destruct names; [repeat constructor; right; reflexivity|].
      revert Hall. apply Forall_impl. auto. }
  unfold posixpath.normpath, posixpath.sep. cbv zeta.
  rewrite (split_absolute names (plain_all_no_sep names Hall)).
  rewrite Hslash, Hdouble. cbn [andb]. cbv iota. rewrite Hcomps.
  reflexivity.
Qed.

(** [posixpath.join] on an absolute path of plain names and a relative
    one. *)
Lemma endswith_app_name a b :
  Py.nonempty b = true ->
  Py.endswith (a ++ b) "/" = Py.endswith b "/".
Proof.
  intros Hb. induction a as [|x a IH]; [reflexivity|].
  cbn [String.append Py.endswith]. rewrite IH.
  replace (String x (a ++ b) =? "/") with false; [reflexivity|].
  symmetry. apply String.eqb_neq. intros Heq. injection Heq as _ Heq.
  destruct a; destruct b; discriminate.
Qed.

Lemma endswith_no_sep w : no_sep w = true -> Py.endswith w "/" = false.
Proof.
  induction w as [|c w IH]; [reflexivity|]. cbn [no_sep Py.endswith].
  intros H. apply andb_prop in H. destruct H as (Hc & Hw).
  rewrite (IH Hw), orb_false_r. apply String.eqb_neq.
  intros Heq. injection Heq as -> _. discriminate.
Qed.

Lemma join_app a : forall b,
  a <> [] -> b <> [] ->
  Py.join "/" (a ++ b) = Py.join "/" a ++ "/" ++ Py.join "/" b.
Proof.
  induction a as [|x a IH]; intros b Ha Hb; [congruence|].
  destruct a as [|y a].
  - destruct b as [|z b]; [congruence|]. reflexivity.
  - change ((x :: y :: a) ++ b)%list with (x :: y :: (a ++ b))%list.
    rewrite !join_cons. change (y :: (a ++ b))%list with ((y :: a) ++ b)%list.
    rewrite (IH b) by (assumption || discriminate).
    rewrite !append_assoc. reflexivity.
Qed.

Lemma absolute_snoc names name :
  absolute (names ++ [name])
  = (match names with [] => "" | _ => absolute names end) ++ "/" ++ name.
Proof.
  destruct names as [|x l]; [reflexivity|].
  unfold absolute. rewrite (join_app (x :: l) [name]) by discriminate.
  reflexivity.
Qed.

Lemma endswith_absolute names :
  names <> [] ->
  Forall (fun w => plain_name w = true) names ->
  Py.endswith (absolute names) "/" = false.
Proof.
  intros Hne Hall.
  destruct (exists_last Hne) as (l & x & ->).
  apply Forall_app in Hall. destruct Hall as (_ & Hx).
  inversion Hx as [|? ? Hplain _]; subst.
  rewrite absolute_snoc, <- append_assoc.
  destruct (plain_first x Hplain) as (c & x' & -> & _).
  rewrite endswith_app_name by reflexivity.
  apply endswith_no_sep, plain_no_sep, Hplain.
Qed.

Lemma join_absolute dnames rel :
  Forall (fun w => plain_name w = true) dnames ->
  Forall (fun w => plain_name w = true) rel ->
  rel <> [] ->
  posixpath.join (absolute dnames) (Py.join "/" rel)
  = absolute (dnames ++ rel).
Proof.
  intros Hd Hr Hne. unfold posixpath.join.
  rewrite (join_not_absolute rel Hr).
  destruct dnames as [|x l].
  - reflexivity.
  - rewrite (endswith_absolute (x :: l)) by (assumption || discriminate).
    cbn [Py.nonempty absolute String.append negb orb].
    unfold absolute. rewrite (join_app (x :: l) rel) by (assumption || discriminate).
    reflexivity.
Qed.

(** [dirname] of an absolute path of plain names drops the last. *)
Lemma head_upto_last_sep_app s : forall w,
  no_sep w = true ->
  posixpath.head_upto_last_sep (s ++ "/" ++ w) = s ++ "/".
Proof.
  induction s as [|c s IH]; intros w Hw;
    cbn [String.append posixpath.head_upto_last_sep].
  - rewrite (head_upto_last_sep_no_sep w Hw).
    change (posixpath.is_sep "/") with true. reflexivity.
  - cbn [String.append] in IH. rewrite (IH w Hw).
    destruct s; reflexivity.
Qed.

Lemma rstrip_no_sep w :
  no_sep w = true -> Py.rstrip posixpath.is_sep w = w.
Proof.
  induction w as [|c w IH]; [reflexivity|]. cbn [no_sep Py.rstrip].
  intros H. apply andb_prop in H. destruct H as (Hc & Hw).
  apply negb_true_iff in Hc. rewrite (IH Hw), Hc, andb_false_r.
  reflexivity.
Qed.

Lemma rstrip_name t : forall c w,
  no_sep (String c w) = true ->
  Py.rstrip posixpath.is_sep (t ++ String c w) = t ++ String c w.
Proof.
  induction t as [|x t IH]; intros c w Hw; cbn [String.append].
  - apply rstrip_no_sep, Hw.
  - cbn [Py.rstrip]. rewrite (IH c w Hw).
    destruct t; reflexivity.
Qed.

Lemma rstrip_slash s :
  Py.rstrip posixpath.is_sep (s ++ "/") = Py.rstrip posixpath.is_sep s.
Proof.
  induction s as [|c s IH]; [reflexivity|].
  cbn [String.append Py.rstrip]. rewrite IH. reflexivity.
Qed.

Lemma rstrip_absolute names :
  names <> [] ->
  Forall (fun w => plain_name w = true) names ->
  Py.rstrip posixpath.is_sep (absolute names ++ "/") = absolute names.
Proof.
  intros Hne Hall. rewrite rstrip_slash.
  destruct (exists_last Hne) as (l & x & ->).
  apply Forall_app in Hall. destruct Hall as (_ & Hx).
  inversion Hx as [|? ? Hplain _]; subst.
  rewrite absolute_snoc, <- append_assoc.
  destruct (plain_first x Hplain) as (c & x' & Heq & _). subst x.
  apply rstrip_name, plain_no_sep, Hplain.
Qed.

Lemma all_sep_absolute names rest :
  names <> [] ->
  Forall (fun w => plain_name w = true) names ->
  posixpath.all_sep (absolute names ++ rest) = false.
Proof.
  intros Hne Hall. destruct names as [|x l]; [congruence|].
  inversion Hall as [|? ? Hx _]; subst.
  destruct (plain_first x Hx) as (c & x' & -> & Hc).
  unfold absolute.
  destruct l; cbn [Py.join String.concat String.append posixpath.all_sep];
    rewrite Hc, andb_false_r; reflexivity.
Qed.

Lemma dirname_absolute names name :
  Forall (fun w => plain_name w = true) names ->
  plain_name name = true ->
  posixpath.dirname (absolute (names ++ [name])) = absolute names.
Proof.
  intros Hall Hname. unfold posixpath.dirname.
  rewrite absolute_snoc, (head_upto_last_sep_app _ name
                            (plain_no_sep name Hname)).
  destruct names as [|x l]; [reflexivity|].
  rewrite (all_sep_absolute (x :: l)) by (assumption || discriminate).
  destruct (absolute (x :: l) ++ "/") eqn:Hhead; [discriminate|].
  rewrite <- Hhead. cbn [Py.nonempty negb andb].
  apply rstrip_absolute; [discriminate|assumption].
Qed.

(** The directory the script changes to, for a script given by an absolute
    path of plain names, and for one given by a relative path of plain
    names when the script is started in such a directory. *)
Lemma script_directory_absolute L dir snames name :
  Forall (fun w => plain_name w = true) snames ->
  plain_name name = true ->
  script_file L = absolute (snames ++ [name]) ->
  script_directory L dir = absolute snames.
Proof.
  intros Hs Hname Hfile. unfold script_directory, posixpath.abspath.
  assert (Hslash : Py.startswith (absolute (snames ++ [name])) "/" = true)
    by apply startswith_slash.
  rewrite Hfile. unfold posixpath.isabs. rewrite Hslash.
  rewrite normpath_absolute.
  - apply dirname_absolute; assumption.
  - apply Forall_app. split; [exact Hs|]. constructor; [exact Hname|constructor].
Qed.

Lemma script_directory_relative L dnames snames name :
  Forall (fun w => plain_name w = true) dnames ->
  Forall (fun w => plain_name w = true) snames ->
  plain_name name = true ->
  script_file L = Py.join "/" (snames ++ [name]) ->
  script_directory L (absolute dnames) = absolute (dnames ++ snames).
Proof.
  intros Hd Hs Hname Hfile. unfold script_directory, posixpath.abspath.
  assert (Hrel : Forall (fun w => plain_name w = true) (snames ++ [name])).
  { apply Forall_app. split; [exact Hs|].
    constructor; [exact Hname|constructor]. }
  rewrite Hfile. unfold posixpath.isabs.
  rewrite (join_not_absolute _ Hrel).
  rewrite (join_absolute dnames _ Hd Hrel) by (destruct snames; discriminate).
  rewrite normpath_absolute by (apply Forall_app; split; assumption).
  rewrite app_assoc. apply dirname_absolute; [|exact Hname].
  apply Forall_app. split; assumption.
Qed.
(** ** What no method changes

    The directory a handler serves and its clock are fixed when it is made,
    and [close_connection] stays set: the protocol version of the class is
    HTTP/1.0, so no request keeps its connection open. *)

Section Steady.
Variable P : platform.
Variable fs : filesystem.
Variable d : string.
Variable t : Z.

Local Notation "'keeps' m" := (triple (steady d t) m (fun _ => steady d t))
  (at level 10, m at level 9).

(** The primitives. *)
Lemma keeps_ret {A} (a : A) : keeps (ret a).
Proof. apply triple_ret. auto. Qed.

Lemma keeps_gets {A} (f : handler -> A) : keeps (gets f).
Proof. intros h H. exists (f h), h. split; [reflexivity|exact H]. Qed.

Lemma keeps_modify (f : handler -> handler) :
  (forall h, steady d t h -> steady d t (f h)) -> keeps (modify f).
Proof. apply triple_modify. Qed.

Lemma keeps_send_header keyword value :
  (Py.lower keyword =? "connection") && (Py.lower value =? "keep-alive")
  = false ->
  keeps (send_header keyword value).
Proof.
  intros Hk h (Hd & Ht & Hc).
  assert (Hcd : forall h', steady d t h' ->
                steady d t (connection_directive keyword value h')).
  { intros h' (Hd' & Ht' & Hc'). unfold connection_directive.
    destruct (Py.lower keyword =? "connection"); [|repeat split; assumption].
    destruct (Py.lower value =? "close"); [repeat split; assumption|].
    cbn [andb] in Hk. rewrite Hk. repeat split; assumption. }
  destruct (http09 h) eqn:E.
  - eexists tt, _. split; [apply send_header_http09, E|].
    apply Hcd. repeat split; assumption.
  - eexists tt, _. split; [apply send_header_http1, E|].
    apply Hcd. repeat split; assumption.
Qed.

Lemma keeps_send_response_only code message :
  keeps (send_response_only P code message).
Proof.
  intros h Hs. destruct (http09 h) eqn:E.
  - eexists tt, _. split; [apply send_response_only_http09, E|exact Hs].
  - eexists tt, _. split; [apply send_response_only_http1, E|exact Hs].
Qed.

Lemma keeps_end_headers : keeps CORSHTTPRequestHandler.end_headers.
Proof.
  intros h Hs. destruct (http09 h) eqn:E.
  - eexists tt, _. split; [apply end_headers_http09, E|exact Hs].
  - eexists tt, _. split; [apply end_headers_http1, E|exact Hs].
Qed.

(** A sequence, a branch or a primitive of a method. *)
Ltac keeps_step self :=
  lazymatch goal with
  | |- triple _ (bind _ _) _ =>
      eapply triple_bind; [self | cbv beta; intros ?; self]
  | |- triple _ (ret _) _ => apply keeps_ret
  | |- triple _ (gets _) _ => apply keeps_gets
  | |- triple _ (modify _) _ =>
      apply keeps_modify; intros ? (? & ? & ?);
      repeat split; first [assumption | reflexivity]
  | |- triple _ (log_request _) _ =>
      apply keeps_modify; intros ? HH; exact HH
  | |- triple _ (log_error _ _) _ =>
      apply keeps_modify; intros ? HH; exact HH
  | |- triple _ (wfile_write _) _ =>
      apply keeps_modify; intros ? HH; exact HH
  | |- triple _ (send_header _ _) _ =>
      apply keeps_send_header; vm_compute; reflexivity
  | |- triple _ (send_response_only _ _ _) _ =>
      apply keeps_send_response_only
  | |- triple _ CORSHTTPRequestHandler.end_headers _ =>
      apply keeps_end_headers
  | |- triple _ (if ?b then _ else _) _ =>
      first [ progress (rewrite ?andb_false_r; cbn [andb]; cbv iota); self
            | destruct b; self ]
  | |- triple _ (match ?x with _ => _ end) _ => destruct x; self
  end.

Ltac keeps0 := keeps_step ltac:(idtac; keeps0).

(** The methods, from the innermost out. *)
Lemma keeps_send_response code message :
  keeps (send_response P code message).
Proof. unfold send_response. keeps0. Qed.

Ltac keeps1 :=
  lazymatch goal with
  | |- triple _ (send_response _ _ _) _ => apply keeps_send_response
  | |- _ => keeps_step ltac:(idtac; keeps1)
  end.

Lemma keeps_send_error code message explain :
  keeps
    (send_error P CORSHTTPRequestHandler.end_headers code message explain).
Proof. unfold send_error. keeps1. Qed.

Ltac keeps2 :=
  lazymatch goal with
  | |- triple _ (send_response _ _ _) _ => apply keeps_send_response
  | |- triple _ (send_error _ _ _ _ _) _ => apply keeps_send_error
  | |- _ => keeps_step ltac:(idtac; keeps2)
  end.

Lemma keeps_do_OPTIONS : keeps (CORSHTTPRequestHandler.do_OPTIONS P).
Proof. unfold CORSHTTPRequestHandler.do_OPTIONS. keeps2. Qed.

Lemma keeps_copyfile f : keeps (SimpleHTTPRequestHandler.copyfile f).
Proof.
  intros h Hs. unfold SimpleHTTPRequestHandler.copyfile.
  destruct (copyfileobj_run (f_data f) h) as (pieces & Hrun & _).
  eexists tt, _. split; [exact Hrun|exact Hs].
Qed.

(** A method that may raise: it keeps the same, however it ends. *)
Local Notation "'keeps_x' m" :=
  (triple_x (steady d t) m (fun _ => steady d t) (fun _ => steady d t))
  (at level 10, m at level 9).

Ltac keeps_x_step :=
  lazymatch goal with
  | |- triple_x _ (bind _ _) _ _ =>
      eapply triple_x_bind;
      [keeps_x_step | cbv beta; intros ?; keeps_x_step]
  | |- triple_x _ (raise _) _ _ => apply triple_x_raise; auto
  | |- triple_x _ (SimpleHTTPRequestHandler.copyfile _) _ _ =>
      apply triple_x_total, keeps_copyfile
  | |- triple_x _ (if ?b then _ else _) _ _ => destruct b; keeps_x_step
  | |- triple_x _ (match ?x with _ => _ end) _ _ =>
      destruct x; keeps_x_step
  | |- _ => apply triple_x_total; keeps2
  end.

Lemma keeps_do_GET :
  keeps_x (SimpleHTTPRequestHandler.do_GET P fs
             CORSHTTPRequestHandler.end_headers).
Proof.
  unfold SimpleHTTPRequestHandler.do_GET, SimpleHTTPRequestHandler.send_head,
    SimpleHTTPRequestHandler.send_head_file,
    SimpleHTTPRequestHandler.list_directory,
    SimpleHTTPRequestHandler.translate_path,
    SimpleHTTPRequestHandler.self_path.
  keeps_x_step.
Qed.

Lemma keeps_do_HEAD :
  keeps_x (SimpleHTTPRequestHandler.do_HEAD P fs
             CORSHTTPRequestHandler.end_headers).
Proof.
  unfold SimpleHTTPRequestHandler.do_HEAD, SimpleHTTPRequestHandler.send_head,
    SimpleHTTPRequestHandler.send_head_file,
    SimpleHTTPRequestHandler.list_directory,
    SimpleHTTPRequestHandler.translate_path,
    SimpleHTTPRequestHandler.self_path.
  keeps_x_step.
Qed.

Lemma keeps_parse_request m :
  keeps (parse_request P CORSHTTPRequestHandler.end_headers m).
Proof.
  unfold parse_request, parse_request_words, parse_request_headers,
    handle_expect_100.
  rewrite protocol_is_http10.
  keeps2.
Qed.

(** No request makes the handler change directory or keep the connection
    open. *)
Lemma keeps_handle_one_request m :
  keeps_x (CORSHTTPRequestHandler.handle_one_request P fs m).
Proof.
  unfold CORSHTTPRequestHandler.handle_one_request, handle_one_request.
  eapply triple_x_bind; [apply triple_x_total; keeps2|]. intros ?.
  destruct (_ <? _)%Z; [apply triple_x_total; keeps2|].
  destruct (negb _); [apply triple_x_total; keeps2|].
  eapply triple_x_bind; [apply triple_x_total, keeps_parse_request|].
  intros ok.
  destruct (negb ok); [apply triple_x_total; keeps2|].
  eapply triple_x_bind; [apply triple_x_total; keeps2|]. intros cmd.
  unfold CORSHTTPRequestHandler.getattr, SimpleHTTPRequestHandler.getattr.
  destruct (_ =? "do_OPTIONS"); [apply triple_x_total, keeps_do_OPTIONS|].
  destruct (_ =? "do_GET"); [apply keeps_do_GET|].
  destruct (_ =? "do_HEAD"); [apply keeps_do_HEAD|].
  apply triple_x_total, keeps_send_error.
Qed.

(** A connection carries one request: [handle] ends after the first,
    whether it returns or raises. *)
Lemma handle_one_connection msgs h :
  steady d t h ->
  CORSHTTPRequestHandler.handle P fs msgs h
  = CORSHTTPRequestHandler.handle_one_request P fs
      (hd end_of_stream msgs) h.
Proof.
  intros Hs.
  pose proof (keeps_handle_one_request (hd end_of_stream msgs) h Hs)
    as Hone.
  unfold CORSHTTPRequestHandler.handle, handle.
  assert (Hset : set_close_connection true h = h).
  { destruct Hs as (_ & _ & Hc). destruct h. cbn in *. subst. reflexivity. }
  unfold bind at 1, modify at 1. rewrite Hset.
  destruct msgs as [|m rest]; cbn [hd handle_requests] in *;
    [reflexivity|].
  fold (CORSHTTPRequestHandler.handle_one_request P fs m).
  unfold bind at 1.
  destruct (CORSHTTPRequestHandler.handle_one_request P fs m h)
    as [[e|[]] h']; [reflexivity|].
  unfold bind, gets. destruct Hone as (_ & _ & ->). reflexivity.
Qed.

End Steady.

(* ================================================================== *)
(** * From the request line to the method *)
(* ================================================================== *)

(** A handler is new when its connection is accepted. *)
Lemma fresh_new_handler d t : fresh d t (new_handler d t).
Proof. repeat split. Qed.

(** The header blocks of an answered request. *)
Lemma answered_blocks P fs h0 h lines :
  answered P fs h0 h -> In (Headers lines) (wfile h) -> cors_block lines.
Proof.
  intros (_ & Hresp) Hin. unfold response_to in Hresp.
  destruct (http09 h0).
  - rewrite Forall_forall in Hresp. destruct (Hresp _ Hin).
  - destruct Hresp as (first & rest & Hw & Hc & Hp).
    rewrite Hw in Hin. destruct Hin as [Heq|Hin].
    + injection Heq as <-. exact Hc.
    + rewrite Forall_forall in Hp. destruct (Hp _ Hin).
Qed.

(** The bodies of an answered request. *)
Lemma answered_payloads P fs h0 h piece :
  answered P fs h0 h -> In (Payload piece) (wfile h) ->
  exists data, allowed P fs h0 data /\ part_of piece data.
Proof.
  intros (_ & Hresp) Hin. unfold response_to in Hresp.
  destruct (http09 h0).
  - rewrite Forall_forall in Hresp. exact (Hresp _ Hin).
  - destruct Hresp as (first & rest & Hw & Hc & Hp).
    rewrite Hw in Hin. destruct Hin as [Heq|Hin]; [discriminate|].
    rewrite Forall_forall in Hp. exact (Hp _ Hin).
Qed.

(** The three [send_header] calls of [end_headers]. *)
Lemma send_cors_headers_http1 h :
  http09 h = false ->
  send_headers cors_headers h
  = (inr tt,
     push_line (header_line "Access-Control-Allow-Headers" "Content-Type")
       (push_line
          (header_line "Access-Control-Allow-Methods" "GET, POST, OPTIONS")
          (push_line (header_line "Access-Control-Allow-Origin" "*") h))).
Proof.
  intros E. cbn [send_headers cors_headers].
  do 3 (step ltac:(apply send_header_http1; exact E);
        rewrite connection_directive_other by reflexivity).
  reflexivity.
Qed.

Section Dispatch.
Variable P : platform.
Variable fs : filesystem.

(** A request that [parse_request] accepts goes to the method named after
    its command, on a handler that has written nothing yet. *)
Lemma handle_one_request_dispatch m d t h1 :
  (Py.len (raw_line m) <= 65536)%Z ->
  parses_to P m d t h1 ->
  directory h1 = d /\ now h1 = t /\ buffered h1 = [] /\ wfile h1 = []
  /\ exists cmd,
       command h1 = Some cmd
       /\ CORSHTTPRequestHandler.handle_one_request P fs m (new_handler d t)
          = match CORSHTTPRequestHandler.getattr P fs ("do_" ++ cmd) with
            | Some method => method h1
            | None =>
                send_error P CORSHTTPRequestHandler.end_headers 501
                  (Some ("Unsupported method (" ++ repr P cmd ++ ")"))
                  None h1
            end.
Proof.
  intros Hlen Hparse. unfold parses_to in Hparse.
  destruct (parse_request_spec P fs d t m
              (set_raw_requestline (raw_line m) (new_handler d t)))
    as (ok & h' & Hrun & Hd & Ht & Hok).
  { repeat split. }
  rewrite Hparse in Hrun. injection Hrun as <- <-.
  destruct Hok as (Hb & Hw & Hc).
  repeat (split; [assumption|]).
  destruct (command h1) as [cmd|] eqn:Hcmd; [|congruence].
  exists cmd. split; [reflexivity|].
  unfold CORSHTTPRequestHandler.handle_one_request, handle_one_request.
  unfold bind at 1. unfold modify at 1.
  assert (Hlt : (65536 <? Py.len (raw_line m))%Z = false)
    by (apply Z.ltb_ge; exact Hlen).
  rewrite Hlt.
  destruct (raw_line m) as [|c rest] eqn:Hraw.
  { exfalso. revert Hparse. unfold parse_request. unfold_monad.
    cbn. discriminate. }
  cbn [Py.nonempty negb].
  rewrite (bind_run _ _ _ _ _ Hparse). cbn [negb].
  unfold bind at 1, gets at 1. rewrite Hcmd.
  destruct (CORSHTTPRequestHandler.getattr P fs ("do_" ++ cmd));
    reflexivity.
Qed.

(** [do_OPTIONS]: the head of [send_response(200)], then the CORS lines. *)
Lemma do_OPTIONS_spec1 h0 buf w :
  http09 h0 = false ->
  triple (at_state h0 buf w) (CORSHTTPRequestHandler.do_OPTIONS P)
    (fun _ => at_state h0 []
                (w ++ [Headers (buf ++ response_head P h0 200 None
                                ++ cors_lines ++ [Py.CRLF])])%list).
Proof.
  intros E. unfold CORSHTTPRequestHandler.do_OPTIONS.
  seq (send_response_spec1 P h0 E).
  eapply triple_weaken;
    [apply (end_headers_spec1 h0 E)|intros ? HH; exact HH|].
  cbv beta. intros _ h H. rewrite <- app_assoc in H. exact H.
Qed.

(** [GET] of a path that is no directory and cannot be opened. *)
Lemma do_GET_missing_spec1 h0 buf w :
  http09 h0 = false ->
  isdir fs (resolved P h0) = false ->
  (Py.endswith (resolved P h0) "/" = true
   \/ exists msg, open_rb fs (resolved P h0) = inl (OSError msg)) ->
  triple (at_state h0 buf w)
    (SimpleHTTPRequestHandler.do_GET P fs CORSHTTPRequestHandler.end_headers)
    (fun _ =>
       at_state h0 []
         (w ++ [Headers (buf
                         ++ error_head P h0 404 (Some "File not found") None
                         ++ cors_lines ++ [Py.CRLF])]
            ++ error_payload P h0 404 (Some "File not found") None)%list).
Proof.
  intros E Hdir Hopen.
  unfold SimpleHTTPRequestHandler.do_GET, SimpleHTTPRequestHandler.send_head,
    SimpleHTTPRequestHandler.self_path.
  eapply triple_bind.
  { eapply triple_bind;
      [apply gets_spec; exact (fun h => req_path h h0)|]. cbv beta.
    intros q h (Hst & ->). revert h Hst.
    eapply triple_bind; [apply translate_path_spec|]. cbv beta.
    intros q h (Hst & ->). revert h Hst.
    fold (resolved P h0). rewrite Hdir.
    unfold SimpleHTTPRequestHandler.send_head_file.
    assert (Hmiss :
      triple (at_state h0 buf w)
        (send_error P CORSHTTPRequestHandler.end_headers 404
           (Some "File not found") None ;; ret (@None file_object))
        (fun r h =>
           at_state h0 []
             (w ++ [Headers (buf
                             ++ error_head P h0 404 (Some "File not found")
                                  None
                             ++ cors_lines ++ [Py.CRLF])]
                ++ error_payload P h0 404 (Some "File not found") None)%list
             h /\ r = None)).
    { seq (send_error_spec1 P h0 E). apply triple_return. }
    destruct (Py.endswith (resolved P h0) "/"); [exact Hmiss|].
    destruct Hopen as [Hslash|(msg & Hopen)]; [discriminate|].
    rewrite Hopen. exact Hmiss. }
  cbv beta. intros f h (Hst & ->). exists tt, h.
  split; [reflexivity|exact Hst].
Qed.

End Dispatch.

(* ================================================================== *)
(** * The run of the script *)
(* ================================================================== *)

Section Process.
Variable P : platform.
Variable fs : filesystem.

(** One connection, then all of them: each adds to the trace the handler
    it leaves and, when the handler has raised, the traceback; nothing else
    changes, and the loop goes on. *)
Lemma finish_request_run c p :
  TCPServer.handle_request_noblock P fs c p
  = (inr tt, {| cwd := cwd p;
                trace := trace p ++ connection_events P fs (cwd p) c |}).
Proof.
  unfold TCPServer.handle_request_noblock, TCPServer.process_request,
    try_except, TCPServer.finish_request, os.getcwd.
  unfold bind at 1, gets at 1.
  rewrite (handle_one_connection P fs (cwd p) (conn_time c)
             (conn_messages c) (new_handler (cwd p) (conn_time c)))
    by (repeat split).
  unfold connection_events, response_of, outcome_of, exec.
  destruct (CORSHTTPRequestHandler.handle_one_request P fs
              (hd end_of_stream (conn_messages c))
              (new_handler (cwd p) (conn_time c))) as [[e|[]] h].
  - cbn [fst snd]. unfold bind, emit, modify, raise. cbn [cwd trace].
    rewrite <- app_assoc. reflexivity.
  - cbn [fst snd]. unfold bind, emit, modify, ret. cbn [cwd trace].
    reflexivity.
Qed.

Lemma serve_forever_run conns : forall p,
  TCPServer.serve_forever P fs conns p
  = (inr tt,
     {| cwd := cwd p;
        trace := trace p ++ served_events P fs (cwd p) conns |}).
Proof.
  induction conns as [|c conns IH]; intros p.
  - cbn. rewrite app_nil_r. destruct p; reflexivity.
  - cbn [TCPServer.serve_forever].
    unfold bind at 1. rewrite finish_request_run.
    rewrite IH. cbn [cwd trace]. unfold served_events. cbn [flat_map].
    rewrite <- app_assoc. reflexivity.
Qed.

(** The script when the port is free, and when it is in use. *)
Lemma main_run L conns dir :
  port_free L = true ->
  main P fs L conns (start dir)
  = (inr tt,
     {| cwd := script_directory L dir;
        trace := startup_events L dir
                 ++ served_events P fs (script_directory L dir) conns |}).
Proof.
  intros Hfree. unfold main, os.getcwd, os.chdir, TCPServer.init, print, emit.
  rewrite Hfree. unfold bind, gets, modify.
  cbn [cwd trace start fst snd app].
  rewrite serve_forever_run. reflexivity.
Qed.

Lemma main_port_in_use L conns dir :
  port_free L = false ->
  main P fs L conns (start dir)
  = (inl (OSError "Address already in use"),
     {| cwd := script_directory L dir;
        trace := [Chdir (script_directory L dir); SocketBind "" 8000;
                  SocketClose] |}).
Proof.
  intros Hfree. unfold main, os.getcwd, os.chdir, TCPServer.init, print, emit.
  rewrite Hfree. reflexivity.
Qed.

(** The events of serving are handlers and tracebacks: none is a
    [print]. *)
Lemma served_events_handled root conns e :
  In e (served_events P fs root conns) ->
  (exists c, In c conns /\ e = Handled (response_of P fs root c))
  \/ exists err, e = Traceback err.
Proof.
  intros Hin. apply in_flat_map in Hin.
  destruct Hin as (c & Hc & Hin). unfold connection_events in Hin.
  destruct Hin as [<-|Hin]; [left; exists c; auto|].
  destruct (fst (outcome_of P fs root c)) as [err|]; [|destruct Hin].
  destruct Hin as [<-|[]]. right. exists err. reflexivity.
Qed.

Lemma served_events_print_nothing root conns :
  printed (served_events P fs root conns) = [].
Proof.
  induction conns as [|c conns IH]; [reflexivity|].
  unfold served_events, printed in *. cbn [flat_map].
  rewrite flat_map_app, IH, app_nil_r. unfold connection_events.
  destruct (fst (outcome_of P fs root c)); reflexivity.
Qed.

End Process.

(** The trace of a run of the script, in both outcomes of [bind]. *)
Lemma main_trace P fs L conns dir :
  let p := exec (main P fs L conns) (start dir) in
  cwd p = script_directory L dir
  /\ trace p
     = Chdir (script_directory L dir) :: SocketBind "" 8000
       :: (if port_free L
           then SocketListen 5 :: map Print startup_lines
                ++ served_events P fs (script_directory L dir) conns
           else [SocketClose]).
Proof.
  intros p. unfold p, exec.
  destruct (port_free L) eqn:Hfree.
  - rewrite (main_run P fs L conns dir Hfree). split; reflexivity.
  - rewrite (main_port_in_use P fs L conns dir Hfree). split; reflexivity.
Qed.

(** A handler serves from the directory it was made in. *)
Lemma response_of_directory P fs root c :
  directory (response_of P fs root c) = root.
Proof.
  pose proof (keeps_handle_one_request P fs root (conn_time c)
                (hd end_of_stream (conn_messages c))
                (new_handler root (conn_time c))) as Hkeeps.
  unfold response_of, exec.
  destruct (CORSHTTPRequestHandler.handle_one_request P fs _ _)
    as [[e|[]] h]; apply Hkeeps; repeat split.
Qed.

(* ================================================================== *)
(** * The claims *)
(* ================================================================== *)

(** C1, as the claim states it, fails: a request line without a version
    ([GET /index.html]) is answered in the style of HTTP/0.9, with the bytes
    of the file and no header at all. *)
Lemma simple_get_has_no_cors_headers :
  wfile (Demo.serve_one "GET /index.html") = [Payload "<p>home</p>"]
  /\ ~ includes_cors_headers (Demo.serve_one "GET /index.html").
Proof.
  assert (H : wfile (Demo.serve_one "GET /index.html")
              = [Payload "<p>home</p>"]) by (vm_compute; reflexivity).
  split; [exact H|].
  intros (lines & Hin & _). rewrite H in Hin.
  destruct Hin as [Hin|[]]. discriminate.
Qed.

(** C1, as amended.  For every request, of any method and whatever the
    status code of the answer, every header block the handler writes ends
    with the three CORS headers and the blank line.  When the request line
    is not empty and the request version is not HTTP/0.9, the handler either
    returns, and the answer starts with such a block, followed by the body
    only; or it ends with an exception that the library does not catch (of
    [open], of [urlsplit] or of the encoding of a listing), and then it has
    written nothing. *)
Theorem cors_block_in_every_response P fs m d t :
  let run :=
    CORSHTTPRequestHandler.handle_one_request P fs m (new_handler d t) in
  let h := snd run in
  (forall lines, In (Headers lines) (wfile h) -> cors_block lines)
  /\ (raw_line m <> "" -> request_version h <> "HTTP/0.9" ->
      match fst run with
      | inr _ =>
          exists lines rest,
            wfile h = Headers lines :: rest
            /\ cors_block lines
            /\ includes_cors_headers h
            /\ Forall is_payload rest
      | inl e => wfile h = [] /\ raised P fs h e
      end).
Proof.
  intros run h.
  destruct (string_dec (raw_line m) "") as [Hraw|Hraw].
  - split; [|congruence].
    assert (Hw : wfile h = []).
    { unfold h, run, CORSHTTPRequestHandler.handle_one_request,
        handle_one_request. rewrite Hraw. reflexivity. }
    rewrite Hw. intros lines [].
  - pose proof (handle_one_request_spec P fs d t m Hraw (new_handler d t)
                  (fresh_new_handler d t)) as Hspec.
    fold run in Hspec. unfold h. destruct run as [[e|[]] h'].
    + destruct Hspec as (_ & _ & _ & Hw & He). cbn [fst snd].
      split; [rewrite Hw; intros lines []|].
      intros _ _. split; assumption.
    + destruct Hspec as (_ & _ & Hans). cbn [fst snd]. split.
      * intros lines. apply (answered_blocks P fs h' h' lines Hans).
      * intros _ Hversion. destruct Hans as (_ & Hresp).
        unfold response_to, http09 in Hresp.
        destruct (request_version h' =? "HTTP/0.9") eqn:E.
        { apply String.eqb_eq in E. contradiction. }
        destruct Hresp as (lines & rest & Hw & Hc & Hp).
        exists lines, rest. split; [exact Hw|]. split; [exact Hc|].
        split; [|exact (payload_from_is_payload P fs h' rest Hp)].
        exists lines. split; [rewrite Hw; left; reflexivity|].
        destruct Hc as (before & ->). intros line Hline.
        apply in_or_app. right. apply in_or_app. left. exact Hline.
Qed.

Lemma cors_block_in_every_response_witness :
  raw_line (Demo.request "GET /missing-file.xyz HTTP/1.1") <> ""
  /\ request_version (Demo.serve_one "GET /missing-file.xyz HTTP/1.1")
     <> "HTTP/0.9"
  /\ exists lines rest,
       wfile (Demo.serve_one "GET /missing-file.xyz HTTP/1.1")
       = Headers lines :: rest
       /\ cors_block lines
       /\ includes_cors_headers
            (Demo.serve_one "GET /missing-file.xyz HTTP/1.1")
       /\ Forall is_payload rest.
Proof.
  split; [vm_compute; discriminate|].
  split; [vm_compute; discriminate|].
  pose proof (proj2 (cors_block_in_every_response Demo.cpython Demo.site
                       (Demo.request "GET /missing-file.xyz HTTP/1.1")
                       "/srv/site" 0)
                ltac:(vm_compute; discriminate)
                ltac:(vm_compute; discriminate)) as H.
  assert (Hrun : fst (CORSHTTPRequestHandler.handle_one_request Demo.cpython
                        Demo.site
                        (Demo.request "GET /missing-file.xyz HTTP/1.1")
                        (new_handler "/srv/site" 0)) = inr tt)
    by (vm_compute; reflexivity).
  rewrite Hrun in H. exact H.
Defined.

(** C2, as the claim states it, fails: an OPTIONS request whose request
    line names version HTTP/0.9 reaches [do_OPTIONS], and nothing is
    written: no status line, no header. *)
Lemma options_http09_has_no_status :
  command (Demo.serve_one "OPTIONS /anything HTTP/0.9") = Some "OPTIONS"
  /\ wfile (Demo.serve_one "OPTIONS /anything HTTP/0.9") = []
  /\ ~ has_status 200 (Demo.serve_one "OPTIONS /anything HTTP/0.9").
Proof.
  assert (H : wfile (Demo.serve_one "OPTIONS /anything HTTP/0.9") = [])
    by (vm_compute; reflexivity).
  split; [vm_compute; reflexivity|]. split; [exact H|].
  intros (message & lines & rest & Hw). rewrite H in Hw. discriminate.
Qed.

(** C2, as amended.  Every OPTIONS request that [parse_request] accepts
    with a request version other than HTTP/0.9 is answered, whatever its
    path, with status 200 and no body: one header block holding the status
    line, [Server], [Date] and the three CORS headers. *)
Theorem options_request_is_answered_200 P fs m d t h1 :
  (Py.len (raw_line m) <= 65536)%Z ->
  parses_to P m d t h1 ->
  command h1 = Some "OPTIONS" ->
  request_version h1 <> "HTTP/0.9" ->
  exists h,
    CORSHTTPRequestHandler.handle_one_request P fs m (new_handler d t)
    = (inr tt, h)
    /\ has_status 200 h
    /\ wfile h
       = [Headers
            ([status_line 200 (reason P 200 None);
              header_line "Server" (version_string P);
              header_line "Date" (date_time_string P t)]
             ++ cors_lines ++ [Py.CRLF])].
Proof.
  intros Hlen Hparse Hcmd Hversion.
  destruct (handle_one_request_dispatch P fs m d t h1 Hlen Hparse)
    as (Hd & Ht & Hb & Hw & cmd & Hcmd' & Hrun).
  rewrite Hcmd in Hcmd'. injection Hcmd' as <-.
  assert (E : http09 h1 = false).
  { unfold http09. apply String.eqb_neq. exact Hversion. }
  destruct (do_OPTIONS_spec1 P h1 [] [] E h1) as ([] & h & Hopt & _ & _ & Hwf).
  { repeat split; assumption. }
  assert (Hfinal : wfile h
                   = [Headers
                        ([status_line 200 (reason P 200 None);
                          header_line "Server" (version_string P);
                          header_line "Date" (date_time_string P t)]
                         ++ cors_lines ++ [Py.CRLF])]).
  { rewrite Hwf. unfold response_head. rewrite Ht. reflexivity. }
  exists h. split; [rewrite Hrun; exact Hopt|]. split; [|exact Hfinal].
  unfold has_status. rewrite Hfinal. eexists _, _, _. reflexivity.
Qed.

Lemma options_request_is_answered_200_witness :
  exists h,
    CORSHTTPRequestHandler.handle_one_request Demo.cpython Demo.site
      (Demo.request "OPTIONS /anything HTTP/1.1") (new_handler "/srv/site" 0)
    = (inr tt, h)
    /\ has_status 200 h
    /\ wfile h
       = [Headers
            ([status_line 200 (reason Demo.cpython 200 None);
              header_line "Server" (version_string Demo.cpython);
              header_line "Date" (date_time_string Demo.cpython 0)]
             ++ cors_lines ++ [Py.CRLF])].
Proof.
  apply (options_request_is_answered_200 Demo.cpython Demo.site
           (Demo.request "OPTIONS /anything HTTP/1.1") "/srv/site" 0
           (demo_parsed "OPTIONS /anything HTTP/1.1")).
  - vm_compute. discriminate.
  - vm_compute. reflexivity.
  - vm_compute. reflexivity.
  - vm_compute. discriminate.
Defined.

(** C3.  No deduplication.  When the inherited code has already set a header
    under one of the three CORS names, the block that [end_headers] writes
    holds that header and the CORS header of the same name: the block is the
    buffer as the inherited code left it, then the three CORS lines, then
    the blank line, so no line is dropped or merged and the CORS headers
    come after every header set by the inherited code. *)
Theorem end_headers_keeps_duplicates P h0 code message fields h keyword value :
  buffered h0 = [] ->
  (send_response_only P code message ;; send_headers fields) h0 = (inr tt, h) ->
  In keyword (map fst cors_headers) ->
  In (header_line keyword value) (buffered h) ->
  exists cors_value h' set_by_base,
    In (keyword, cors_value) cors_headers
    /\ CORSHTTPRequestHandler.end_headers h = (inr tt, h')
    /\ set_by_base
       = status_line code (reason P code message) :: header_lines_of fields
    /\ wfile h'
       = (wfile h ++ [Headers (set_by_base ++ cors_lines ++ [Py.CRLF])])%list
    /\ In (header_line keyword value) set_by_base
    /\ In (header_line keyword cors_value) cors_lines
    /\ forall line,
         count_occ string_dec (set_by_base ++ cors_lines ++ [Py.CRLF]) line
         = (count_occ string_dec set_by_base line
            + count_occ string_dec (cors_lines ++ [Py.CRLF]) line)%nat.
Proof.
  intros Hempty Hrun Hname Hset.
  assert (Hne : buffered h <> [])
    by (intros Hnil; rewrite Hnil in Hset; exact Hset).
  destruct (started_response P h0 code message fields h Hempty Hrun Hne)
    as (E & Hbuf & _).
  apply in_map_iff in Hname. destruct Hname as ([k cors_value] & Hk & Hin).
  cbn [fst] in Hk. subst k.
  exists cors_value, (flushed (buffered h ++ cors_lines ++ [Py.CRLF]) h),
    (status_line code (reason P code message) :: header_lines_of fields).
  split; [exact Hin|].
  split; [apply end_headers_http1, E|].
  split; [reflexivity|].
  split; [rewrite Hbuf; reflexivity|].
  split; [rewrite <- Hbuf; exact Hset|].
  split.
  - unfold cors_lines.
    apply (in_map (fun kv => header_line (fst kv) (snd kv)) _ _ Hin).
  - intros line. apply count_occ_app.
Qed.

Lemma end_headers_keeps_duplicates_witness :
  In (header_line "Access-Control-Allow-Origin" "https://example.org")
     (buffered demo_started)
  /\ exists cors_value h' set_by_base,
       In ("Access-Control-Allow-Origin", cors_value) cors_headers
       /\ CORSHTTPRequestHandler.end_headers demo_started = (inr tt, h')
       /\ set_by_base
          = status_line 200 (reason Demo.cpython 200 None)
            :: header_lines_of demo_fields
       /\ wfile h'
          = (wfile demo_started
             ++ [Headers (set_by_base ++ cors_lines ++ [Py.CRLF])])%list
       /\ In (header_line "Access-Control-Allow-Origin" "https://example.org")
             set_by_base
       /\ In (header_line "Access-Control-Allow-Origin" cors_value) cors_lines
       /\ forall line,
            count_occ string_dec (set_by_base ++ cors_lines ++ [Py.CRLF]) line
            = (count_occ string_dec set_by_base line
               + count_occ string_dec (cors_lines ++ [Py.CRLF]) line)%nat.
Proof.
  assert (Hin : In (header_line "Access-Control-Allow-Origin"
                      "https://example.org") (buffered demo_started)).
  { vm_compute. right. right. left. reflexivity. }
  split; [exact Hin|].
  apply (end_headers_keeps_duplicates Demo.cpython demo_pending 200 None
           demo_fields demo_started "Access-Control-Allow-Origin"
           "https://example.org").
  - reflexivity.
  - vm_compute. reflexivity.
  - left. reflexivity.
  - exact Hin.
Defined.

(** C4, as the claim states it, fails: [GET /../../etc/passwd], read from
    the root, would lead to [/etc/passwd]; the handler drops the [..]
    components and answers 200 with the file [etc/passwd] of the site. *)
Lemma traversal_request_is_answered_200 :
  posixpath.normpath ("/srv/site" ++ "/../../etc/passwd") = "/etc/passwd"
  /\ has_status 200 (Demo.serve_one "GET /../../etc/passwd HTTP/1.1")
  /\ ~ has_status 404 (Demo.serve_one "GET /../../etc/passwd HTTP/1.1")
  /\ ~ has_status 403 (Demo.serve_one "GET /../../etc/passwd HTTP/1.1")
  /\ In (Payload "site-users")
        (wfile (Demo.serve_one "GET /../../etc/passwd HTTP/1.1")).
Proof.
  assert (H : exists lines,
            wfile (Demo.serve_one "GET /../../etc/passwd HTTP/1.1")
            = [Headers (status_line 200 "OK" :: lines);
               Payload "site-users"]).
  { eexists. vm_compute. reflexivity. }
  destruct H as (lines0 & H).
  split; [reflexivity|]. split; [|split; [|split]].
  - unfold has_status. rewrite H. eexists _, _, _. reflexivity.
  - intros (message & lines & rest & Hw). rewrite H in Hw.
    injection Hw as Hs _ _. vm_compute in Hs. discriminate.
  - intros (message & lines & rest & Hw). rewrite H in Hw.
    injection Hw as Hs _ _. vm_compute in Hs. discriminate.
  - rewrite H. right. left. reflexivity.
Qed.

(** C4, as amended.  For every request, the path the handler resolves is the
    served root followed by plain names taken from the request path: empty,
    [.] and [..] components are dropped, so the path, as a text, stays
    under the root and a traversal path is resolved like any other.  Every
    body the handler writes, whole or in pieces, is an error page, what
    [open] gives for the resolved path or for [index.html] or [index.htm]
    in it, or the listing of the resolved path. *)
Theorem served_paths_stay_under_root P fs m d t :
  let h := exec (CORSHTTPRequestHandler.handle_one_request P fs m)
                (new_handler d t) in
  directory h = d
  /\ (exists slash,
        resolved P h = descend d (names_of P (path h)) ++ slash
        /\ (slash = "" \/ slash = "/")
        /\ Forall (fun w => plain_name w = true) (names_of P (path h))
        /\ String.prefix d (resolved P h) = true)
  /\ forall piece,
       In (Payload piece) (wfile h) ->
       exists data, allowed P fs h data /\ part_of piece data.
Proof.
  intros h.
  assert (Hd : directory h = d).
  { pose proof (keeps_handle_one_request P fs d t m (new_handler d t))
      as Hkeeps. unfold h, exec.
    destruct (CORSHTTPRequestHandler.handle_one_request P fs m _)
      as [[e|[]] h']; apply Hkeeps; repeat split. }
  split; [exact Hd|]. split.
  - unfold resolved. rewrite Hd. apply translated_descends.
  - destruct (string_dec (raw_line m) "") as [Hraw|Hraw].
    + assert (Hw : wfile h = []).
      { unfold h, exec, CORSHTTPRequestHandler.handle_one_request,
          handle_one_request. rewrite Hraw. reflexivity. }
      rewrite Hw. intros piece [].
    + pose proof (handle_one_request_spec P fs d t m Hraw (new_handler d t)
                    (fresh_new_handler d t)) as Hspec.
      unfold h, exec.
      destruct (CORSHTTPRequestHandler.handle_one_request P fs m _)
        as [[e|[]] h'].
      * destruct Hspec as (_ & _ & _ & Hw & _). cbn [snd]. rewrite Hw.
        intros piece [].
      * destruct Hspec as (_ & _ & Hans). cbn [snd]. intros piece.
        apply (answered_payloads P fs h' h' piece Hans).
Qed.

(** C5, as the claim states it, fails: [GET /missing-file.xyz] without a
    version names no file of the site, and is answered in the style of
    HTTP/0.9 with the error page alone: no status line, no CORS header. *)
Lemma simple_get_of_missing_file_has_no_status :
  open_rb Demo.site "/srv/site/missing-file.xyz"
  = inl (OSError "No such file or directory")
  /\ wfile (Demo.serve_one "GET /missing-file.xyz")
     = [Payload "<h1>Error response</h1><p>Error code: 404</p><p>Message: File not found.</p>"]
  /\ ~ has_status 404 (Demo.serve_one "GET /missing-file.xyz")
  /\ ~ includes_cors_headers (Demo.serve_one "GET /missing-file.xyz").
Proof.
  assert (H : wfile (Demo.serve_one "GET /missing-file.xyz")
              = [Payload "<h1>Error response</h1><p>Error code: 404</p><p>Message: File not found.</p>"])
    by (vm_compute; reflexivity).
  split; [reflexivity|]. split; [exact H|]. split.
  - intros (message & lines & rest & Hw). rewrite H in Hw. discriminate.
  - intros (lines & Hin & _). rewrite H in Hin.
    destruct Hin as [Hin|[]]. discriminate.
Qed.

(** C5, as amended.  A GET request that [parse_request] accepts with a
    request version other than HTTP/0.9, and whose path resolves to no
    directory and to a file for which [open] raises [OSError], is answered
    with status 404 in a header block that carries the three CORS headers,
    then the error page.  An exception of another kind is not caught by the
    handler: it ends the request with nothing written.  The server does not
    stop for it: the loop handles every connection, reports the exception
    and goes on to the next connection. *)
Theorem missing_file_is_answered_404 P fs m d t h1 msg :
  (Py.len (raw_line m) <= 65536)%Z ->
  parses_to P m d t h1 ->
  command h1 = Some "GET" ->
  request_version h1 <> "HTTP/0.9" ->
  isdir fs (resolved P h1) = false ->
  open_rb fs (resolved P h1) = inl (OSError msg) ->
  (exists h,
     CORSHTTPRequestHandler.handle_one_request P fs m (new_handler d t)
     = (inr tt, h)
     /\ has_status 404 h
     /\ includes_cors_headers h
     /\ wfile h
        = Headers
            ([status_line 404 "File not found";
              header_line "Server" (version_string P);
              header_line "Date" (date_time_string P t);
              header_line "Connection" "close";
              header_line "Content-Type" "text/html;charset=utf-8";
              header_line "Content-Length"
                (Py.str (Py.len (error_body P 404 (Some "File not found")
                                   None)))]
             ++ cors_lines ++ [Py.CRLF])
          :: (if Py.nonempty (error_body P 404 (Some "File not found") None)
              then [Payload (error_body P 404 (Some "File not found") None)]
              else []))
  /\ (forall m' d' t' e h,
        CORSHTTPRequestHandler.handle_one_request P fs m' (new_handler d' t')
        = (inl e, h) ->
        wfile h = [] /\ raised P fs h e)
  /\ (forall conns p,
        exists p',
          TCPServer.serve_forever P fs conns p = (inr tt, p')
          /\ cwd p' = cwd p
          /\ forall c, In c conns ->
                In (Handled (response_of P fs (cwd p) c)) (trace p')
                /\ forall e, fst (outcome_of P fs (cwd p) c) = inl e ->
                     In (Traceback e) (trace p')).
Proof.
  intros Hlen Hparse Hcmd Hversion Hdir Hopen.
  split; [|split].
  - destruct (handle_one_request_dispatch P fs m d t h1 Hlen Hparse)
      as (Hd & Ht & Hb & Hw & cmd & Hcmd' & Hrun).
    rewrite Hcmd in Hcmd'. injection Hcmd' as <-.
    assert (E : http09 h1 = false).
    { unfold http09. apply String.eqb_neq. exact Hversion. }
    destruct (do_GET_missing_spec1 P fs h1 [] [] E Hdir
                (or_intror (ex_intro _ msg Hopen)) h1)
      as ([] & h & Hget & _ & _ & Hwf).
    { repeat split; assumption. }
    assert (Hfinal :
      wfile h
      = Headers
          ([status_line 404 "File not found";
            header_line "Server" (version_string P);
            header_line "Date" (date_time_string P t);
            header_line "Connection" "close";
            header_line "Content-Type" "text/html;charset=utf-8";
            header_line "Content-Length"
              (Py.str (Py.len (error_body P 404 (Some "File not found")
                                 None)))]
           ++ cors_lines ++ [Py.CRLF])
        :: (if Py.nonempty (error_body P 404 (Some "File not found") None)
            then [Payload (error_body P 404 (Some "File not found") None)]
            else [])).
    { rewrite Hwf. unfold error_head, error_payload, response_head.
      rewrite Ht, Hcmd. reflexivity. }
    exists h. split; [rewrite Hrun; exact Hget|].
    split; [unfold has_status; rewrite Hfinal; eexists _, _, _; reflexivity|].
    split; [|exact Hfinal].
    eexists. split; [rewrite Hfinal; left; reflexivity|].
    intros line Hline. apply in_or_app. right. apply in_or_app. left.
    exact Hline.
  - intros m' d' t' e h Hrun.
    destruct (string_dec (raw_line m') "") as [Hraw|Hraw].
    { revert Hrun.
      unfold CORSHTTPRequestHandler.handle_one_request, handle_one_request.
      rewrite Hraw. discriminate. }
    pose proof (handle_one_request_spec P fs d' t' m' Hraw (new_handler d' t')
                  (fresh_new_handler d' t')) as Hspec.
    rewrite Hrun in Hspec. destruct Hspec as (_ & _ & _ & Hw & He). auto.
  - intros conns p. eexists. split; [apply serve_forever_run|].
    cbn [cwd trace]. split; [reflexivity|].
    intros c Hc. split.
    + apply in_or_app. right. unfold served_events.
      apply in_flat_map. exists c. split; [exact Hc|]. left. reflexivity.
    + intros e He. apply in_or_app. right. unfold served_events.
      apply in_flat_map. exists c. split; [exact Hc|].
      unfold connection_events. rewrite He. right. left. reflexivity.
Qed.

Lemma missing_file_is_answered_404_witness :
  open_rb Demo.site "/srv/site/missing-file.xyz"
  = inl (OSError "No such file or directory")
  /\ exists h,
       CORSHTTPRequestHandler.handle_one_request Demo.cpython Demo.site
         (Demo.request "GET /missing-file.xyz HTTP/1.1")
         (new_handler "/srv/site" 0)
       = (inr tt, h)
       /\ has_status 404 h
       /\ includes_cors_headers h.
Proof.
  split; [reflexivity|].
  destruct (proj1 (missing_file_is_answered_404 Demo.cpython Demo.site
                     (Demo.request "GET /missing-file.xyz HTTP/1.1")
                     "/srv/site" 0
                     (demo_parsed "GET /missing-file.xyz HTTP/1.1")
                     "No such file or directory"
                     ltac:(vm_compute; discriminate)
                     ltac:(vm_compute; reflexivity)
                     ltac:(vm_compute; reflexivity)
                     ltac:(vm_compute; discriminate)
                     ltac:(vm_compute; reflexivity)
                     ltac:(vm_compute; reflexivity)))
    as (h & Hrun & Hstatus & Hcors & _).
  exists h. split; [exact Hrun|]. split; [exact Hstatus|exact Hcors].
Defined.


(** C6.  The script changes the working directory to the directory that
    holds it before anything else: before the listening socket is bound and
    before any connection is handled.  The directory is not changed again,
    and every handler serves from it.  The directory is that of the script:
    for a script given by an absolute path of plain names it is the path
    without the last name, and for one given by a relative path of plain
    names it is that path without its last name, under the directory the
    script was started in. *)
Theorem working_directory_fixed_before_listening P fs L conns dir :
  let p := exec (main P fs L conns) (start dir) in
  let root := posixpath.dirname (posixpath.abspath dir (script_file L)) in
  (exists rest,
     trace p = Chdir root :: SocketBind "" PORT :: rest
     /\ (forall dir', ~ In (Chdir dir') rest)
     /\ cwd p = root
     /\ forall h, In (Handled h) (trace p) -> directory h = root)
  /\ (forall snames name,
        Forall (fun w => plain_name w = true) snames ->
        plain_name name = true ->
        script_file L = absolute (snames ++ [name]) ->
        root = absolute snames)
  /\ (forall dnames snames name,
        Forall (fun w => plain_name w = true) dnames ->
        Forall (fun w => plain_name w = true) snames ->
        plain_name name = true ->
        dir = absolute dnames ->
        script_file L = Py.join "/" (snames ++ [name]) ->
        root = absolute (dnames ++ snames)).
Proof.
  intros p root.
  destruct (main_trace P fs L conns dir) as (Hcwd & Htrace).
  fold p in Hcwd, Htrace. fold (script_directory L dir) in root.
  pose proof (served_events_handled P fs root conns) as Hserved.
  split; [|split].
  - eexists. split; [exact Htrace|].
    split; [|split; [exact Hcwd|]].
    + intros dir' Hin. destruct (port_free L).
      * cbn [app] in Hin.
        destruct Hin as [Hin|[Hin|[Hin|Hin]]]; try discriminate.
        destruct (Hserved _ Hin) as [(c & _ & Hc)|(err & Hc)]; discriminate.
      * destruct Hin as [Hin|[]]. discriminate.
    + intros h Hin. rewrite Htrace in Hin.
      destruct Hin as [Hin|[Hin|Hin]]; try discriminate.
      destruct (port_free L).
      * cbn [app] in Hin.
        destruct Hin as [Hin|[Hin|[Hin|Hin]]]; try discriminate.
        destruct (Hserved _ Hin) as [(c & _ & Hc)|(err & Hc)];
          [|discriminate].
        injection Hc as ->. apply response_of_directory.
      * destruct Hin as [Hin|[]]. discriminate.
  - intros snames name Hs Hname Hfile.
    apply (script_directory_absolute L dir snames name Hs Hname Hfile).
  - intros dnames snames name Hd Hs Hname -> Hfile.
    apply (script_directory_relative L dnames snames name Hd Hs Hname Hfile).
Qed.

Lemma working_directory_fixed_before_listening_witness :
  script_file Demo.command_line = absolute ["srv"; "site"; "serve.py"]
  /\ cwd (exec (main Demo.cpython Demo.site Demo.command_line
                  demo_connections) (start "/home/user"))
     = "/srv/site".
Proof.
  split; [reflexivity|].
  destruct (working_directory_fixed_before_listening Demo.cpython Demo.site
              Demo.command_line demo_connections "/home/user")
    as ((rest & _ & _ & Hcwd & _) & Habsolute & _).
  rewrite Hcwd.
  apply (Habsolute ["srv"; "site"] "serve.py").
  - repeat constructor.
  - reflexivity.
  - reflexivity.
Defined.

(** C7.  The script binds its one listening socket to [("", 8000)]: every
    interface, port 8000.  The command line, the environment and the place
    of the script do not enter: the address is the same for every way of
    starting it. *)
Theorem listener_bound_to_port_8000 P fs L conns dir :
  let p := exec (main P fs L conns) (start dir) in
  PORT = 8000%Z
  /\ exists before after,
       trace p = (before ++ SocketBind "" 8000 :: after)%list
       /\ forall host port,
            ~ In (SocketBind host port) (before ++ after)%list.
Proof.
  intros p. split; [reflexivity|].
  destruct (main_trace P fs L conns dir) as (_ & Htrace). fold p in Htrace.
  exists [Chdir (script_directory L dir)]. eexists.
  split; [exact Htrace|].
  intros host port Hin. cbn [app] in Hin.
  destruct Hin as [Hin|Hin]; [discriminate|].
  destruct (port_free L).
  - cbn [app] in Hin.
    destruct Hin as [Hin|[Hin|[Hin|Hin]]]; try discriminate.
    destruct (served_events_handled P fs _ conns _ Hin)
      as [(c & _ & Hc)|(err & Hc)]; discriminate.
  - destruct Hin as [Hin|[]]. discriminate.
Qed.



(** C9, as the claim states it, fails: when port 8000 is in use,
    [TCPServer(...)] raises before the first [print], and the script ends
    without having printed a line. *)
Lemma busy_port_prints_nothing :
  let p := exec (main Demo.cpython Demo.site
                   {| script_file := "/srv/site/serve.py";
                      argv := ["serve.py"]; environ := [];
                      port_free := false |}
                   demo_connections) (start "/home/user") in
  stdout p = []
  /\ trace p = [Chdir "/srv/site"; SocketBind "" 8000; SocketClose].
Proof. split; vm_compute; reflexivity. Qed.

(** C9, as amended.  When port 8000 can be bound, the script prints two
    lines before it handles any connection, the address of the server and
    the address of the test page, and prints nothing after them: what
    follows in the run are the handlers of the connections and the reports
    of their exceptions, which go to the standard error.  When the port
    cannot be bound the script ends with [OSError] and prints nothing. *)
Theorem startup_prints_two_lines P fs L conns dir :
  let p := exec (main P fs L conns) (start dir) in
  stdout p
  = (if port_free L
     then ["Server running at http://localhost:8000/";
           "Test the modular page at: http://localhost:8000/node-guides/procurement-provisioning/index-modular.html"]
     else [])
  /\ fst (main P fs L conns (start dir))
     = (if port_free L then inr tt
        else inl (OSError "Address already in use"))
  /\ exists startup served,
       trace p = (startup ++ served)%list
       /\ printed startup = stdout p
       /\ (forall h, ~ In (Handled h) startup)
       /\ (forall e, In e served ->
             (exists h, e = Handled h) \/ exists err, e = Traceback err).
Proof.
  intros p. unfold p, exec, stdout.
  destruct (port_free L) eqn:Hfree.
  - rewrite (main_run P fs L conns dir Hfree). cbn [fst snd trace].
    assert (Hout : printed (startup_events L dir
                            ++ served_events P fs (script_directory L dir)
                                 conns)
                   = printed (startup_events L dir)).
    { unfold printed. rewrite flat_map_app.
      fold (printed (served_events P fs (script_directory L dir) conns)).
      rewrite served_events_print_nothing. apply app_nil_r. }
    split; [rewrite Hout; reflexivity|]. split; [reflexivity|].
    exists (startup_events L dir),
      (served_events P fs (script_directory L dir) conns).
    split; [reflexivity|]. split; [symmetry; exact Hout|]. split.
    + intros h Hin. cbn in Hin.
      repeat (destruct Hin as [Hin|Hin]; [discriminate|]). exact Hin.
    + intros e Hin.
      destruct (served_events_handled P fs _ conns e Hin)
        as [(c & _ & ->)|(err & ->)]; [left|right]; eexists; reflexivity.
  - rewrite (main_port_in_use P fs L conns dir Hfree). cbn [fst snd trace].
    split; [reflexivity|]. split; [reflexivity|].
    eexists _, []. split; [symmetry; apply app_nil_r|].
    split; [reflexivity|]. split.
    + intros h Hin. cbn in Hin.
      repeat (destruct Hin as [Hin|Hin]; [discriminate|]). exact Hin.
    + intros e [].
Qed.

(** C10, as the claim states it, fails: on a response in the style of
    HTTP/0.9 the inherited code has set no status line and no header,
    [end_headers] adds none, and the inherited [end_headers] writes no
    blank line: the handler is left as it was. *)
Lemma end_headers_adds_nothing_to_simple_response :
  request_version demo_simple_started = "HTTP/0.9"
  /\ CORSHTTPRequestHandler.end_headers demo_simple_started
     = (inr tt, demo_simple_started)
  /\ buffered demo_simple_started = []
  /\ wfile demo_simple_started = [].
Proof. repeat split; vm_compute; reflexivity. Qed.

(** C10, as amended.  [end_headers] only appends.  It makes the three
    [send_header] calls, which write nothing, and runs the inherited
    [end_headers] once on what they leave.  When the request version is not
    HTTP/0.9 the lines buffered so far stay as they are and in their order
    (the status line and the headers, when the inherited code has just set
    them), the three CORS headers follow in the order Origin, Methods,
    Headers, and the buffer, the three lines and the blank line are written
    in one block; the buffer is emptied and nothing else of the handler
    changes.  When the request version is HTTP/0.9 no header is added and
    nothing is written. *)
Theorem end_headers_only_appends P h :
  let with_cors := exec (send_headers cors_headers) h in
  cors_lines
  = [ "Access-Control-Allow-Origin: *" ++ Py.CRLF;
      "Access-Control-Allow-Methods: GET, POST, OPTIONS" ++ Py.CRLF;
      "Access-Control-Allow-Headers: Content-Type" ++ Py.CRLF ]
  /\ wfile with_cors = wfile h
  /\ CORSHTTPRequestHandler.end_headers h
     = BaseHTTPRequestHandler.end_headers with_cors
  /\ (request_version h <> "HTTP/0.9" ->
        buffered with_cors = (buffered h ++ cors_lines)%list
        /\ CORSHTTPRequestHandler.end_headers h
           = (inr tt,
              set_headers_buffer (Some [])
                (set_wfile
                   (wfile h
                    ++ [Headers (buffered h ++ cors_lines ++ [Py.CRLF])])
                   h))
        /\ forall h0 code message fields,
             buffered h0 = [] ->
             (send_response_only P code message ;; send_headers fields) h0
             = (inr tt, h) ->
             buffered h
             = status_line code (reason P code message)
               :: header_lines_of fields)
  /\ (request_version h = "HTTP/0.9" ->
        with_cors = h
        /\ CORSHTTPRequestHandler.end_headers h = (inr tt, h)).
Proof.
  intros with_cors.
  assert (H1 : http09 h = false ->
               with_cors
               = push_line (header_line "Access-Control-Allow-Headers"
                              "Content-Type")
                   (push_line (header_line "Access-Control-Allow-Methods"
                                 "GET, POST, OPTIONS")
                      (push_line (header_line "Access-Control-Allow-Origin"
                                    "*") h))).
  { intros E. unfold with_cors, exec.
    rewrite (send_cors_headers_http1 h E). reflexivity. }
  assert (H09 : http09 h = true -> with_cors = h).
  { intros E. unfold with_cors, exec. cbn [send_headers cors_headers].
    do 3 (step ltac:(apply send_header_http09; exact E);
          rewrite connection_directive_other by reflexivity).
    reflexivity. }
  assert (Hlines : http09 h = false ->
                   buffered with_cors = (buffered h ++ cors_lines)%list).
  { intros E. rewrite (H1 E). unfold push_line, buffered at 1. fields.
    unfold buffered at 1. fields. unfold buffered at 1. fields.
    rewrite <- !app_assoc. reflexivity. }
  split; [reflexivity|]. split; [|split; [|split]].
  - destruct (bool_dec (http09 h) true) as [E|E];
      [rewrite (H09 E)|apply not_true_is_false in E; rewrite (H1 E)];
      reflexivity.
  - destruct (bool_dec (http09 h) true) as [E|E];
      [|apply not_true_is_false in E].
    + rewrite (H09 E), (end_headers_http09 h E).
      symmetry. apply base_end_headers_http09, E.
    + rewrite (end_headers_http1 h E).
      rewrite (base_end_headers_http1 with_cors (buffered h ++ cors_lines)).
      * rewrite (H1 E). unfold flushed, push_line. fields.
        rewrite <- !app_assoc. reflexivity.
      * rewrite (H1 E). exact E.
      * rewrite <- (Hlines E). rewrite (H1 E). reflexivity.
  - intros Hversion.
    assert (E : http09 h = false).
    { unfold http09. apply String.eqb_neq. exact Hversion. }
    split; [exact (Hlines E)|].
    split; [rewrite (end_headers_http1 h E); reflexivity|].
    intros h0 code message fields Hempty Hrun.
    destruct (http09 h0) eqn:E0.
    + exfalso.
      erewrite bind_run in Hrun by (apply send_response_only_http09; exact E0).
      destruct (send_headers_http09 fields h0 E0) as (h' & Hrun' & E' & _).
      rewrite Hrun' in Hrun. injection Hrun as <-. congruence.
    + erewrite bind_run in Hrun by (apply send_response_only_http1; exact E0).
      cbv beta in Hrun.
      destruct (send_headers_http1 fields
                  (push_line (status_line code (reason P code message)) h0)
                  E0)
        as (h' & Hrun' & _ & Hbuf & _).
      rewrite Hrun' in Hrun. injection Hrun as <-.
      rewrite Hbuf. unfold push_line, buffered at 1. fields.
      rewrite Hempty. reflexivity.
  - intros Hversion.
    assert (E : http09 h = true).
    { unfold http09. apply String.eqb_eq. exact Hversion. }
    split; [exact (H09 E)|apply end_headers_http09, E].
Qed.

Lemma end_headers_only_appends_witness :
  request_version demo_started <> "HTTP/0.9"
  /\ buffered demo_pending = []
  /\ CORSHTTPRequestHandler.end_headers demo_started
     = (inr tt,
        set_headers_buffer (Some [])
          (set_wfile
             (wfile demo_started
              ++ [Headers
                    ((status_line 200 "OK" :: header_lines_of demo_fields)
                     ++ cors_lines ++ [Py.CRLF])])
             demo_started)).
Proof.
  assert (Hversion : request_version demo_started <> "HTTP/0.9")
    by (vm_compute; discriminate).
  split; [exact Hversion|]. split; [reflexivity|].
  destruct (end_headers_only_appends Demo.cpython demo_started)
    as (_ & _ & _ & H1 & _).
  destruct (H1 Hversion) as (_ & Hrun & Hset).
  rewrite Hrun.
  rewrite (Hset demo_pending 200%Z None demo_fields eq_refl
             ltac:(vm_compute; reflexivity)).
  reflexivity.
Defined.
(* ================================================================== *)
(** * Further properties of the server *)
(* ================================================================== *)

(** ** Requests without a version *)

Section Simple.
Variable P : platform.
Variable fs : filesystem.

Local Notation "'bare' m" := (triple headerless m (fun _ => headerless))
  (at level 10, m at level 9).

Lemma bare_ret {A} (a : A) : bare (ret a).
Proof. apply triple_ret. auto. Qed.

Lemma bare_gets {A} (f : handler -> A) : bare (gets f).
Proof. intros h H. exists (f h), h. split; [reflexivity|exact H]. Qed.

Lemma bare_modify (f : handler -> handler) :
  (forall h, request_version (f h) = request_version h
             /\ wfile (f h) = wfile h) ->
  bare (modify f).
Proof.
  intros Hf. apply triple_modify. intros h (Hv & Hw).
  destruct (Hf h) as (Hv' & Hw'). unfold headerless, http09 in *.
  rewrite Hv', Hw'. auto.
Qed.

Lemma bare_send_header keyword value : bare (send_header keyword value).
Proof.
  intros h (Hv & Hw).
  eexists tt, _. split; [apply send_header_http09, Hv|].
  destruct (connection_directive_fields keyword value h) as (Hr & _ & Hwf).
  unfold headerless. rewrite Hwf, (req_http09 _ _ Hr). auto.
Qed.

Lemma bare_send_response_only code message :
  bare (send_response_only P code message).
Proof.
  intros h Hb. eexists tt, _.
  split; [apply send_response_only_http09, Hb|exact Hb].
Qed.

Lemma bare_end_headers : bare CORSHTTPRequestHandler.end_headers.
Proof.
  intros h Hb. eexists tt, _.
  split; [apply end_headers_http09, Hb|exact Hb].
Qed.

Lemma bare_write data : bare (wfile_write (Payload data)).
Proof.
  apply triple_modify. intros h (Hv & Hw). split; [exact Hv|]. fields.
  intros lines Hin. apply in_app_or in Hin.
  destruct Hin as [Hin|[Hin|[]]]; [exact (Hw lines Hin)|discriminate].
Qed.

(** A sequence, a branch or a primitive of a method. *)
Ltac bare_step self :=
  lazymatch goal with
  | |- triple _ (bind _ _) _ =>
      eapply triple_bind; [self | cbv beta; intros ?; self]
  | |- triple _ (ret _) _ => apply bare_ret
  | |- triple _ (gets _) _ => apply bare_gets
  | |- triple _ (log_request _) _ =>
      apply bare_modify; intros ?; split; reflexivity
  | |- triple _ (log_error _ _) _ =>
      apply bare_modify; intros ?; split; reflexivity
  | |- triple _ (wfile_write (Payload _)) _ => apply bare_write
  | |- triple _ (send_header _ _) _ => apply bare_send_header
  | |- triple _ (send_response_only _ _ _) _ =>
      apply bare_send_response_only
  | |- triple _ CORSHTTPRequestHandler.end_headers _ =>
      apply bare_end_headers
  | |- triple _ (if ?b then _ else _) _ => destruct b; self
  | |- triple _ (match ?x with _ => _ end) _ => destruct x; self
  end.

Ltac bare0 := bare_step ltac:(idtac; bare0).

Lemma bare_send_response code message :
  bare (send_response P code message).
Proof. unfold send_response. bare0. Qed.

Ltac bare1 :=
  lazymatch goal with
  | |- triple _ (send_response _ _ _) _ => apply bare_send_response
  | |- _ => bare_step ltac:(idtac; bare1)
  end.

Lemma bare_send_error code message explain :
  bare
    (send_error P CORSHTTPRequestHandler.end_headers code message explain).
Proof. unfold send_error. bare1. Qed.

Ltac bare2 :=
  lazymatch goal with
  | |- triple _ (send_response _ _ _) _ => apply bare_send_response
  | |- triple _ (send_error _ _ _ _ _) _ => apply bare_send_error
  | |- _ => bare_step ltac:(idtac; bare2)
  end.

Lemma bare_do_OPTIONS : bare (CORSHTTPRequestHandler.do_OPTIONS P).
Proof. unfold CORSHTTPRequestHandler.do_OPTIONS. bare2. Qed.

(** [copyfile] writes pieces of the file, no header block. *)
Lemma bare_copyfile f : bare (SimpleHTTPRequestHandler.copyfile f).
Proof.
  intros h (Hv & Hw). unfold SimpleHTTPRequestHandler.copyfile.
  destruct (copyfileobj_run (f_data f) h) as (pieces & Hrun & _).
  eexists tt, _. split; [exact Hrun|].
  split; [exact Hv|]. fields. intros lines Hin. apply in_app_or in Hin.
  destruct Hin as [Hin|Hin]; [exact (Hw lines Hin)|].
  apply in_map_iff in Hin. destruct Hin as (piece & Hpiece & _).
  discriminate.
Qed.

(** A method that may raise: it writes no header block, however it
    ends. *)
Local Notation "'bare_x' m" :=
  (triple_x headerless m (fun _ => headerless) (fun _ => headerless))
  (at level 10, m at level 9).

Ltac bare_x_step :=
  lazymatch goal with
  | |- triple_x _ (bind _ _) _ _ =>
      eapply triple_x_bind;
      [bare_x_step | cbv beta; intros ?; bare_x_step]
  | |- triple_x _ (raise _) _ _ => apply triple_x_raise; auto
  | |- triple_x _ (SimpleHTTPRequestHandler.copyfile _) _ _ =>
      apply triple_x_total, bare_copyfile
  | |- triple_x _ (if ?b then _ else _) _ _ => destruct b; bare_x_step
  | |- triple_x _ (match ?x with _ => _ end) _ _ =>
      destruct x; bare_x_step
  | |- _ => apply triple_x_total; bare2
  end.

Lemma bare_do_GET :
  bare_x (SimpleHTTPRequestHandler.do_GET P fs
            CORSHTTPRequestHandler.end_headers).
Proof.
  unfold SimpleHTTPRequestHandler.do_GET, SimpleHTTPRequestHandler.send_head,
    SimpleHTTPRequestHandler.send_head_file,
    SimpleHTTPRequestHandler.list_directory,
    SimpleHTTPRequestHandler.translate_path,
    SimpleHTTPRequestHandler.self_path.
  bare_x_step.
Qed.

Lemma bare_do_HEAD :
  bare_x (SimpleHTTPRequestHandler.do_HEAD P fs
            CORSHTTPRequestHandler.end_headers).
Proof.
  unfold SimpleHTTPRequestHandler.do_HEAD, SimpleHTTPRequestHandler.send_head,
    SimpleHTTPRequestHandler.send_head_file,
    SimpleHTTPRequestHandler.list_directory,
    SimpleHTTPRequestHandler.translate_path,
    SimpleHTTPRequestHandler.self_path.
  bare_x_step.
Qed.

End Simple.

(** X3.  A request that is accepted with the request version HTTP/0.9 (a
    request line of two words, or one that names that version) gets no
    header block, whatever its method and whether the handler returns or
    ends with an exception: the three CORS headers are not sent. *)
Theorem simple_request_is_answered_without_headers P fs m d t h1 :
  (Py.len (raw_line m) <= 65536)%Z ->
  parses_to P m d t h1 ->
  request_version h1 = "HTTP/0.9" ->
  let h := exec (CORSHTTPRequestHandler.handle_one_request P fs m)
                (new_handler d t) in
  request_version h = "HTTP/0.9"
  /\ (forall lines, ~ In (Headers lines) (wfile h))
  /\ ~ includes_cors_headers h.
Proof.
  intros Hlen Hparse Hversion h.
  destruct (handle_one_request_dispatch P fs m d t h1 Hlen Hparse)
    as (_ & _ & _ & Hw & cmd & _ & Hrun).
  assert (Hbare : headerless h1).
  { split; [unfold http09; rewrite Hversion; reflexivity|].
    rewrite Hw. intros lines []. }
  assert (Hmethod : headerless h).
  { unfold h, exec. rewrite Hrun.
    unfold CORSHTTPRequestHandler.getattr, SimpleHTTPRequestHandler.getattr.
    destruct (_ =? "do_OPTIONS").
    { destruct (bare_do_OPTIONS P h1 Hbare) as ([] & h' & -> & H2).
      exact H2. }
    destruct (_ =? "do_GET").
    { pose proof (bare_do_GET P fs h1 Hbare) as H.
      destruct (SimpleHTTPRequestHandler.do_GET P fs _ h1) as [[e|[]] h'];
        exact H. }
    destruct (_ =? "do_HEAD").
    { pose proof (bare_do_HEAD P fs h1 Hbare) as H.
      destruct (SimpleHTTPRequestHandler.do_HEAD P fs _ h1) as [[e|[]] h'];
        exact H. }
    destruct (bare_send_error P 501
                (Some ("Unsupported method (" ++ repr P cmd ++ ")")) None
                h1 Hbare) as ([] & h' & -> & H2).
    exact H2. }
  destruct Hmethod as (Hmode & Hnone).
  split; [apply String.eqb_eq; exact Hmode|].
  split; [exact Hnone|].
  intros (lines & Hin & _). exact (Hnone lines Hin).
Qed.

Lemma simple_request_is_answered_without_headers_witness :
  request_version (demo_parsed "GET /index.html") = "HTTP/0.9"
  /\ (forall lines,
        ~ In (Headers lines) (wfile (Demo.serve_one "GET /index.html")))
  /\ ~ includes_cors_headers (Demo.serve_one "GET /index.html").
Proof.
  split; [vm_compute; reflexivity|].
  apply (simple_request_is_answered_without_headers Demo.cpython Demo.site
           (Demo.request "GET /index.html") "/srv/site" 0
           (demo_parsed "GET /index.html")).
  - vm_compute. discriminate.
  - vm_compute. reflexivity.
  - vm_compute. reflexivity.
Defined.

(** ** The methods of the class *)

(** The class has a method [do_] followed by the command only for the
    commands [OPTIONS], [GET] and [HEAD]. *)
Lemma eqb_app_same (a b c : string) : (a ++ b =? a ++ c) = (b =? c).
Proof.
  induction a as [|x a IH]; [reflexivity|].
  cbn. rewrite Ascii.eqb_refl. exact IH.
Qed.

Lemma getattr_other P fs cmd :
  cmd <> "OPTIONS" -> cmd <> "GET" -> cmd <> "HEAD" ->
  CORSHTTPRequestHandler.getattr P fs ("do_" ++ cmd) = None.
Proof.
  intros Ho Hg Hh.
  unfold CORSHTTPRequestHandler.getattr, SimpleHTTPRequestHandler.getattr.
  change "do_OPTIONS" with ("do_" ++ "OPTIONS").
  change "do_GET" with ("do_" ++ "GET").
  change "do_HEAD" with ("do_" ++ "HEAD").
  rewrite !eqb_app_same.
  apply String.eqb_neq in Ho, Hg, Hh. rewrite Ho, Hg, Hh. reflexivity.
Qed.

(** X4.  A request with any other command than [GET], [HEAD] and [OPTIONS]
    is answered 501, with the error page and the three CORS headers: so is
    [POST], which the CORS headers name as allowed. *)
Theorem unsupported_method_is_answered_501 P fs m d t h1 cmd :
  (Py.len (raw_line m) <= 65536)%Z ->
  parses_to P m d t h1 ->
  command h1 = Some cmd ->
  cmd <> "OPTIONS" -> cmd <> "GET" -> cmd <> "HEAD" ->
  request_version h1 <> "HTTP/0.9" ->
  let message := "Unsupported method (" ++ repr P cmd ++ ")" in
  let body := error_body P 501 (Some message) None in
  exists h,
    CORSHTTPRequestHandler.handle_one_request P fs m (new_handler d t)
    = (inr tt, h)
    /\ has_status 501 h
    /\ includes_cors_headers h
    /\ wfile h
       = Headers
           ([status_line 501 message;
             header_line "Server" (version_string P);
             header_line "Date" (date_time_string P t);
             header_line "Connection" "close";
             header_line "Content-Type" "text/html;charset=utf-8";
             header_line "Content-Length" (Py.str (Py.len body))]
            ++ cors_lines ++ [Py.CRLF])
         :: (if Py.nonempty body then [Payload body] else []).
Proof.
  intros Hlen Hparse Hcmd Ho Hg Hh Hversion message body.
  destruct (handle_one_request_dispatch P fs m d t h1 Hlen Hparse)
    as (Hd & Ht & Hb & Hw & cmd' & Hcmd' & Hrun).
  rewrite Hcmd in Hcmd'. injection Hcmd' as <-.
  rewrite (getattr_other P fs cmd Ho Hg Hh) in Hrun.
  assert (E : http09 h1 = false).
  { unfold http09. apply String.eqb_neq. exact Hversion. }
  destruct (send_error_spec1 P h1 E [] [] 501 (Some message) None h1)
    as ([] & h & Herr & _ & _ & Hwf).
  { repeat split; assumption. }
  assert (Hhead : command_is "HEAD" (Some cmd) = false).
  { cbn. apply String.eqb_neq. exact Hh. }
  assert (Hfinal :
    wfile h
    = Headers
        ([status_line 501 message;
          header_line "Server" (version_string P);
          header_line "Date" (date_time_string P t);
          header_line "Connection" "close";
          header_line "Content-Type" "text/html;charset=utf-8";
          header_line "Content-Length" (Py.str (Py.len body))]
         ++ cors_lines ++ [Py.CRLF])
      :: (if Py.nonempty body then [Payload body] else [])).
  { rewrite Hwf. unfold error_head, error_payload, response_head.
    rewrite Ht, Hcmd, Hhead. reflexivity. }
  exists h. split; [rewrite Hrun; exact Herr|].
  split; [unfold has_status; rewrite Hfinal; eexists _, _, _; reflexivity|].
  split; [|exact Hfinal].
  eexists. split; [rewrite Hfinal; left; reflexivity|].
  intros line Hline. apply in_or_app. right. apply in_or_app. left.
  exact Hline.
Qed.

Lemma unsupported_method_is_answered_501_witness :
  exists h,
    CORSHTTPRequestHandler.handle_one_request Demo.cpython Demo.site
      (Demo.request "POST /upload HTTP/1.1") (new_handler "/srv/site" 0)
    = (inr tt, h)
    /\ has_status 501 h
    /\ includes_cors_headers h.
Proof.
  destruct (unsupported_method_is_answered_501 Demo.cpython Demo.site
              (Demo.request "POST /upload HTTP/1.1") "/srv/site" 0
              (demo_parsed "POST /upload HTTP/1.1") "POST"
              ltac:(vm_compute; discriminate)
              ltac:(vm_compute; reflexivity)
              ltac:(vm_compute; reflexivity)
              ltac:(discriminate) ltac:(discriminate) ltac:(discriminate)
              ltac:(vm_compute; discriminate))
    as (h & Hrun & Hstatus & Hcors & _).
  exists h. split; [exact Hrun|]. split; [exact Hstatus|exact Hcors].
Defined.

Section Head.
Variable P : platform.
Variable fs : filesystem.

Local Notation "'quiet' m" := (triple bodiless m (fun _ => bodiless))
  (at level 10, m at level 9).

Lemma quiet_modify (f : handler -> handler) :
  (forall h, command (f h) = command h /\ wfile (f h) = wfile h) ->
  quiet (modify f).
Proof.
  intros Hf. apply triple_modify. intros h (Hc & Hw).
  destruct (Hf h) as (Hc' & Hw'). unfold bodiless. rewrite Hc', Hw'. auto.
Qed.

Lemma quiet_ret {A} (a : A) : quiet (ret a).
Proof. apply triple_ret. auto. Qed.

Lemma quiet_gets {A} (f : handler -> A) : quiet (gets f).
Proof. intros h H. exists (f h), h. split; [reflexivity|exact H]. Qed.

Lemma quiet_send_header keyword value : quiet (send_header keyword value).
Proof.
  intros h (Hc & Hw).
  assert (Hcd : forall h', bodiless h' ->
                bodiless (connection_directive keyword value h')).
  { intros h' (Hc' & Hw').
    destruct (connection_directive_fields keyword value h')
      as (Hr & _ & Hwf).
    unfold bodiless. rewrite Hwf.
    rewrite (req_command _ _ Hr). auto. }
  destruct (http09 h) eqn:E.
  - eexists tt, _. split; [apply send_header_http09, E|].
    apply Hcd. split; assumption.
  - eexists tt, _. split; [apply send_header_http1, E|].
    apply Hcd. split; assumption.
Qed.

Lemma quiet_send_response_only code message :
  quiet (send_response_only P code message).
Proof.
  intros h Hq. destruct (http09 h) eqn:E.
  - eexists tt, _. split; [apply send_response_only_http09, E|exact Hq].
  - eexists tt, _. split; [apply send_response_only_http1, E|exact Hq].
Qed.

Lemma quiet_end_headers : quiet CORSHTTPRequestHandler.end_headers.
Proof.
  intros h (Hc & Hw). destruct (http09 h) eqn:E.
  - eexists tt, _. split; [apply end_headers_http09, E|split; assumption].
  - eexists tt, _. split; [apply end_headers_http1, E|].
    split; [exact Hc|]. unfold flushed. fields.
    intros data Hin. apply in_app_or in Hin.
    destruct Hin as [Hin|[Hin|[]]]; [exact (Hw data Hin)|discriminate].
Qed.

(** A sequence, a branch or a primitive of a method. *)
Ltac quiet_step self :=
  lazymatch goal with
  | |- triple _ (bind _ _) _ =>
      eapply triple_bind; [self | cbv beta; intros ?; self]
  | |- triple _ (ret _) _ => apply quiet_ret
  | |- triple _ (gets _) _ => apply quiet_gets
  | |- triple _ (log_request _) _ =>
      apply quiet_modify; intros ?; split; reflexivity
  | |- triple _ (log_error _ _) _ =>
      apply quiet_modify; intros ?; split; reflexivity
  | |- triple _ (send_header _ _) _ => apply quiet_send_header
  | |- triple _ (send_response_only _ _ _) _ =>
      apply quiet_send_response_only
  | |- triple _ CORSHTTPRequestHandler.end_headers _ =>
      apply quiet_end_headers
  | |- triple _ (if ?b then _ else _) _ => destruct b; self
  | |- triple _ (match ?x with _ => _ end) _ => destruct x; self
  end.

Ltac quiet0 := quiet_step ltac:(idtac; quiet0).

Lemma quiet_send_response code message :
  quiet (send_response P code message).
Proof. unfold send_response. quiet0. Qed.

Ltac quiet1 :=
  lazymatch goal with
  | |- triple _ (send_response _ _ _) _ => apply quiet_send_response
  | |- _ => quiet_step ltac:(idtac; quiet1)
  end.

(** [send_error] sends no page in answer to [HEAD]. *)
Lemma quiet_send_error code message explain :
  quiet
    (send_error P CORSHTTPRequestHandler.end_headers code message explain).
Proof.
  unfold send_error.
  destruct (match responses P code with
            | Some p => p
            | None => ("???", "???")
            end) as [shortmsg longmsg].
  do 3 (eapply triple_bind; [quiet1|intros ?]).
  eapply triple_bind; [quiet1|intros body].
  eapply triple_bind; [quiet1|intros ?].
  eapply triple_bind; [apply triple_gets|]. cbv beta.
  intros cmd h ((Hc & Hw) & ->). rewrite Hc.
  change (command_is "HEAD" (Some "HEAD")) with true. cbn [negb andb].
  destruct body; eexists tt, h; (split; [reflexivity|split; assumption]).
Qed.

Ltac quiet2 :=
  lazymatch goal with
  | |- triple _ (send_response _ _ _) _ => apply quiet_send_response
  | |- triple _ (send_error _ _ _ _ _) _ => apply quiet_send_error
  | |- _ => quiet_step ltac:(idtac; quiet2)
  end.

(** A method that may raise: it writes no body, however it ends. *)
Local Notation "'quiet_x' m" :=
  (triple_x bodiless m (fun _ => bodiless) (fun _ => bodiless))
  (at level 10, m at level 9).

Ltac quiet_x_step :=
  lazymatch goal with
  | |- triple_x _ (bind _ _) _ _ =>
      eapply triple_x_bind;
      [quiet_x_step | cbv beta; intros ?; quiet_x_step]
  | |- triple_x _ (raise _) _ _ => apply triple_x_raise; auto
  | |- triple_x _ (if ?b then _ else _) _ _ => destruct b; quiet_x_step
  | |- triple_x _ (match ?x with _ => _ end) _ _ =>
      destruct x; quiet_x_step
  | |- _ => apply triple_x_total; quiet2
  end.

Lemma quiet_do_HEAD :
  quiet_x (SimpleHTTPRequestHandler.do_HEAD P fs
             CORSHTTPRequestHandler.end_headers).
Proof.
  unfold SimpleHTTPRequestHandler.do_HEAD, SimpleHTTPRequestHandler.send_head,
    SimpleHTTPRequestHandler.send_head_file,
    SimpleHTTPRequestHandler.list_directory,
    SimpleHTTPRequestHandler.translate_path,
    SimpleHTTPRequestHandler.self_path.
  quiet_x_step.
Qed.

End Head.

(** X5.  A [HEAD] request gets no body, whatever the path leads to (a
    file, a directory, its listing or an error) and whether the handler
    returns or ends with an exception. *)
Theorem head_request_has_no_body P fs m d t h1 :
  (Py.len (raw_line m) <= 65536)%Z ->
  parses_to P m d t h1 ->
  command h1 = Some "HEAD" ->
  let h := exec (CORSHTTPRequestHandler.handle_one_request P fs m)
                (new_handler d t) in
  command h = Some "HEAD"
  /\ forall data, ~ In (Payload data) (wfile h).
Proof.
  intros Hlen Hparse Hcmd h.
  destruct (handle_one_request_dispatch P fs m d t h1 Hlen Hparse)
    as (_ & _ & _ & Hw & cmd & Hcmd' & Hrun).
  rewrite Hcmd in Hcmd'. injection Hcmd' as <-.
  change (CORSHTTPRequestHandler.getattr P fs ("do_" ++ "HEAD"))
    with (Some (SimpleHTTPRequestHandler.do_HEAD P fs
                  CORSHTTPRequestHandler.end_headers)) in Hrun.
  assert (Hquiet : bodiless h1).
  { split; [exact Hcmd|]. rewrite Hw. intros data []. }
  pose proof (quiet_do_HEAD P fs h1 Hquiet) as H.
  unfold h, exec. rewrite Hrun.
  destruct (SimpleHTTPRequestHandler.do_HEAD P fs _ h1) as [[e|[]] h'];
    exact H.
Qed.

Lemma head_request_has_no_body_witness :
  command (demo_parsed "HEAD /index.html HTTP/1.1") = Some "HEAD"
  /\ forall data,
       ~ In (Payload data)
            (wfile (Demo.serve_one "HEAD /index.html HTTP/1.1")).
Proof.
  split; [vm_compute; reflexivity|].
  apply (head_request_has_no_body Demo.cpython Demo.site
           (Demo.request "HEAD /index.html HTTP/1.1") "/srv/site" 0
           (demo_parsed "HEAD /index.html HTTP/1.1")).
  - vm_compute. discriminate.
  - vm_compute. reflexivity.
  - vm_compute. reflexivity.
Defined.

(** ** Files and directories *)

(** [do_GET] once [send_head] has returned a file: the file is written
    after the header block, in pieces of at most [COPY_BUFSIZE] bytes. *)
Lemma do_GET_copies P fs h1 h f lines :
  SimpleHTTPRequestHandler.send_head P fs CORSHTTPRequestHandler.end_headers
    h1
  = (inr (Some f), h) ->
  wfile h = [Headers lines] ->
  exists h' pieces,
    SimpleHTTPRequestHandler.do_GET P fs CORSHTTPRequestHandler.end_headers
      h1
    = (inr tt, h')
    /\ wfile h' = Headers lines :: map Payload pieces
    /\ String.concat "" pieces = f_data f
    /\ Forall (fun piece =>
                 Py.nonempty piece = true
                 /\ String.length piece <= shutil.COPY_BUFSIZE) pieces
    /\ sent h' = Py.join "" lines ++ f_data f.
Proof.
  intros Hhead Hw.
  unfold SimpleHTTPRequestHandler.do_GET.
  rewrite (bind_run _ _ _ _ _ Hhead).
  unfold SimpleHTTPRequestHandler.copyfile.
  destruct (copyfileobj_run (f_data f) h) as (pieces & Hrun & Hcat & Hall).
  eexists _, pieces. split; [exact Hrun|]. unfold sent. fields.
  rewrite Hw. cbn [app map chunk_bytes].
  split; [reflexivity|]. split; [exact Hcat|]. split; [exact Hall|].
  rewrite map_map. cbn [chunk_bytes]. rewrite map_id.
  unfold Py.join at 1. rewrite concat_cons, Hcat. reflexivity.
Qed.

Section Files.
Variable P : platform.
Variable fs : filesystem.
Variable h0 : handler.
Hypothesis Hmode : http09 h0 = false.

(** [send_head] on the path of a file that can be opened and was modified
    since the client read it. *)
Lemma send_head_found_spec1 buf w f :
  isdir fs (resolved P h0) = false ->
  Py.endswith (resolved P h0) "/" = false ->
  open_rb fs (resolved P h0) = inr f ->
  not_modified_since P (headers h0) (st_mtime f) = false ->
  triple (at_state h0 buf w)
    (SimpleHTTPRequestHandler.send_head P fs
       CORSHTTPRequestHandler.end_headers)
    (fun r h =>
       at_state h0 []
         (w ++ [Headers
                  (buf ++ response_head P h0 200 None
                   ++ [header_line "Content-type"
                         (guess_type P (resolved P h0));
                       header_line "Content-Length" (Py.str (st_size f));
                       header_line "Last-Modified"
                         (date_time_string P (st_mtime f))]
                   ++ cors_lines ++ [Py.CRLF])])%list h
       /\ r = Some f).
Proof.
  intros Hdir Hslash Hopen Hnew.
  unfold SimpleHTTPRequestHandler.send_head,
    SimpleHTTPRequestHandler.self_path.
  eapply triple_bind;
    [apply gets_spec; exact (fun h => req_path h h0)|]. cbv beta.
  intros q h (Hst & ->). revert h Hst.
  eapply triple_bind; [apply translate_path_spec|]. cbv beta.
  intros q h (Hst & ->). revert h Hst.
  fold (resolved P h0). rewrite Hdir.
  unfold SimpleHTTPRequestHandler.send_head_file. rewrite Hslash, Hopen.
  eapply triple_bind;
    [apply gets_spec; exact (fun h => req_headers h h0)|]. cbv beta.
  intros q h (Hst & ->). revert h Hst. rewrite Hnew.
  seq (send_response_spec1 P h0 Hmode).
  do 3 seq (send_header_spec1 h0 Hmode).
  seq (end_headers_spec1 h0 Hmode).
  eapply triple_weaken; [apply triple_return|intros ? HH; exact HH|].
  cbv beta. intros r h (Hst & ->). split; [|reflexivity].
  rewrite <- !app_assoc in Hst. exact Hst.
Qed.

(** [send_head] on the path of a directory, asked for without the slash
    at its end. *)
Lemma send_head_redirect_spec1 buf w url_path :
  isdir fs (resolved P h0) = true ->
  urlsplit_path P (path h0) = inr url_path ->
  Py.endswith url_path "/" = false ->
  triple (at_state h0 buf w)
    (SimpleHTTPRequestHandler.send_head P fs
       CORSHTTPRequestHandler.end_headers)
    (fun r h =>
       at_state h0 []
         (w ++ [Headers
                  (buf ++ response_head P h0 301 None
                   ++ [header_line "Location" (redirect_url P (path h0));
                       header_line "Content-Length" "0"]
                   ++ cors_lines ++ [Py.CRLF])])%list h
       /\ r = None).
Proof.
  intros Hdir Hurl Hslash.
  unfold SimpleHTTPRequestHandler.send_head,
    SimpleHTTPRequestHandler.self_path.
  eapply triple_bind;
    [apply gets_spec; exact (fun h => req_path h h0)|]. cbv beta.
  intros q h (Hst & ->). revert h Hst.
  eapply triple_bind; [apply translate_path_spec|]. cbv beta.
  intros q h (Hst & ->). revert h Hst.
  fold (resolved P h0). rewrite Hdir, Hurl, Hslash. cbn [negb].
  seq (send_response_spec1 P h0 Hmode).
  do 2 seq (send_header_spec1 h0 Hmode).
  seq (end_headers_spec1 h0 Hmode).
  eapply triple_weaken; [apply triple_return|intros ? HH; exact HH|].
  cbv beta. intros r h (Hst & ->). split; [|reflexivity].
  rewrite <- !app_assoc in Hst. exact Hst.
Qed.

End Files.

(** X6.  A GET request that is accepted with a request version other than
    HTTP/0.9, for a path that is no directory, does not end with a slash,
    that [open] opens and that [If-Modified-Since] does not exclude, is
    answered 200: one block with the status line, [Server], [Date], the
    type, the length and the modification time of the file and the three
    CORS headers; then the bytes of the file, written in pieces of at most
    [COPY_BUFSIZE] bytes (64 KiB), none of them empty. *)
Theorem existing_file_is_served_200 P fs m d t h1 f :
  (Py.len (raw_line m) <= 65536)%Z ->
  parses_to P m d t h1 ->
  command h1 = Some "GET" ->
  request_version h1 <> "HTTP/0.9" ->
  isdir fs (resolved P h1) = false ->
  Py.endswith (resolved P h1) "/" = false ->
  open_rb fs (resolved P h1) = inr f ->
  not_modified_since P (headers h1) (st_mtime f) = false ->
  let lines :=
    ([status_line 200 (reason P 200 None);
      header_line "Server" (version_string P);
      header_line "Date" (date_time_string P t);
      header_line "Content-type" (guess_type P (resolved P h1));
      header_line "Content-Length" (Py.str (st_size f));
      header_line "Last-Modified" (date_time_string P (st_mtime f))]
     ++ cors_lines ++ [Py.CRLF])%list in
  exists h pieces,
    CORSHTTPRequestHandler.handle_one_request P fs m (new_handler d t)
    = (inr tt, h)
    /\ wfile h = Headers lines :: map Payload pieces
    /\ String.concat "" pieces = f_data f
    /\ Forall (fun piece =>
                 Py.nonempty piece = true
                 /\ String.length piece <= shutil.COPY_BUFSIZE) pieces
    /\ sent h = Py.join "" lines ++ f_data f.
Proof.
  intros Hlen Hparse Hcmd Hversion Hdir Hslash Hopen Hnew lines.
  destruct (handle_one_request_dispatch P fs m d t h1 Hlen Hparse)
    as (Hd & Ht & Hb & Hw & cmd & Hcmd' & Hrun).
  rewrite Hcmd in Hcmd'. injection Hcmd' as <-.
  change (CORSHTTPRequestHandler.getattr P fs ("do_" ++ "GET"))
    with (Some (SimpleHTTPRequestHandler.do_GET P fs
                  CORSHTTPRequestHandler.end_headers)) in Hrun.
  assert (E : http09 h1 = false).
  { unfold http09. apply String.eqb_neq. exact Hversion. }
  destruct (send_head_found_spec1 P fs h1 E [] [] f Hdir Hslash Hopen Hnew
              h1) as (r & h & Hhead & (_ & _ & Hwf) & ->).
  { repeat split; assumption. }
  rewrite Hrun. apply (do_GET_copies P fs h1 h f lines Hhead).
  rewrite Hwf. unfold response_head. rewrite Ht. reflexivity.
Qed.

Lemma existing_file_is_served_200_witness :
  open_rb Demo.site "/srv/site/index.html" = inr (Demo.file "<p>home</p>")
  /\ exists h,
       CORSHTTPRequestHandler.handle_one_request Demo.cpython Demo.site
         (Demo.request "GET /index.html HTTP/1.1")
         (new_handler "/srv/site" 0)
       = (inr tt, h)
       /\ sent h
          = Py.join ""
              ([status_line 200 "OK";
                header_line "Server" (version_string Demo.cpython);
                header_line "Date" (date_time_string Demo.cpython 0);
                header_line "Content-type" "text/html";
                header_line "Content-Length" "11";
                header_line "Last-Modified"
                  (date_time_string Demo.cpython 0)]
               ++ cors_lines ++ [Py.CRLF])
            ++ "<p>home</p>".
Proof.
  split; [reflexivity|].
  destruct (existing_file_is_served_200 Demo.cpython Demo.site
              (Demo.request "GET /index.html HTTP/1.1") "/srv/site" 0
              (demo_parsed "GET /index.html HTTP/1.1")
              (Demo.file "<p>home</p>")
              ltac:(vm_compute; discriminate)
              ltac:(vm_compute; reflexivity)
              ltac:(vm_compute; reflexivity)
              ltac:(vm_compute; discriminate)
              ltac:(vm_compute; reflexivity)
              ltac:(vm_compute; reflexivity)
              ltac:(vm_compute; reflexivity)
              ltac:(vm_compute; reflexivity))
    as (h & pieces & Hrun & _ & _ & _ & Hsent).
  exists h. split; [exact Hrun|exact Hsent].
Defined.

(** The path of an index file does not end with a slash. *)
Lemma join_index_no_slash r :
  Py.endswith (posixpath.join r "index.html") "/" = false.
Proof.
  unfold posixpath.join.
  change (Py.startswith "index.html" "/") with false. cbv iota.
  destruct (_ || _).
  - rewrite endswith_app_name; reflexivity.
  - rewrite endswith_app_name; reflexivity.
Qed.

Section Index.
Variable P : platform.
Variable fs : filesystem.
Variable h0 : handler.
Hypothesis Hmode : http09 h0 = false.

(** [send_head] on the path of a directory that holds [index.html]. *)
Lemma send_head_index_spec1 buf w f url_path :
  let index := posixpath.join (resolved P h0) "index.html" in
  isdir fs (resolved P h0) = true ->
  urlsplit_path P (path h0) = inr url_path ->
  Py.endswith url_path "/" = true ->
  isfile fs index = true ->
  open_rb fs index = inr f ->
  not_modified_since P (headers h0) (st_mtime f) = false ->
  triple (at_state h0 buf w)
    (SimpleHTTPRequestHandler.send_head P fs
       CORSHTTPRequestHandler.end_headers)
    (fun r h =>
       at_state h0 []
         (w ++ [Headers
                  (buf ++ response_head P h0 200 None
                   ++ [header_line "Content-type" (guess_type P index);
                       header_line "Content-Length" (Py.str (st_size f));
                       header_line "Last-Modified"
                         (date_time_string P (st_mtime f))]
                   ++ cors_lines ++ [Py.CRLF])])%list h
       /\ r = Some f).
Proof.
  intros index Hdir Hurl Hslash Hfile Hopen Hnew.
  unfold SimpleHTTPRequestHandler.send_head,
    SimpleHTTPRequestHandler.self_path.
  eapply triple_bind;
    [apply gets_spec; exact (fun h => req_path h h0)|]. cbv beta.
  intros q h (Hst & ->). revert h Hst.
  eapply triple_bind; [apply translate_path_spec|]. cbv beta.
  intros q h (Hst & ->). revert h Hst.
  fold (resolved P h0). rewrite Hdir, Hurl, Hslash. cbn [negb find].
  unfold index in *. rewrite Hfile.
  unfold SimpleHTTPRequestHandler.send_head_file.
  rewrite join_index_no_slash, Hopen.
  eapply triple_bind;
    [apply gets_spec; exact (fun h => req_headers h h0)|]. cbv beta.
  intros q h (Hst & ->). revert h Hst. rewrite Hnew.
  seq (send_response_spec1 P h0 Hmode).
  do 3 seq (send_header_spec1 h0 Hmode).
  seq (end_headers_spec1 h0 Hmode).
  eapply triple_weaken; [apply triple_return|intros ? HH; exact HH|].
  cbv beta. intros r h (Hst & ->). split; [|reflexivity].
  rewrite <- !app_assoc in Hst. exact Hst.
Qed.

End Index.

(** X7.  A GET request that is accepted with a request version other than
    HTTP/0.9, for a directory, whose path [urlsplit] splits and finds to
    end with a slash, is answered with [index.html] of the directory when
    that is a file that [open] opens and [If-Modified-Since] does not
    exclude: status 200, the headers of the file and the three CORS
    headers, then the bytes of the file in pieces; not the listing of the
    directory. *)
Theorem directory_is_answered_with_its_index P fs m d t h1 f url_path :
  let index := posixpath.join (resolved P h1) "index.html" in
  (Py.len (raw_line m) <= 65536)%Z ->
  parses_to P m d t h1 ->
  command h1 = Some "GET" ->
  request_version h1 <> "HTTP/0.9" ->
  isdir fs (resolved P h1) = true ->
  urlsplit_path P (path h1) = inr url_path ->
  Py.endswith url_path "/" = true ->
  isfile fs index = true ->
  open_rb fs index = inr f ->
  not_modified_since P (headers h1) (st_mtime f) = false ->
  let lines :=
    ([status_line 200 (reason P 200 None);
      header_line "Server" (version_string P);
      header_line "Date" (date_time_string P t);
      header_line "Content-type" (guess_type P index);
      header_line "Content-Length" (Py.str (st_size f));
      header_line "Last-Modified" (date_time_string P (st_mtime f))]
     ++ cors_lines ++ [Py.CRLF])%list in
  exists h pieces,
    CORSHTTPRequestHandler.handle_one_request P fs m (new_handler d t)
    = (inr tt, h)
    /\ wfile h = Headers lines :: map Payload pieces
    /\ String.concat "" pieces = f_data f
    /\ Forall (fun piece =>
                 Py.nonempty piece = true
                 /\ String.length piece <= shutil.COPY_BUFSIZE) pieces
    /\ sent h = Py.join "" lines ++ f_data f.
Proof.
  intros index Hlen Hparse Hcmd Hversion Hdir Hurl Hslash Hfile Hopen Hnew
    lines.
  destruct (handle_one_request_dispatch P fs m d t h1 Hlen Hparse)
    as (Hd & Ht & Hb & Hw & cmd & Hcmd' & Hrun).
  rewrite Hcmd in Hcmd'. injection Hcmd' as <-.
  change (CORSHTTPRequestHandler.getattr P fs ("do_" ++ "GET"))
    with (Some (SimpleHTTPRequestHandler.do_GET P fs
                  CORSHTTPRequestHandler.end_headers)) in Hrun.
  assert (E : http09 h1 = false).
  { unfold http09. apply String.eqb_neq. exact Hversion. }
  destruct (send_head_index_spec1 P fs h1 E [] [] f url_path Hdir Hurl
              Hslash Hfile Hopen Hnew h1)
    as (r & h & Hhead & (_ & _ & Hwf) & ->).
  { repeat split; assumption. }
  rewrite Hrun. apply (do_GET_copies P fs h1 h f lines Hhead).
  rewrite Hwf. unfold response_head. rewrite Ht. reflexivity.
Qed.

Lemma directory_is_answered_with_its_index_witness :
  urlsplit_path Demo.cpython "/" = inr "/"
  /\ open_rb Demo.site "/srv/site/index.html"
     = inr (Demo.file "<p>home</p>")
  /\ exists h,
       CORSHTTPRequestHandler.handle_one_request Demo.cpython Demo.site
         (Demo.request "GET / HTTP/1.1") (new_handler "/srv/site" 0)
       = (inr tt, h)
       /\ sent h
          = Py.join ""
              ([status_line 200 "OK";
                header_line "Server" (version_string Demo.cpython);
                header_line "Date" (date_time_string Demo.cpython 0);
                header_line "Content-type" "text/html";
                header_line "Content-Length" "11";
                header_line "Last-Modified"
                  (date_time_string Demo.cpython 0)]
               ++ cors_lines ++ [Py.CRLF])
            ++ "<p>home</p>".
Proof.
  split; [reflexivity|]. split; [reflexivity|].
  destruct (directory_is_answered_with_its_index Demo.cpython Demo.site
              (Demo.request "GET / HTTP/1.1") "/srv/site" 0
              (demo_parsed "GET / HTTP/1.1") (Demo.file "<p>home</p>") "/"
              ltac:(vm_compute; discriminate)
              ltac:(vm_compute; reflexivity)
              ltac:(vm_compute; reflexivity)
              ltac:(vm_compute; discriminate)
              ltac:(vm_compute; reflexivity)
              ltac:(vm_compute; reflexivity)
              ltac:(vm_compute; reflexivity)
              ltac:(vm_compute; reflexivity)
              ltac:(vm_compute; reflexivity)
              ltac:(vm_compute; reflexivity))
    as (h & pieces & Hrun & _ & _ & _ & Hsent).
  exists h. split; [exact Hrun|exact Hsent].
Defined.

(** X8.  A GET request that is accepted with a request version other than
    HTTP/0.9, for a directory, whose path [urlsplit] splits and finds not
    to end with a slash, is redirected: status 301 with [Location], a
    length of zero and the three CORS headers, and no body. *)
Theorem directory_without_slash_is_redirected P fs m d t h1 url_path :
  (Py.len (raw_line m) <= 65536)%Z ->
  parses_to P m d t h1 ->
  command h1 = Some "GET" ->
  request_version h1 <> "HTTP/0.9" ->
  isdir fs (resolved P h1) = true ->
  urlsplit_path P (path h1) = inr url_path ->
  Py.endswith url_path "/" = false ->
  exists h,
    CORSHTTPRequestHandler.handle_one_request P fs m (new_handler d t)
    = (inr tt, h)
    /\ wfile h
       = [Headers
            ([status_line 301 (reason P 301 None);
              header_line "Server" (version_string P);
              header_line "Date" (date_time_string P t);
              header_line "Location" (redirect_url P (path h1));
              header_line "Content-Length" "0"]
             ++ cors_lines ++ [Py.CRLF])].
Proof.
  intros Hlen Hparse Hcmd Hversion Hdir Hurl Hslash.
  destruct (handle_one_request_dispatch P fs m d t h1 Hlen Hparse)
    as (Hd & Ht & Hb & Hw & cmd & Hcmd' & Hrun).
  rewrite Hcmd in Hcmd'. injection Hcmd' as <-.
  change (CORSHTTPRequestHandler.getattr P fs ("do_" ++ "GET"))
    with (Some (SimpleHTTPRequestHandler.do_GET P fs
                  CORSHTTPRequestHandler.end_headers)) in Hrun.
  assert (E : http09 h1 = false).
  { unfold http09. apply String.eqb_neq. exact Hversion. }
  destruct (send_head_redirect_spec1 P fs h1 E [] [] url_path Hdir Hurl
              Hslash h1)
    as (r & h & Hhead & (_ & _ & Hwf) & ->).
  { repeat split; assumption. }
  unfold SimpleHTTPRequestHandler.do_GET in Hrun.
  rewrite (bind_run _ _ _ _ _ Hhead) in Hrun.
  exists h. split; [exact Hrun|].
  rewrite Hwf. unfold response_head. rewrite Ht. reflexivity.
Qed.

Lemma directory_without_slash_is_redirected_witness :
  urlsplit_path Demo.cpython "/img" = inr "/img"
  /\ exists h,
       CORSHTTPRequestHandler.handle_one_request Demo.cpython Demo.site
         (Demo.request "GET /img HTTP/1.1") (new_handler "/srv/site" 0)
       = (inr tt, h)
       /\ wfile h
          = [Headers
               ([status_line 301 "Moved Permanently";
                 header_line "Server" (version_string Demo.cpython);
                 header_line "Date" (date_time_string Demo.cpython 0);
                 header_line "Location" "/img/";
                 header_line "Content-Length" "0"]
                ++ cors_lines ++ [Py.CRLF])].
Proof.
  split; [reflexivity|].
  apply (directory_without_slash_is_redirected Demo.cpython Demo.site
           (Demo.request "GET /img HTTP/1.1") "/srv/site" 0
           (demo_parsed "GET /img HTTP/1.1") "/img").
  - vm_compute. discriminate.
  - vm_compute. reflexivity.
  - vm_compute. reflexivity.
  - vm_compute. discriminate.
  - vm_compute. reflexivity.
  - vm_compute. reflexivity.
  - vm_compute. reflexivity.
Defined.

Section Listing.
Variable P : platform.
Variable fs : filesystem.
Variable h0 : handler.
Hypothesis Hmode : http09 h0 = false.

(** [send_head] on the path of a directory without an index file. *)
Lemma send_head_listing_spec1 buf w names url_path page :
  isdir fs (resolved P h0) = true ->
  urlsplit_path P (path h0) = inr url_path ->
  Py.endswith url_path "/" = true ->
  isfile fs (posixpath.join (resolved P h0) "index.html") = false ->
  isfile fs (posixpath.join (resolved P h0) "index.htm") = false ->
  listdir fs (resolved P h0) = Some names ->
  listing_page P (resolved P h0) (path h0) names = inr page ->
  triple (at_state h0 buf w)
    (SimpleHTTPRequestHandler.send_head P fs
       CORSHTTPRequestHandler.end_headers)
    (fun r h =>
       at_state h0 []
         (w ++ [Headers
                  (buf ++ response_head P h0 200 None
                   ++ [header_line "Content-type"
                         ("text/html; charset=" ++ getfilesystemencoding P);
                       header_line "Content-Length" (Py.str (Py.len page))]
                   ++ cors_lines ++ [Py.CRLF])])%list h
       /\ option_map f_data r = Some page).
Proof.
  intros Hdir Hurl Hslash Hindex Hindex' Hlist Hpage.
  unfold SimpleHTTPRequestHandler.send_head,
    SimpleHTTPRequestHandler.self_path.
  eapply triple_bind;
    [apply gets_spec; exact (fun h => req_path h h0)|]. cbv beta.
  intros q h (Hst & ->). revert h Hst.
  eapply triple_bind; [apply translate_path_spec|]. cbv beta.
  intros q h (Hst & ->). revert h Hst.
  fold (resolved P h0). rewrite Hdir, Hurl, Hslash. cbn [negb find].
  rewrite Hindex, Hindex'.
  unfold SimpleHTTPRequestHandler.list_directory,
    SimpleHTTPRequestHandler.self_path. rewrite Hlist.
  eapply triple_bind;
    [apply gets_spec; exact (fun h => req_path h h0)|]. cbv beta.
  intros q h (Hst & ->). revert h Hst. rewrite Hpage.
  seq (send_response_spec1 P h0 Hmode).
  do 2 seq (send_header_spec1 h0 Hmode).
  seq (end_headers_spec1 h0 Hmode).
  eapply triple_weaken; [apply triple_return|intros ? HH; exact HH|].
  cbv beta. intros r h (Hst & ->). split; [|reflexivity].
  rewrite <- !app_assoc in Hst. exact Hst.
Qed.

End Listing.

(** X9.  A GET request that is accepted with a request version other than
    HTTP/0.9, for a directory whose path [urlsplit] splits and finds to end
    with a slash, which holds neither [index.html] nor [index.htm] as a
    file, which [os.listdir] lists and whose listing can be encoded, is
    answered 200 with the listing and the three CORS headers: the names in
    the directory are shown to every origin. *)
Theorem directory_without_index_is_listed
        P fs m d t h1 names url_path page :
  (Py.len (raw_line m) <= 65536)%Z ->
  parses_to P m d t h1 ->
  command h1 = Some "GET" ->
  request_version h1 <> "HTTP/0.9" ->
  isdir fs (resolved P h1) = true ->
  urlsplit_path P (path h1) = inr url_path ->
  Py.endswith url_path "/" = true ->
  isfile fs (posixpath.join (resolved P h1) "index.html") = false ->
  isfile fs (posixpath.join (resolved P h1) "index.htm") = false ->
  listdir fs (resolved P h1) = Some names ->
  listing_page P (resolved P h1) (path h1) names = inr page ->
  let lines :=
    ([status_line 200 (reason P 200 None);
      header_line "Server" (version_string P);
      header_line "Date" (date_time_string P t);
      header_line "Content-type"
        ("text/html; charset=" ++ getfilesystemencoding P);
      header_line "Content-Length" (Py.str (Py.len page))]
     ++ cors_lines ++ [Py.CRLF])%list in
  exists h pieces,
    CORSHTTPRequestHandler.handle_one_request P fs m (new_handler d t)
    = (inr tt, h)
    /\ wfile h = Headers lines :: map Payload pieces
    /\ String.concat "" pieces = page
    /\ Forall (fun piece =>
                 Py.nonempty piece = true
                 /\ String.length piece <= shutil.COPY_BUFSIZE) pieces
    /\ sent h = Py.join "" lines ++ page.
Proof.
  intros Hlen Hparse Hcmd Hversion Hdir Hurl Hslash Hindex Hindex' Hlist
    Hpage lines.
  destruct (handle_one_request_dispatch P fs m d t h1 Hlen Hparse)
    as (Hd & Ht & Hb & Hw & cmd & Hcmd' & Hrun).
  rewrite Hcmd in Hcmd'. injection Hcmd' as <-.
  change (CORSHTTPRequestHandler.getattr P fs ("do_" ++ "GET"))
    with (Some (SimpleHTTPRequestHandler.do_GET P fs
                  CORSHTTPRequestHandler.end_headers)) in Hrun.
  assert (E : http09 h1 = false).
  { unfold http09. apply String.eqb_neq. exact Hversion. }
  destruct (send_head_listing_spec1 P fs h1 E [] [] names url_path page
              Hdir Hurl Hslash Hindex Hindex' Hlist Hpage h1)
    as (r & h & Hhead & (_ & _ & Hwf) & Hr).
  { repeat split; assumption. }
  destruct r as [f|]; [|discriminate]. injection Hr as Hf.
  rewrite Hrun, <- Hf. apply (do_GET_copies P fs h1 h f lines Hhead).
  rewrite Hwf. unfold response_head. rewrite Ht. reflexivity.
Qed.

Lemma directory_without_index_is_listed_witness :
  urlsplit_path Demo.cpython "/etc/" = inr "/etc/"
  /\ listing_page Demo.cpython "/srv/site/etc/" "/etc/" ["passwd"]
     = inr "<ul>passwd</ul>"
  /\ exists h,
       CORSHTTPRequestHandler.handle_one_request Demo.cpython Demo.site
         (Demo.request "GET /etc/ HTTP/1.1") (new_handler "/srv/site" 0)
       = (inr tt, h)
       /\ sent h
          = Py.join ""
              ([status_line 200 "OK";
                header_line "Server" (version_string Demo.cpython);
                header_line "Date" (date_time_string Demo.cpython 0);
                header_line "Content-type" "text/html; charset=utf-8";
                header_line "Content-Length" "15"]
               ++ cors_lines ++ [Py.CRLF])
            ++ "<ul>passwd</ul>".
Proof.
  split; [reflexivity|]. split; [reflexivity|].
  destruct (directory_without_index_is_listed Demo.cpython Demo.site
              (Demo.request "GET /etc/ HTTP/1.1") "/srv/site" 0
              (demo_parsed "GET /etc/ HTTP/1.1") ["passwd"] "/etc/"
              "<ul>passwd</ul>"
              ltac:(vm_compute; discriminate)
              ltac:(vm_compute; reflexivity)
              ltac:(vm_compute; reflexivity)
              ltac:(vm_compute; discriminate)
              ltac:(vm_compute; reflexivity)
              ltac:(vm_compute; reflexivity)
              ltac:(vm_compute; reflexivity)
              ltac:(vm_compute; reflexivity)
              ltac:(vm_compute; reflexivity)
              ltac:(vm_compute; reflexivity)
              ltac:(vm_compute; reflexivity))
    as (h & pieces & Hrun & _ & _ & _ & Hsent).
  exists h. split; [exact Hrun|exact Hsent].
Defined.

(** Cutting a text at the first occurrence of a character. *)
Lemma split1_absent c s : occurs c s = false -> Py.split1 c s = (s, None).
Proof.
  induction s as [|x s IH]; [reflexivity|]. cbn [occurs Py.split1].
  intros H. apply orb_false_elim in H. destruct H as (Hx & Hs).
  rewrite Hx, (IH Hs). reflexivity.
Qed.

Lemma split1_first c s rest :
  occurs c s = false ->
  Py.split1 c (s ++ String c rest) = (s, Some rest).
Proof.
  induction s as [|x s IH]; cbn [occurs Py.split1 String.append].
  - intros _. rewrite Ascii.eqb_refl. reflexivity.
  - intros H. apply orb_false_elim in H. destruct H as (Hx & Hs).
    rewrite Hx, (IH Hs). reflexivity.
Qed.

Lemma fst_split1_app c p r :
  occurs c p = false ->
  fst (Py.split1 c (p ++ r)) = p ++ fst (Py.split1 c r).
Proof.
  induction p as [|x p IH]; cbn [occurs Py.split1 String.append].
  - reflexivity.
  - intros H. apply orb_false_elim in H. destruct H as (Hx & Hs).
    rewrite Hx. specialize (IH Hs).
    destruct (Py.split1 c (p ++ r)) as [a b]. cbn [fst] in *.
    rewrite IH. reflexivity.
Qed.

(** X10.  The query and the fragment of a request path do not enter the
    file system path: [/page.html?v=2] and [/page.html#top] lead where
    [/page.html] leads. *)
Theorem query_and_fragment_are_ignored P p q h :
  occurs "?" p = false -> occurs "#" p = false ->
  SimpleHTTPRequestHandler.translate_path P (p ++ "?" ++ q) h
  = SimpleHTTPRequestHandler.translate_path P p h
  /\ SimpleHTTPRequestHandler.translate_path P (p ++ "#" ++ q) h
     = SimpleHTTPRequestHandler.translate_path P p h.
Proof.
  intros Hq Hf.
  assert (Hp : fst (Py.split1 "#" (fst (Py.split1 "?" p))) = p).
  { rewrite (split1_absent "?" p Hq). cbn [fst].
    rewrite (split1_absent "#" p Hf). reflexivity. }
  assert (Hquery :
    fst (Py.split1 "#" (fst (Py.split1 "?" (p ++ "?" ++ q)))) = p).
  { change (p ++ "?" ++ q) with (p ++ String "?" q).
    rewrite (split1_first "?" p q Hq). cbn [fst].
    rewrite (split1_absent "#" p Hf). reflexivity. }
  assert (Hfragment :
    fst (Py.split1 "#" (fst (Py.split1 "?" (p ++ "#" ++ q)))) = p).
  { change (p ++ "#" ++ q) with (p ++ String "#" q).
    rewrite (fst_split1_app "?" p _ Hq).
    cbn [Py.split1]. change (Ascii.eqb "#" "?") with false. cbv iota.
    destruct (Py.split1 "?" q) as [a b]. cbn [fst].
    rewrite (split1_first "#" p a Hf). reflexivity. }
  rewrite !translate_path_run. unfold translated. cbv zeta.
  rewrite Hp, Hquery, Hfragment. split; reflexivity.
Qed.

Lemma query_and_fragment_are_ignored_witness :
  SimpleHTTPRequestHandler.translate_path Demo.cpython
    ("/components/nav.html" ++ "?" ++ "v=2") (new_handler "/srv/site" 0)
  = (inr "/srv/site/components/nav.html", new_handler "/srv/site" 0).
Proof.
  rewrite (proj1 (query_and_fragment_are_ignored Demo.cpython
                    "/components/nav.html" "v=2"
                    (new_handler "/srv/site" 0) eq_refl eq_refl)).
  vm_compute. reflexivity.
Defined.

(** ** Request lines that are not parsed *)

(** X11.  A request line without a word, empty or blank, is not answered:
    nothing is written and nothing is logged, and the connection is
    closed. *)
Theorem blank_request_line_is_not_answered P fs m d t :
  Py.split_ws (Py.rstrip is_newline (raw_line m)) = [] ->
  (Py.len (raw_line m) <= 65536)%Z ->
  exists h,
    CORSHTTPRequestHandler.handle_one_request P fs m (new_handler d t)
    = (inr tt, h)
    /\ wfile h = [] /\ stderr h = [] /\ _headers_buffer h = None
    /\ command h = None /\ close_connection h = true.
Proof.
  intros Hwords Hlen.
  assert (Hlt : (65536 <? Py.len (raw_line m))%Z = false)
    by (apply Z.ltb_ge; exact Hlen).
  unfold CORSHTTPRequestHandler.handle_one_request, handle_one_request.
  unfold bind at 1, modify at 1. rewrite Hlt.
  destruct (raw_line m) as [|c rest] eqn:Hraw.
  - eexists. split; [reflexivity|]. repeat split.
  - cbn [Py.nonempty negb].
    unfold parse_request. unfold_monad. fields. rewrite Hwords.
    eexists. split; [reflexivity|]. repeat split.
Qed.

Lemma blank_request_line_is_not_answered_witness :
  exists h,
    CORSHTTPRequestHandler.handle_one_request Demo.cpython Demo.site
      (Demo.request "  ") (new_handler "/srv/site" 0)
    = (inr tt, h)
    /\ wfile h = [] /\ stderr h = [] /\ _headers_buffer h = None
    /\ command h = None /\ close_connection h = true.
Proof.
  apply (blank_request_line_is_not_answered Demo.cpython Demo.site
           (Demo.request "  ") "/srv/site" 0).
  - vm_compute. reflexivity.
  - vm_compute. discriminate.
Defined.

(** X12.  A request line of more than 65536 bytes is answered 414 without
    being parsed, with the three CORS headers. *)
Theorem oversized_request_line_is_answered_414 P fs m d t :
  (65536 < Py.len (raw_line m))%Z ->
  exists h,
    CORSHTTPRequestHandler.handle_one_request P fs m (new_handler d t)
    = (inr tt, h)
    /\ has_status 414 h
    /\ includes_cors_headers h
    /\ command h = Some "" /\ path h = "".
Proof.
  intros Hlen. apply Z.ltb_lt in Hlen.
  unfold CORSHTTPRequestHandler.handle_one_request, handle_one_request.
  unfold bind at 1, modify at 1. rewrite Hlen.
  set (h0 := set_command (Some "")
               (set_request_version ""
                  (set_requestline ""
                     (set_raw_requestline (raw_line m) (new_handler d t))))).
  destruct (send_error_spec1 P h0 eq_refl [] [] 414 None None h0)
    as ([] & h & Herr & Hreq & _ & Hwf).
  { repeat split. }
  exists h. split.
  - unfold_monad. exact Herr.
  - destruct (req_fields _ _ Hreq) as (_ & _ & _ & _ & Hc & Hp & _).
    split; [|split; [|split; [exact Hc|exact Hp]]].
    + unfold has_status. rewrite Hwf. unfold error_head, response_head.
      eexists _, _, _. reflexivity.
    + eexists. split; [rewrite Hwf; left; reflexivity|].
      intros line Hline. cbn [app]. apply in_or_app. right.
      apply in_or_app. left. exact Hline.
Qed.

Lemma oversized_request_line_is_answered_414_witness :
  exists h,
    CORSHTTPRequestHandler.handle_one_request Demo.cpython Demo.site
      demo_oversized (new_handler "/srv/site" 0)
    = (inr tt, h)
    /\ has_status 414 h
    /\ includes_cors_headers h.
Proof.
  destruct (oversized_request_line_is_answered_414 Demo.cpython Demo.site
              demo_oversized "/srv/site" 0
              ltac:(vm_compute; reflexivity))
    as (h & Hrun & Hstatus & Hcors & _).
  exists h. split; [exact Hrun|]. split; [exact Hstatus|exact Hcors].
Defined.

Section Version.
Variable P : platform.
Variable fs : filesystem.

(** An error sent while the request version is still the default: the
    page alone is written. *)
Lemma send_error_before_version h0 code message :
  http09 h0 = true -> _headers_buffer h0 = None -> wfile h0 = [] ->
  command h0 = None ->
  exists h,
    send_error P CORSHTTPRequestHandler.end_headers code (Some message) None
      h0
    = (inr tt, h)
    /\ wfile h
       = (if has_body code
             && Py.nonempty (error_body P code (Some message) None)
          then [Payload (error_body P code (Some message) None)] else [])
    /\ ~ includes_cors_headers h.
Proof.
  intros E Hb Hw Hc.
  destruct (send_error_spec09 P h0 E [] [] code (Some message) None h0)
    as ([] & h & Herr & _ & _ & Hwf).
  { repeat split; [unfold buffered; rewrite Hb; reflexivity|exact Hw]. }
  assert (Hfinal :
    wfile h
    = (if has_body code
          && Py.nonempty (error_body P code (Some message) None)
       then [Payload (error_body P code (Some message) None)] else [])).
  { rewrite Hwf. unfold error_payload. rewrite Hc. cbn [command_is negb app].
    rewrite andb_true_r. reflexivity. }
  exists h. split; [exact Herr|]. split; [exact Hfinal|].
  intros (lines & Hin & _). rewrite Hfinal in Hin.
  destruct (_ && _); [destruct Hin as [Hin|[]]; discriminate|destruct Hin].
Qed.

(** The run of [handle_one_request] up to the check of the version. *)
Lemma handle_one_request_version m d t :
  let words := Py.split_ws (Py.rstrip is_newline (raw_line m)) in
  let h0 :=
    set_requestline (Py.rstrip is_newline (raw_line m))
      (set_close_connection true
         (set_request_version default_request_version
            (set_command None
               (set_raw_requestline (raw_line m) (new_handler d t))))) in
  (Py.len (raw_line m) <= 65536)%Z ->
  (3 <= List.length words)%nat ->
  forall code message,
    match parse_version P (last words "") with
    | None =>
        code = 400%Z
        /\ message = "Bad request version (" ++ repr P (last words "") ++ ")"
    | Some (major, minor, number) =>
        pair_ge (major, minor) (2, 0)%Z = true
        /\ code = 505%Z
        /\ message = "Invalid HTTP version (" ++ number ++ ")"
    end ->
    CORSHTTPRequestHandler.handle_one_request P fs m (new_handler d t)
    = (send_error P CORSHTTPRequestHandler.end_headers code (Some message)
         None ;; ret tt) h0.
Proof.
  intros words h0 Hlen Hwords code message Hversion.
  assert (Hlt : (65536 <? Py.len (raw_line m))%Z = false)
    by (apply Z.ltb_ge; exact Hlen).
  unfold CORSHTTPRequestHandler.handle_one_request, handle_one_request.
  unfold bind at 1, modify at 1. rewrite Hlt.
  destruct (raw_line m) as [|c rest] eqn:Hraw.
  { cbn in Hwords. lia. }
  cbn [Py.nonempty negb].
  unfold parse_request. unfold_monad. fields.
  fold words. fold h0.
  destruct words as [|w ws] eqn:Hw; [cbn in Hwords; lia|].
  apply Nat.leb_le in Hwords. rewrite Hwords.
  destruct (parse_version P (last (w :: ws) "")) as [[[major minor] number]|].
  - destruct Hversion as (Hge & -> & ->).
    rewrite protocol_is_http10, andb_false_r, Hge.
    destruct (send_error _ _ _ _ _ _) as [[e|[]] h]; reflexivity.
  - destruct Hversion as (-> & ->).
    destruct (send_error _ _ _ _ _ _) as [[e|[]] h]; reflexivity.
Qed.

End Version.

(** X13.  A request line of three words or more whose last word is not a
    version ([HTTP/] and two numbers with a dot between) is answered with
    the page of the error 400 alone: the error is sent before the version
    of the request is set, in the style of HTTP/0.9, so there is no status
    line and no CORS header. *)
Theorem malformed_version_is_answered_without_headers P fs m d t :
  let words := Py.split_ws (Py.rstrip is_newline (raw_line m)) in
  (Py.len (raw_line m) <= 65536)%Z ->
  (3 <= List.length words)%nat ->
  parse_version P (last words "") = None ->
  let body :=
    error_body P 400
      (Some ("Bad request version (" ++ repr P (last words "") ++ ")"))
      None in
  exists h,
    CORSHTTPRequestHandler.handle_one_request P fs m (new_handler d t)
    = (inr tt, h)
    /\ wfile h = (if Py.nonempty body then [Payload body] else [])
    /\ ~ includes_cors_headers h.
Proof.
  intros words Hlen Hwords Hversion body.
  rewrite (handle_one_request_version P fs m d t Hlen Hwords 400
             ("Bad request version (" ++ repr P (last words "") ++ ")")).
  2:{ fold words. rewrite Hversion. split; reflexivity. }
  match goal with
  | |- exists h, (_ ;; _) ?s = _ /\ _ =>
      destruct (send_error_before_version P s 400
                  ("Bad request version (" ++ repr P (last words "") ++ ")")
                  eq_refl eq_refl eq_refl eq_refl)
        as (h & Herr & Hw & Hcors)
  end.
  exists h. split; [rewrite (bind_run _ _ _ _ _ Herr); reflexivity|].
  split; [exact Hw|exact Hcors].
Qed.

Lemma malformed_version_is_answered_without_headers_witness :
  exists h,
    CORSHTTPRequestHandler.handle_one_request Demo.cpython Demo.site
      (Demo.request "GET /index.html HTTP/1.x") (new_handler "/srv/site" 0)
    = (inr tt, h)
    /\ ~ includes_cors_headers h.
Proof.
  destruct (malformed_version_is_answered_without_headers Demo.cpython
              Demo.site (Demo.request "GET /index.html HTTP/1.x")
              "/srv/site" 0
              ltac:(vm_compute; discriminate)
              ltac:(vm_compute; lia)
              ltac:(vm_compute; reflexivity))
    as (h & Hrun & _ & Hcors).
  exists h. split; [exact Hrun|exact Hcors].
Defined.

(** X14.  A request line whose version is 2.0 or higher is answered with
    the page of the error 505 alone, for the same reason: no status line
    and no CORS header. *)
Theorem unsupported_version_is_answered_without_headers
        P fs m d t major minor number :
  let words := Py.split_ws (Py.rstrip is_newline (raw_line m)) in
  (Py.len (raw_line m) <= 65536)%Z ->
  (3 <= List.length words)%nat ->
  parse_version P (last words "") = Some (major, minor, number) ->
  pair_ge (major, minor) (2, 0)%Z = true ->
  let body :=
    error_body P 505 (Some ("Invalid HTTP version (" ++ number ++ ")"))
      None in
  exists h,
    CORSHTTPRequestHandler.handle_one_request P fs m (new_handler d t)
    = (inr tt, h)
    /\ wfile h = (if Py.nonempty body then [Payload body] else [])
    /\ ~ includes_cors_headers h.
Proof.
  intros words Hlen Hwords Hversion Hge body.
  rewrite (handle_one_request_version P fs m d t Hlen Hwords 505
             ("Invalid HTTP version (" ++ number ++ ")")).
  2:{ fold words. rewrite Hversion. repeat split. exact Hge. }
  match goal with
  | |- exists h, (_ ;; _) ?s = _ /\ _ =>
      destruct (send_error_before_version P s 505
                  ("Invalid HTTP version (" ++ number ++ ")")
                  eq_refl eq_refl eq_refl eq_refl)
        as (h & Herr & Hw & Hcors)
  end.
  exists h. split; [rewrite (bind_run _ _ _ _ _ Herr); reflexivity|].
  split; [exact Hw|exact Hcors].
Qed.

Lemma unsupported_version_is_answered_without_headers_witness :
  exists h,
    CORSHTTPRequestHandler.handle_one_request Demo.cpython Demo.site
      (Demo.request "GET /index.html HTTP/2.0") (new_handler "/srv/site" 0)
    = (inr tt, h)
    /\ ~ includes_cors_headers h.
Proof.
  destruct (unsupported_version_is_answered_without_headers Demo.cpython
              Demo.site (Demo.request "GET /index.html HTTP/2.0")
              "/srv/site" 0 2 0 "2.0"
              ltac:(vm_compute; discriminate)
              ltac:(vm_compute; lia)
              ltac:(vm_compute; reflexivity)
              ltac:(vm_compute; reflexivity))
    as (h & Hrun & _ & Hcors).
  exists h. split; [exact Hrun|exact Hcors].
Defined.

(** ** Connections and the start of the script *)

(** X15.  A connection is closed after its first request.  The class keeps
    the protocol version HTTP/1.0 of its base, so [Connection: keep-alive]
    and HTTP/1.1 do not keep it open: [handle] does what
    [handle_one_request] does with the first request, whether that returns
    or raises, the handler is left with [close_connection] set, and what
    follows on the connection is not read. *)
Theorem connection_is_closed_after_one_request P fs m rest d t :
  CORSHTTPRequestHandler.handle P fs (m :: rest) (new_handler d t)
  = CORSHTTPRequestHandler.handle_one_request P fs m (new_handler d t)
  /\ CORSHTTPRequestHandler.handle P fs (m :: rest) (new_handler d t)
     = CORSHTTPRequestHandler.handle P fs [m] (new_handler d t)
  /\ close_connection
       (exec (CORSHTTPRequestHandler.handle P fs (m :: rest))
             (new_handler d t))
     = true.
Proof.
  assert (Hsteady : steady d t (new_handler d t)) by (repeat split).
  pose proof (handle_one_connection P fs d t (m :: rest) (new_handler d t)
                Hsteady) as Hall.
  pose proof (handle_one_connection P fs d t [m] (new_handler d t) Hsteady)
    as Hone.
  cbn [hd] in Hall, Hone.
  split; [exact Hall|]. split; [rewrite Hall, Hone; reflexivity|].
  unfold exec. rewrite Hall.
  pose proof (keeps_handle_one_request P fs d t m (new_handler d t) Hsteady)
    as Hkeeps.
  destruct (CORSHTTPRequestHandler.handle_one_request P fs m _)
    as [[e|[]] h]; apply Hkeeps.
Qed.

(** X16.  When port 8000 cannot be bound the script ends in
    [TCPServer(...)] with [OSError]: the working directory has been
    changed, the socket is closed, neither line is printed and no
    connection is handled. *)
Theorem port_in_use_stops_before_serving P fs L conns dir :
  port_free L = false ->
  exists e p,
    main P fs L conns (start dir) = (inl e, p)
    /\ e = OSError "Address already in use"
    /\ cwd p = posixpath.dirname (posixpath.abspath dir (script_file L))
    /\ trace p = [Chdir (cwd p); SocketBind "" PORT; SocketClose]
    /\ stdout p = []
    /\ forall h, ~ In (Handled h) (trace p).
Proof.
  intros Hfree. eexists _, _.
  split; [apply main_port_in_use, Hfree|].
  repeat split.
  intros h Hin. cbn in Hin.
  repeat (destruct Hin as [Hin|Hin]; [discriminate|]). exact Hin.
Qed.

Lemma port_in_use_stops_before_serving_witness :
  exists e p,
    main Demo.cpython Demo.site
      {| script_file := "serve.py"; argv := ["serve.py"]; environ := [];
         port_free := false |}
      demo_connections (start "/srv/site")
    = (inl e, p)
    /\ stdout p = []
    /\ cwd p = "/srv/site".
Proof.
  destruct (port_in_use_stops_before_serving Demo.cpython Demo.site
              {| script_file := "serve.py"; argv := ["serve.py"];
                 environ := []; port_free := false |}
              demo_connections "/srv/site" eq_refl)
    as (e & p & Hrun & _ & Hcwd & _ & Hout & _).
  exists e, p. split; [exact Hrun|]. split; [exact Hout|].
  rewrite Hcwd. reflexivity.
Defined.

(** Absolute paths: [join], [normpath] and [dirname] keep the slash a path
    starts with. *)
Lemma isabs_cons s : posixpath.isabs s = true -> exists s', s = String "/" s'.
Proof.
  destruct s as [|c s]; [discriminate|].
  unfold posixpath.isabs, Py.startswith. cbn [String.prefix].
  destruct (ascii_dec "/" c) as [<-|]; [|discriminate].
  intros _. exists s. reflexivity.
Qed.

Lemma isabs_slash s : posixpath.isabs (String "/" s) = true.
Proof.
  unfold posixpath.isabs, Py.startswith. cbn [String.prefix].
  destruct (ascii_dec "/" "/"); [destruct s; reflexivity|congruence].
Qed.

Lemma isabs_join a b :
  posixpath.isabs a = true -> posixpath.isabs (posixpath.join a b) = true.
Proof.
  intros Ha. unfold posixpath.join.
  destruct (Py.startswith b "/") eqn:Hb; [exact Hb|].
  destruct (isabs_cons a Ha) as (a' & ->).
  destruct (_ || _); apply isabs_slash.
Qed.

Lemma isabs_normpath p :
  posixpath.isabs p = true -> posixpath.isabs (posixpath.normpath p) = true.
Proof.
  intros Hp. destruct (isabs_cons p Hp) as (p' & ->).
  unfold posixpath.normpath. cbn [Py.nonempty negb].
  fold (posixpath.isabs (String "/" p')). rewrite isabs_slash.
  destruct (_ && _); cbn [String.append Py.nonempty]; apply isabs_slash.
Qed.

Lemma rstrip_sep_nonempty s :
  posixpath.all_sep s = false ->
  Py.nonempty (Py.rstrip posixpath.is_sep s) = true.
Proof.
  induction s as [|c s IH]; [discriminate|].
  cbn [posixpath.all_sep Py.rstrip]. intros H.
  destruct (posixpath.is_sep c); cbn [andb] in *.
  - rewrite (IH H). reflexivity.
  - rewrite andb_false_r. reflexivity.
Qed.

Lemma isabs_dirname p :
  posixpath.isabs p = true -> posixpath.isabs (posixpath.dirname p) = true.
Proof.
  intros Hp. destruct (isabs_cons p Hp) as (p' & ->).
  unfold posixpath.dirname. cbn [posixpath.head_upto_last_sep].
  change (posixpath.is_sep "/") with true. rewrite orb_true_r.
  cbn [Py.nonempty andb posixpath.all_sep].
  change (posixpath.is_sep "/") with true. cbn [andb].
  destruct (posixpath.all_sep (posixpath.head_upto_last_sep p')) eqn:Hall;
    cbn [negb]; [apply isabs_slash|].
  cbn [Py.rstrip]. rewrite (rstrip_sep_nonempty _ Hall). cbn [negb andb].
  apply isabs_slash.
Qed.

(** X17.  Started in a directory given by an absolute path, or from a
    script given by one, the script serves from an absolute path: so is
    the working directory it changes to, and the directory of every
    handler. *)
Theorem served_root_is_absolute P fs L conns dir :
  posixpath.isabs dir = true \/ posixpath.isabs (script_file L) = true ->
  let p := exec (main P fs L conns) (start dir) in
  posixpath.isabs (cwd p) = true
  /\ forall h, In (Handled h) (trace p) ->
       posixpath.isabs (directory h) = true.
Proof.
  intros Habs p.
  assert (Hroot : posixpath.isabs (script_directory L dir) = true).
  { unfold script_directory, posixpath.abspath.
    apply isabs_dirname, isabs_normpath.
    destruct (posixpath.isabs (script_file L)) eqn:Hfile; [exact Hfile|].
    destruct Habs as [Hdir|Hf]; [|discriminate].
    apply isabs_join, Hdir. }
  destruct (main_trace P fs L conns dir) as (Hcwd & Htrace).
  fold p in Hcwd, Htrace.
  split; [rewrite Hcwd; exact Hroot|].
  intros h Hin. rewrite Htrace in Hin.
  destruct Hin as [Hin|[Hin|Hin]]; try discriminate.
  destruct (port_free L).
  - cbn [app map startup_lines] in Hin.
    destruct Hin as [Hin|[Hin|[Hin|Hin]]]; try discriminate.
    destruct (served_events_handled P fs _ conns _ Hin)
      as [(c & _ & Hc)|(err & Hc)]; [|discriminate].
    injection Hc as ->. rewrite response_of_directory. exact Hroot.
  - destruct Hin as [Hin|[]]. discriminate.
Qed.

Lemma served_root_is_absolute_witness :
  posixpath.isabs
    (cwd (exec (main Demo.cpython Demo.site
                  {| script_file := "site/serve.py"; argv := [];
                     environ := []; port_free := true |}
                  demo_connections) (start "/srv")))
  = true.
Proof.
  exact (proj1 (served_root_is_absolute Demo.cpython Demo.site
                  {| script_file := "site/serve.py"; argv := [];
                     environ := []; port_free := true |}
                  demo_connections "/srv" (or_introl eq_refl))).
Defined.

(** ** Exceptions that are not caught *)

(** [send_head] on a path on which [open] raises another exception than
    [OSError]. *)
Lemma send_head_raises P fs h e :
  isdir fs (resolved P h) = false ->
  Py.endswith (resolved P h) "/" = false ->
  open_rb fs (resolved P h) = inl e ->
  (forall msg, e <> OSError msg) ->
  SimpleHTTPRequestHandler.send_head P fs CORSHTTPRequestHandler.end_headers
    h
  = (inl e, h).
Proof.
  intros Hdir Hslash Hopen Hother.
  unfold SimpleHTTPRequestHandler.send_head,
    SimpleHTTPRequestHandler.self_path.
  unfold bind at 1, gets at 1.
  unfold bind at 1. rewrite translate_path_run.
  fold (resolved P h). rewrite Hdir.
  unfold SimpleHTTPRequestHandler.send_head_file. rewrite Hslash, Hopen.
  destruct e; try reflexivity.
  exfalso. exact (Hother _ eq_refl).
Qed.

(** X18.  An exception of [open] other than [OSError] is not caught by the
    handler.  A GET or HEAD request that is accepted, for a path that is no
    directory and does not end with a slash, on which [open] raises such an
    exception ([ValueError] for a path with a null byte), ends with that
    exception: no status line, no header and no body is written.  The
    server reports the exception for the connection. *)
Theorem open_error_is_not_caught P fs m d t h1 e :
  (Py.len (raw_line m) <= 65536)%Z ->
  parses_to P m d t h1 ->
  command h1 = Some "GET" \/ command h1 = Some "HEAD" ->
  isdir fs (resolved P h1) = false ->
  Py.endswith (resolved P h1) "/" = false ->
  open_rb fs (resolved P h1) = inl e ->
  (forall msg, e <> OSError msg) ->
  CORSHTTPRequestHandler.handle_one_request P fs m (new_handler d t)
  = (inl e, h1)
  /\ wfile h1 = []
  /\ forall rest,
       connection_events P fs d
         {| conn_time := t; conn_messages := m :: rest |}
       = [Handled h1; Traceback e].
Proof.
  intros Hlen Hparse Hcmd Hdir Hslash Hopen Hother.
  destruct (handle_one_request_dispatch P fs m d t h1 Hlen Hparse)
    as (_ & _ & _ & Hw & cmd & Hcmd' & Hrun).
  pose proof (send_head_raises P fs h1 e Hdir Hslash Hopen Hother) as Hhead.
  assert (Hone :
    CORSHTTPRequestHandler.handle_one_request P fs m (new_handler d t)
    = (inl e, h1)).
  { rewrite Hrun.
    destruct Hcmd as [Hcmd|Hcmd]; rewrite Hcmd in Hcmd';
      injection Hcmd' as <-.
    - change (CORSHTTPRequestHandler.getattr P fs ("do_" ++ "GET"))
        with (Some (SimpleHTTPRequestHandler.do_GET P fs
                      CORSHTTPRequestHandler.end_headers)).
      unfold SimpleHTTPRequestHandler.do_GET, bind. rewrite Hhead.
      reflexivity.
    - change (CORSHTTPRequestHandler.getattr P fs ("do_" ++ "HEAD"))
        with (Some (SimpleHTTPRequestHandler.do_HEAD P fs
                      CORSHTTPRequestHandler.end_headers)).
      unfold SimpleHTTPRequestHandler.do_HEAD, bind. rewrite Hhead.
      reflexivity. }
  split; [exact Hone|]. split; [exact Hw|].
  intros rest. unfold connection_events, response_of, outcome_of, exec.
  cbn [conn_time conn_messages hd]. rewrite Hone. reflexivity.
Qed.

Lemma open_error_is_not_caught_witness :
  open_rb Demo.site ("/srv/site/a" ++ String "000" "b")
  = inl (ValueError "embedded null byte")
  /\ fst (CORSHTTPRequestHandler.handle_one_request Demo.cpython Demo.site
            (Demo.request ("GET /a" ++ String "000" "b HTTP/1.1"))
            (new_handler "/srv/site" 0))
     = inl (ValueError "embedded null byte")
  /\ wfile (Demo.serve_one ("GET /a" ++ String "000" "b HTTP/1.1")) = [].
Proof.
  split; [reflexivity|].
  destruct (open_error_is_not_caught Demo.cpython Demo.site
              (Demo.request ("GET /a" ++ String "000" "b HTTP/1.1"))
              "/srv/site" 0
              (demo_parsed ("GET /a" ++ String "000" "b HTTP/1.1"))
              (ValueError "embedded null byte")
              ltac:(vm_compute; discriminate)
              ltac:(vm_compute; reflexivity)
              ltac:(left; vm_compute; reflexivity)
              ltac:(vm_compute; reflexivity)
              ltac:(vm_compute; reflexivity)
              ltac:(vm_compute; reflexivity)
              ltac:(discriminate))
    as (Hrun & Hw & _).
  unfold Demo.serve_one, exec. rewrite Hrun. cbn [fst snd].
  split; [reflexivity|exact Hw].
Defined.
